(** * go-mcp: the source analyzer (pkg/mcp/ast.go) and the document
    session manager (pkg/mcp/lsp.go)

    A shallow embedding of the two Go files and the proofs of the
    properties stated about them.  The Go standard library packages the
    code calls ([go/token], [go/ast], [go/parser], [strings]) are modelled
    in the first part; the program itself follows, function by function,
    under the names it has in the source. *)

From Stdlib Require Import ZArith List String Ascii Bool Lia.
From stdpp Require Import gmap strings list fin_maps.

Open Scope Z_scope.

(* ===================================================================== *)
(** ** Go's [int]                                                         *)
(* ===================================================================== *)

(** [int] is a 64-bit two's complement integer on the platforms the
    program is built for; [+], [-] and [++] wrap around silently. *)
Module GoInt.

Definition min_int : Z := - 2 ^ 63.
Definition max_int : Z := 2 ^ 63 - 1.

Definition wrap (x : Z) : Z := (x + 2 ^ 63) mod 2 ^ 64 - 2 ^ 63.

Definition add (a b : Z) : Z := wrap (a + b).
Definition sub (a b : Z) : Z := wrap (a - b).

(** [x++] *)
Definition incr (x : Z) : Z := add x 1.

(** [len(s)] of a slice or of a string (bytes). *)
Definition len {A} (l : list A) : Z := Z.of_nat (List.length l).
Definition strlen (s : string) : Z := Z.of_nat (String.length s).

End GoInt.

(* ===================================================================== *)
(** ** strings                                                            *)
(* ===================================================================== *)

Module Strings.

(** The double quote, byte 34. *)
Definition dquote : ascii := ascii_of_nat 34.

Fixpoint TrimLeft (s : string) (c : ascii) : string :=
  match s with
  | String a rest => if Ascii.eqb a c then TrimLeft rest c else s
  | EmptyString => EmptyString
  end.

Fixpoint TrimRight (s : string) (c : ascii) : string :=
  match s with
  | String a rest =>
      match TrimRight rest c with
      | EmptyString => if Ascii.eqb a c then EmptyString else String a EmptyString
      | r => String a r
      end
  | EmptyString => EmptyString
  end.

(** [strings.Trim(s, cutset)] for a one-byte cutset: every leading and
    trailing occurrence of the byte is removed. *)
Definition Trim (s : string) (c : ascii) : string := TrimRight (TrimLeft s c) c.

(** [strings.Join(elems, sep)] *)
Definition Join (elems : list string) (sep : string) : string := String.concat sep elems.

(** [strings.HasPrefix(s, prefix)] *)
Definition HasPrefix (s p : string) : bool := String.prefix p s.

(** A string literal between double quotes, as the scanner keeps it in
    [BasicLit.Value]. *)
Definition quoted (s : string) : string :=
  String dquote (s +:+ String dquote EmptyString).

End Strings.

(* ===================================================================== *)
(** ** go/token                                                           *)
(* ===================================================================== *)

(** [token.Pos]: an offset into the file set; 0 is [token.NoPos]. *)
Definition Pos := Z.

Definition NoPos : Pos := 0.

(** The tokens that occur as a field of a syntax node. *)
Inductive Token : Type :=
| INT | FLOAT | IMAG | CHAR | STRING
| ADD | SUB | MUL | QUO | REM
| AND | OR | XOR | SHL | SHR | AND_NOT
| LAND | LOR | ARROW | INC | DEC
| EQL | LSS | GTR | ASSIGN | NOT
| NEQ | LEQ | GEQ | DEFINE
| BREAK | CONTINUE | GOTO | FALLTHROUGH
| IMPORT | CONST | TYPE | VAR.

(** [token.Position], without its [Offset], which the program does not
    read.  [Line] and [Column] start at 1; the zero value is the invalid
    position. *)
Record TokPosition := {
  TokPosition_Filename : string;
  TokPosition_Line : Z;
  TokPosition_Column : Z }.

Definition noPosition : TokPosition :=
  {| TokPosition_Filename := EmptyString; TokPosition_Line := 0; TokPosition_Column := 0 |}.

(** [token.File]: the base offset of the file in its set, its size, and
    the offsets at which its lines start (the first one is 0). *)
Record TokFile := {
  TokFile_name : string;
  TokFile_base : Z;
  TokFile_size : Z;
  TokFile_lines : list Z }.

(** [token.FileSet]: the files added so far.  [token.NewFileSet()] is the
    empty set. *)
Definition FileSet := list TokFile.

Definition NewFileSet : FileSet := [].

Module TokenLib.

(** The file of the set whose range holds [p]. *)
Definition file (s : FileSet) (p : Pos) : option TokFile :=
  List.find (fun f => (TokFile_base f <=? p) && (p <=? TokFile_base f + TokFile_size f)) s.

(** The last line start at or before [off]: its 1-based number and its
    offset. *)
Fixpoint searchLine (lines : list Z) (off : Z) (i : Z) (best : Z * Z) : Z * Z :=
  match lines with
  | [] => best
  | st :: rest =>
      if st <=? off then searchLine rest off (i + 1) (i, st) else best
  end.

(** [FileSet.Position(p)], without [//line] directives. *)
Definition Position (s : FileSet) (p : Pos) : TokPosition :=
  if p =? NoPos then noPosition
  else
    match file s p with
    | Some f =>
        let off := p - TokFile_base f in
        let '(ln, st) := searchLine (TokFile_lines f) off 1 (0, 0) in
        {| TokPosition_Filename := TokFile_name f;
           TokPosition_Line := ln;
           TokPosition_Column := off - st + 1 |}
    | None => noPosition
    end.

End TokenLib.

(* ===================================================================== *)
(** ** go/ast: the syntax tree                                            *)
(* ===================================================================== *)

Record Ident := { Ident_NamePos : Pos; Ident_Name : string }.

Record Comment := { Comment_Slash : Pos; Comment_Text : string }.

Record CommentGroup := { CommentGroup_List : list Comment }.

Record BasicLit := {
  BasicLit_ValuePos : Pos;
  BasicLit_Kind : Token;
  BasicLit_Value : string }.

Record ImportSpec := {
  ImportSpec_Doc : option CommentGroup;
  ImportSpec_Name : option Ident;
  ImportSpec_Path : BasicLit;
  ImportSpec_Comment : option CommentGroup }.

Inductive ChanDir : Type := SEND | RECV | SEND_RECV.

Scheme All for option.
Scheme All for list.

(** [ast.Node].  Go's [ast.Expr], [ast.Stmt], [ast.Decl] and [ast.Spec]
    are interfaces that the program inspects with type switches, so one
    type holds all of them; the constructors are the node types some
    function of the program tells apart, with the fields of the Go struct
    in the order [ast.Walk] visits them.  [Other] stands for every
    remaining node type (calls, blocks, assignments, ...): it keeps the
    name [%T] prints and the children in the order they are walked.
    [FuncDecl], [TypeSpec] and [ValueSpec] record the value of their
    [Pos()] and [End()] methods where these are not the position of a
    name. *)
Inductive Node : Type :=
| NIdent (id : Ident)
| NBasicLit (lit : BasicLit)
| NComment (c : Comment)
| NCommentGroup (g : CommentGroup)
| SelectorExpr (X : Node) (Sel : Ident)
| StarExpr (X : Node)
| BinaryExpr (X : Node) (Op : Token) (Y : Node)
| ArrayType (Len : option Node) (Elt : Node)
| StructType (Fields : Node)
| FuncType (TypeParams Params Results : option Node)
| InterfaceType (Methods : Node)
| MapType (Key Value : Node)
| ChanType (Dir : ChanDir) (Value : Node)
| Field (Doc : option CommentGroup) (Names : list Ident) (Typ : option Node)
        (Tag : option BasicLit) (Comment : option CommentGroup)
| FieldList (List : list Node)
| IfStmt (Init : option Node) (Cond : Node) (Body : Node) (Else : option Node)
| ForStmt (Init Cond Post : option Node) (Body : Node)
| RangeStmt (Key Value : option Node) (X : Node) (Body : Node)
| CaseClause (List : list Node) (Body : list Node)
| CommClause (Comm : option Node) (Body : list Node)
| NImportSpec (spec : ImportSpec)
| ValueSpec (Doc : option CommentGroup) (Names : list Ident) (Typ : option Node)
            (Values : list Node) (Comment : option CommentGroup) (EndPos : Pos)
| TypeSpec (Doc : option CommentGroup) (Name : Ident) (TypeParams : option Node)
           (Typ : Node) (Comment : option CommentGroup) (EndPos : Pos)
| GenDecl (Doc : option CommentGroup) (Tok : Token) (Specs : list Node)
| FuncDecl (Doc : option CommentGroup) (Recv : option Node) (Name : Ident)
           (Typ : Node) (Body : option Node) (StartPos EndPos : Pos)
| Other (gotype : string) (children : list Node).

(** [*ast.File].  [File_Package] is the position of the [package]
    keyword, which is [file.Pos()]; [File_Imports] lists the import specs
    that also occur inside [File_Decls]; [File_End] is the value of
    [file.End()]. *)
Record File := {
  File_Doc : option CommentGroup;
  File_Package : Pos;
  File_Name : Ident;
  File_Decls : list Node;
  File_Imports : list ImportSpec;
  File_End : Pos }.

(** Node types without a constructor of their own. *)
Module Ast.

Definition CallExpr (Fun : Node) (Args : list Node) : Node :=
  Other "*ast.CallExpr" (Fun :: Args).
Definition ParenExpr (X : Node) : Node := Other "*ast.ParenExpr" [X].
Definition UnaryExpr (X : Node) : Node := Other "*ast.UnaryExpr" [X].
Definition IndexExpr (X Index : Node) : Node := Other "*ast.IndexExpr" [X; Index].
Definition FuncLit (Typ Body : Node) : Node := Other "*ast.FuncLit" [Typ; Body].
Definition Ellipsis (Elt : Node) : Node := Other "*ast.Ellipsis" [Elt].
Definition BlockStmt (List : list Node) : Node := Other "*ast.BlockStmt" List.
Definition ExprStmt (X : Node) : Node := Other "*ast.ExprStmt" [X].
Definition ReturnStmt (Results : list Node) : Node := Other "*ast.ReturnStmt" Results.
Definition AssignStmt (Lhs Rhs : list Node) : Node := Other "*ast.AssignStmt" (Lhs ++ Rhs).
Definition IncDecStmt (X : Node) : Node := Other "*ast.IncDecStmt" [X].
Definition DeclStmt (Decl : Node) : Node := Other "*ast.DeclStmt" [Decl].
Definition GoStmt (Call : Node) : Node := Other "*ast.GoStmt" [Call].
Definition DeferStmt (Call : Node) : Node := Other "*ast.DeferStmt" [Call].
Definition SwitchStmt (Init Tag : option Node) (Body : Node) : Node :=
  Other "*ast.SwitchStmt" (option_list Init ++ option_list Tag ++ [Body]).
Definition TypeSwitchStmt (Init : option Node) (Assign Body : Node) : Node :=
  Other "*ast.TypeSwitchStmt" (option_list Init ++ [Assign; Body]).
Definition SelectStmt (Body : Node) : Node := Other "*ast.SelectStmt" [Body].

(** The name [fmt.Sprintf] prints for [%T]. *)
Definition TypeName (n : Node) : string :=
  match n with
  | NIdent _ => "*ast.Ident"
  | NBasicLit _ => "*ast.BasicLit"
  | NComment _ => "*ast.Comment"
  | NCommentGroup _ => "*ast.CommentGroup"
  | SelectorExpr _ _ => "*ast.SelectorExpr"
  | StarExpr _ => "*ast.StarExpr"
  | BinaryExpr _ _ _ => "*ast.BinaryExpr"
  | ArrayType _ _ => "*ast.ArrayType"
  | StructType _ => "*ast.StructType"
  | FuncType _ _ _ => "*ast.FuncType"
  | InterfaceType _ => "*ast.InterfaceType"
  | MapType _ _ => "*ast.MapType"
  | ChanType _ _ => "*ast.ChanType"
  | Field _ _ _ _ _ => "*ast.Field"
  | FieldList _ => "*ast.FieldList"
  | IfStmt _ _ _ _ => "*ast.IfStmt"
  | ForStmt _ _ _ _ => "*ast.ForStmt"
  | RangeStmt _ _ _ _ => "*ast.RangeStmt"
  | CaseClause _ _ => "*ast.CaseClause"
  | CommClause _ _ => "*ast.CommClause"
  | NImportSpec _ => "*ast.ImportSpec"
  | ValueSpec _ _ _ _ _ _ => "*ast.ValueSpec"
  | TypeSpec _ _ _ _ _ _ => "*ast.TypeSpec"
  | GenDecl _ _ _ => "*ast.GenDecl"
  | FuncDecl _ _ _ _ _ _ _ => "*ast.FuncDecl"
  | Other t _ => t
  end.

(** [Ident.Pos()] and the [Pos()] of the specs, which is the position
    of their first name. *)
Definition Ident_Pos (id : Ident) : Pos := Ident_NamePos id.

Definition ImportSpec_Pos (s : ImportSpec) : Pos :=
  match ImportSpec_Name s with
  | Some id => Ident_Pos id
  | None => BasicLit_ValuePos (ImportSpec_Path s)
  end.

(** [go/parser] builds no [ValueSpec] without a name. *)
Definition ValueSpec_Pos (Names : list Ident) : Pos :=
  match Names with
  | id :: _ => Ident_Pos id
  | [] => NoPos
  end.

(** Field access through a pointer the Go type system knows to be a
    [*ast.FieldList], [*ast.Field] or [*ast.FuncType]. *)
Definition FieldList_List (n : Node) : list Node :=
  match n with
  | FieldList l => l
  | _ => []
  end.

Definition Field_Doc (n : Node) : option CommentGroup :=
  match n with
  | Field doc _ _ _ _ => doc
  | _ => None
  end.

Definition Field_Names (n : Node) : list Ident :=
  match n with
  | Field _ names _ _ _ => names
  | _ => []
  end.

Definition Field_Type (n : Node) : option Node :=
  match n with
  | Field _ _ t _ _ => t
  | _ => None
  end.

Definition Field_Tag (n : Node) : option BasicLit :=
  match n with
  | Field _ _ _ tag _ => tag
  | _ => None
  end.

Definition FuncType_Params (n : Node) : option Node :=
  match n with
  | FuncType _ params _ => params
  | _ => None
  end.

Definition FuncType_Results (n : Node) : option Node :=
  match n with
  | FuncType _ _ results => results
  | _ => None
  end.

(** ** ast.Inspect *)

Section Inspect.

Context {S : Type}.

(** The callback: the node it is given and the variables it closes over,
    to the flag it returns and the new value of the variables.
    [ast.Inspect] also calls it with [nil] after the children of a node;
    every callback of the program ignores that call (no case of its type
    switch matches [nil]), so it is left out. *)
Variable f : Node -> S -> bool * S.

(** A child that has no children of its own. *)
Definition visit (n : Node) (s : S) : S := snd (f n s).

Definition visitIdent (id : Ident) (s : S) : S := visit (NIdent id) s.

Definition visitLit (lit : BasicLit) (s : S) : S := visit (NBasicLit lit) s.

Definition walkGroup (g : CommentGroup) (s : S) : S :=
  let '(go, s1) := f (NCommentGroup g) s in
  if go then fold_left (fun acc c => visit (NComment c) acc) (CommentGroup_List g) s1 else s1.

Definition walkOpt {A} (w : A -> S -> S) (o : option A) (s : S) : S :=
  match o with
  | Some x => w x s
  | None => s
  end.

Definition walkList {A} (w : A -> S -> S) (l : list A) (s : S) : S :=
  fold_left (fun acc x => w x acc) l s.

Definition walkImportSpec (sp : ImportSpec) (s : S) : S :=
  walkOpt walkGroup (ImportSpec_Comment sp)
    (visitLit (ImportSpec_Path sp)
       (walkOpt visitIdent (ImportSpec_Name sp)
          (walkOpt walkGroup (ImportSpec_Doc sp) s))).

(** [ast.Inspect(n, f)]: [f] on the node, then, if it returned true, the
    children in the order of [ast.Walk]. *)
Fixpoint Inspect (n : Node) (s : S) : S :=
  let '(go, s1) := f n s in
  if negb go then s1 else
  match n with
  | NIdent _ | NBasicLit _ | NComment _ => s1
  | NCommentGroup g =>
      fold_left (fun acc c => visit (NComment c) acc) (CommentGroup_List g) s1
  | SelectorExpr x sel => visitIdent sel (Inspect x s1)
  | StarExpr x => Inspect x s1
  | BinaryExpr x _ y => Inspect y (Inspect x s1)
  | ArrayType len elt => Inspect elt (walkOpt Inspect len s1)
  | StructType fields => Inspect fields s1
  | FuncType tparams params results =>
      walkOpt Inspect results (walkOpt Inspect params (walkOpt Inspect tparams s1))
  | InterfaceType methods => Inspect methods s1
  | MapType k v => Inspect v (Inspect k s1)
  | ChanType _ v => Inspect v s1
  | Field doc names type tag comment =>
      walkOpt walkGroup comment
        (walkOpt visitLit tag
           (walkOpt Inspect type
              (walkList visitIdent names (walkOpt walkGroup doc s1))))
  | FieldList l => walkList Inspect l s1
  | IfStmt init cond body els =>
      walkOpt Inspect els (Inspect body (Inspect cond (walkOpt Inspect init s1)))
  | ForStmt init cond post body =>
      Inspect body
        (walkOpt Inspect post (walkOpt Inspect cond (walkOpt Inspect init s1)))
  | RangeStmt k v x body =>
      Inspect body (Inspect x (walkOpt Inspect v (walkOpt Inspect k s1)))
  | CaseClause l body => walkList Inspect body (walkList Inspect l s1)
  | CommClause comm body => walkList Inspect body (walkOpt Inspect comm s1)
  | NImportSpec sp => walkImportSpec sp s1
  | ValueSpec doc names type values comment _ =>
      walkOpt walkGroup comment
        (walkList Inspect values
           (walkOpt Inspect type
              (walkList visitIdent names (walkOpt walkGroup doc s1))))
  | TypeSpec doc name tparams type comment _ =>
      walkOpt walkGroup comment
        (Inspect type
           (walkOpt Inspect tparams (visitIdent name (walkOpt walkGroup doc s1))))
  | GenDecl doc _ specs => walkList Inspect specs (walkOpt walkGroup doc s1)
  | FuncDecl doc recv name type body _ _ =>
      walkOpt Inspect body
        (Inspect type
           (visitIdent name (walkOpt Inspect recv (walkOpt walkGroup doc s1))))
  | Other _ l => walkList Inspect l s1
  end.

(** [ast.Inspect(file, f)].  The root is the [*ast.File] itself, which no
    callback of the program has a case for and on which all of them
    return true: the walk goes on with the file's [Doc], [Name] and
    [Decls] ([File.Comments] is not walked). *)
Definition InspectFile (file : File) (s : S) : S :=
  walkList Inspect (File_Decls file)
    (visitIdent (File_Name file) (walkOpt walkGroup (File_Doc file) s)).

End Inspect.

(** ** The nodes of a subtree *)

Definition groupNodes (g : CommentGroup) : list Node :=
  NCommentGroup g :: map NComment (CommentGroup_List g).

Definition optNodes {A} (w : A -> list Node) (o : option A) : list Node :=
  match o with
  | Some x => w x
  | None => []
  end.

Definition identNode (id : Ident) : list Node := [NIdent id].

Definition litNode (lit : BasicLit) : list Node := [NBasicLit lit].

Definition importSpecNodes (sp : ImportSpec) : list Node :=
  optNodes groupNodes (ImportSpec_Doc sp) ++ optNodes identNode (ImportSpec_Name sp)
  ++ litNode (ImportSpec_Path sp) ++ optNodes groupNodes (ImportSpec_Comment sp).

(** Every node of the subtree rooted at [n], [n] first, in depth-first
    pre-order. *)
Fixpoint subnodes (n : Node) : list Node :=
  n ::
  match n with
  | NIdent _ | NBasicLit _ | NComment _ => []
  | NCommentGroup g => map NComment (CommentGroup_List g)
  | SelectorExpr x sel => subnodes x ++ identNode sel
  | StarExpr x => subnodes x
  | BinaryExpr x _ y => subnodes x ++ subnodes y
  | ArrayType len elt => optNodes subnodes len ++ subnodes elt
  | StructType fields => subnodes fields
  | FuncType tparams params results =>
      optNodes subnodes tparams ++ optNodes subnodes params ++ optNodes subnodes results
  | InterfaceType methods => subnodes methods
  | MapType k v => subnodes k ++ subnodes v
  | ChanType _ v => subnodes v
  | Field doc names type tag comment =>
      optNodes groupNodes doc ++ flat_map identNode names ++ optNodes subnodes type
      ++ optNodes litNode tag ++ optNodes groupNodes comment
  | FieldList l => flat_map subnodes l
  | IfStmt init cond body els =>
      optNodes subnodes init ++ subnodes cond ++ subnodes body ++ optNodes subnodes els
  | ForStmt init cond post body =>
      optNodes subnodes init ++ optNodes subnodes cond ++ optNodes subnodes post
      ++ subnodes body
  | RangeStmt k v x body =>
      optNodes subnodes k ++ optNodes subnodes v ++ subnodes x ++ subnodes body
  | CaseClause l body => flat_map subnodes l ++ flat_map subnodes body
  | CommClause comm body => optNodes subnodes comm ++ flat_map subnodes body
  | NImportSpec sp => importSpecNodes sp
  | ValueSpec doc names type values comment _ =>
      optNodes groupNodes doc ++ flat_map identNode names ++ optNodes subnodes type
      ++ flat_map subnodes values ++ optNodes groupNodes comment
  | TypeSpec doc name tparams type comment _ =>
      optNodes groupNodes doc ++ identNode name ++ optNodes subnodes tparams
      ++ subnodes type ++ optNodes groupNodes comment
  | GenDecl doc _ specs => optNodes groupNodes doc ++ flat_map subnodes specs
  | FuncDecl doc recv name type body _ _ =>
      optNodes groupNodes doc ++ optNodes subnodes recv ++ identNode name
      ++ subnodes type ++ optNodes subnodes body
  | Other _ l => flat_map subnodes l
  end.

(** The nodes below the root of a file. *)
Definition fileNodes (file : File) : list Node :=
  optNodes groupNodes (File_Doc file) ++ identNode (File_Name file)
  ++ flat_map subnodes (File_Decls file).

End Ast.

(** The two functions of [go/ast] whose result depends on the text of
    comments and on Unicode tables: [(g *CommentGroup) Text()] and
    [ast.IsExported]. *)
Class AstLib := {
  CommentGroup_Text : CommentGroup -> string;
  IsExported : string -> bool }.

(* ===================================================================== *)
(** ** go/types: the part of [types.Info] the analyzer reads              *)
(* ===================================================================== *)

(** [types.Object], by dynamic type; a [*types.PkgName] knows the path of
    the package it imports. *)
Inductive Object : Type :=
| ObjFunc (name : string)
| ObjVar (name : string)
| ObjConst (name : string)
| ObjTypeName (name : string)
| ObjPkgName (name : string) (importedPath : string)
| ObjLabel (name : string)
| ObjBuiltin (name : string)
| ObjNil.

Definition Object_Name (obj : Object) : string :=
  match obj with
  | ObjFunc n | ObjVar n | ObjConst n | ObjTypeName n
  | ObjPkgName n _ | ObjLabel n | ObjBuiltin n => n
  | ObjNil => "nil"
  end.

(** [Defs] and [Uses] are keyed by [*ast.Ident]; an identifier node is
    told from the others by its position and name.  [Types] and
    [Implicits] are never read. *)
Definition IdentKey : Type := Z * string.

Definition identKey (id : Ident) : IdentKey := (Ident_NamePos id, Ident_Name id).

Record TypesInfo := {
  TypesInfo_Defs : gmap IdentKey Object;
  TypesInfo_Uses : gmap IdentKey Object }.

(* ===================================================================== *)
(** ** The records of the program                                         *)
(* ===================================================================== *)

(** lsp.go *)
Record Position := { Position_Line : Z; Position_Character : Z }.

Record Range := { Range_Start : Position; Range_End : Position }.

Record Location := { Location_URI : string; Location_Range : Range }.

Record SymbolInfo := {
  SymbolInfo_Name : string;
  SymbolInfo_Kind : string;
  SymbolInfo_Location : Location;
  SymbolInfo_Container : string;
  SymbolInfo_Signature : string }.

Record Document := {
  Document_URI : string;
  Document_Text : string;
  Document_AST : File;
  Document_Symbols : list SymbolInfo;
  Document_Version : Z }.

Record TextDocumentItem := {
  TextDocumentItem_URI : string;
  TextDocumentItem_Text : string;
  TextDocumentItem_Version : Z }.

Record LanguageServer := {
  LanguageServer_workspaceRoot : string;
  LanguageServer_documents : gmap string Document;
  LanguageServer_fileSet : FileSet }.

(** The analysis records. *)
Record ImportInfo := {
  ImportInfo_Path : string;
  ImportInfo_Name : string;
  ImportInfo_Used : bool }.

Record ParameterInfo := {
  ParameterInfo_Name : string;
  ParameterInfo_Type : string;
  ParameterInfo_IsVariadic : bool }.

Record FunctionInfo := {
  FunctionInfo_Name : string;
  FunctionInfo_Signature : string;
  FunctionInfo_Doc : string;
  FunctionInfo_Location : Location;
  FunctionInfo_Complexity : Z;
  FunctionInfo_IsMethod : bool;
  FunctionInfo_Receiver : string;
  FunctionInfo_Parameters : list ParameterInfo;
  FunctionInfo_Returns : list ParameterInfo }.

Record FieldInfo := {
  FieldInfo_Name : string;
  FieldInfo_Type : string;
  FieldInfo_Doc : string;
  FieldInfo_Tags : string;
  FieldInfo_IsEmbed : bool }.

Record MethodInfo := {
  MethodInfo_Name : string;
  MethodInfo_Signature : string;
  MethodInfo_Doc : string;
  MethodInfo_Parameters : list ParameterInfo;
  MethodInfo_Returns : list ParameterInfo }.

Record TypeInfo := {
  TypeInfo_Name : string;
  TypeInfo_Kind : string;
  TypeInfo_Doc : string;
  TypeInfo_Location : Location;
  TypeInfo_Fields : list FieldInfo;
  TypeInfo_Methods : list MethodInfo;
  TypeInfo_Implements : list string }.

Record VariableInfo := {
  VariableInfo_Name : string;
  VariableInfo_Type : string;
  VariableInfo_Location : Location;
  VariableInfo_Constant : bool;
  VariableInfo_Value : string;
  VariableInfo_Doc : string;
  VariableInfo_Scope : string }.

Record ReferenceInfo := {
  ReferenceInfo_Name : string;
  ReferenceInfo_Kind : string;
  ReferenceInfo_Location : Location;
  ReferenceInfo_UsedAt : list Location;
  ReferenceInfo_Scope : string }.

(** ast.go *)
Record CodeMetrics := {
  CodeMetrics_LinesOfCode : Z;
  CodeMetrics_CommentLines : Z;
  CodeMetrics_FunctionCount : Z;
  CodeMetrics_ComplexityScore : Z;
  CodeMetrics_InterfaceCount : Z;
  CodeMetrics_StructCount : Z;
  CodeMetrics_TestCount : Z }.

Record Diagnostic := {
  Diagnostic_Severity : string;
  Diagnostic_Message : string;
  Diagnostic_Location : Location;
  Diagnostic_Code : string;
  Diagnostic_Source : string }.

Record AnalysisResult := {
  AnalysisResult_Imports : list ImportInfo;
  AnalysisResult_Functions : list FunctionInfo;
  AnalysisResult_Types : list TypeInfo;
  AnalysisResult_Variables : list VariableInfo;
  AnalysisResult_References : list ReferenceInfo;
  AnalysisResult_Diagnostics : list Diagnostic;
  AnalysisResult_Metrics : CodeMetrics }.

Record Package := {
  Package_Name : string;
  Package_Files : gmap string File }.

Record ASTAnalyzer := {
  ASTAnalyzer_fileSet : FileSet;
  ASTAnalyzer_typeInfo : TypesInfo;
  ASTAnalyzer_packages : gmap string Package;
  ASTAnalyzer_complexity : gmap string Z }.

(** Go does not fix the order in which [range] visits the entries of a
    map.  A [RangeOrder] is the order taken by the two [range] loops over
    a map that one run of [AnalyzeFile] executes: any rearrangement of the
    entries. *)
Record RangeOrder := {
  refOrder : list (string * ReferenceInfo) -> list (string * ReferenceInfo);
  complexityOrder : list (string * Z) -> list (string * Z) }.

Definition RangeOrder_ok (o : RangeOrder) : Prop :=
  (forall l, refOrder o l ≡ₚ l) /\ (forall l, complexityOrder o l ≡ₚ l).

Definition inOrder : RangeOrder := {| refOrder := id; complexityOrder := id |}.

Definition reversed : RangeOrder :=
  {| refOrder := @rev _; complexityOrder := @rev _ |}.

(* ===================================================================== *)
(** ** pkg/mcp/ast.go                                                     *)
(* ===================================================================== *)

(** [Position{Line: p.Line - 1, Character: p.Column - 1}] *)
Definition zeroBased (p : TokPosition) : Position :=
  {| Position_Line := GoInt.sub (TokPosition_Line p) 1;
     Position_Character := GoInt.sub (TokPosition_Column p) 1 |}.

(** The location from the start to the end of a node. *)
Definition nodeLocation (uri : string) (pos end_ : TokPosition) : Location :=
  {| Location_URI := uri;
     Location_Range := {| Range_Start := zeroBased pos; Range_End := zeroBased end_ |} |}.

(** The location of [n] bytes that start at [pos]. *)
Definition nameLocation (uri : string) (pos : TokPosition) (n : Z) : Location :=
  {| Location_URI := uri;
     Location_Range :=
       {| Range_Start := zeroBased pos;
          Range_End :=
            {| Position_Line := GoInt.sub (TokPosition_Line pos) 1;
               Position_Character :=
                 GoInt.add (GoInt.sub (TokPosition_Column pos) 1) n |} |} |}.

(** [NewASTAnalyzer] *)
Definition NewASTAnalyzer (fset : FileSet) : ASTAnalyzer :=
  {| ASTAnalyzer_fileSet := fset;
     ASTAnalyzer_typeInfo := {| TypesInfo_Defs := ∅; TypesInfo_Uses := ∅ |};
     ASTAnalyzer_packages := ∅;
     ASTAnalyzer_complexity := ∅ |}.

(** The nodes [calculateFunctionComplexity] counts. *)
Definition isBranchNode (n : Node) : bool :=
  match n with
  | IfStmt _ _ _ _ | ForStmt _ _ _ _ | RangeStmt _ _ _ _
  | CaseClause _ _ | CommClause _ _ | BinaryExpr _ _ _ => true
  | _ => false
  end.

(** [calculateFunctionComplexity] *)
Definition calculateFunctionComplexity (fn : Node) : Z :=
  Ast.Inspect
    (fun n complexity =>
       (true, if isBranchNode n then GoInt.incr complexity else complexity))
    fn 1.

Section TypeStrings.

(** [getTypeString] on the type of a field, for [getFunctionTypeSignature]. *)
Variable typeString : Node -> string.

Definition fieldTypeString (p : Node) : string :=
  match p with
  | Field _ _ (Some t) _ _ => typeString t
  | _ => "unknown"
  end.

Definition fieldStrings (fl : option Node) : list string :=
  match fl with
  | Some (FieldList l) =>
      flat_map
        (fun p =>
           let paramType := fieldTypeString p in
           match Ast.Field_Names p with
           | [] => [paramType]
           | names => map (fun name => Ident_Name name +:+ " " +:+ paramType) names
           end)
        l
  | _ => []
  end.

Definition functionTypeSignature (fnParams fnResults : option Node) : string :=
  let params := fieldStrings fnParams in
  let returns := fieldStrings fnResults in
  let returnStr :=
    match returns with
    | [] => EmptyString
    | [r] => " " +:+ r
    | _ => " (" +:+ Strings.Join returns ", " +:+ ")"
    end in
  "(" +:+ Strings.Join params ", " +:+ ")" +:+ returnStr.

End TypeStrings.

(** [getTypeString] on an expression that is not [nil]. *)
Fixpoint typeString (expr : Node) : string :=
  match expr with
  | NIdent t => Ident_Name t
  | StarExpr x => "*" +:+ typeString x
  | ArrayType _ elt => "[]" +:+ typeString elt
  | MapType k v => "map[" +:+ typeString k +:+ "]" +:+ typeString v
  | InterfaceType _ => "interface{}"
  | SelectorExpr x sel => typeString x +:+ "." +:+ Ident_Name sel
  | StructType _ => "struct{...}"
  | FuncType _ params results => functionTypeSignature typeString params results
  | ChanType dir v =>
      match dir with
      | SEND => "chan<- " +:+ typeString v
      | RECV => "<-chan " +:+ typeString v
      | SEND_RECV => "chan " +:+ typeString v
      end
  | _ => Ast.TypeName expr
  end.

(** [getTypeString] *)
Definition getTypeString (expr : option Node) : string :=
  match expr with
  | None => "unknown"
  | Some e => typeString e
  end.

(** [getFunctionTypeSignature] *)
Definition getFunctionTypeSignature (fnType : Node) : string :=
  functionTypeSignature typeString (Ast.FuncType_Params fnType) (Ast.FuncType_Results fnType).

(** [getFunctionSignature], on the fields of the [*ast.FuncDecl]. *)
Definition getFunctionSignature (Recv : option Node) (Name : Ident) (Typ : Node) : string :=
  let receiver :=
    match Recv with
    | Some (FieldList (r :: _)) => "(" +:+ getTypeString (Ast.Field_Type r) +:+ ") "
    | _ => EmptyString
    end in
  "func " +:+ receiver +:+ Ident_Name Name +:+ getFunctionTypeSignature Typ.

(** [getIdentKind] *)
Definition getIdentKind (obj : Object) : string :=
  match obj with
  | ObjFunc _ => "function"
  | ObjVar _ => "variable"
  | ObjConst _ => "constant"
  | ObjTypeName _ => "type"
  | ObjPkgName _ _ => "package"
  | ObjLabel _ => "label"
  | ObjBuiltin _ => "builtin"
  | ObjNil => "nil"
  end.

(** [isImportUsed] *)
Definition isImportUsed (a : ASTAnalyzer) (file : File) (importPath : string) : bool :=
  Ast.InspectFile
    (fun n used =>
       match n with
       | SelectorExpr (NIdent ident) _ =>
           match TypesInfo_Uses (ASTAnalyzer_typeInfo a) !! identKey ident with
           | Some (ObjPkgName _ path) =>
               if String.eqb path importPath then (false, true) else (true, used)
           | _ => (true, used)
           end
       | _ => (true, used)
       end)
    file false.

(** The path of an import: [strings.Trim(imp.Path.Value, ...)] with the
    double quote as cut set. *)
Definition importPath (imp : ImportSpec) : string :=
  Strings.Trim (BasicLit_Value (ImportSpec_Path imp)) Strings.dquote.

(** [analyzeImports] *)
Definition analyzeImports (a : ASTAnalyzer) (file : File) : list ImportInfo :=
  map
    (fun imp =>
       let path := importPath imp in
       let name :=
         match ImportSpec_Name imp with
         | Some id => Ident_Name id
         | None => EmptyString
         end in
       {| ImportInfo_Path := path;
          ImportInfo_Name := name;
          ImportInfo_Used := isImportUsed a file path |})
    (File_Imports file).

(** [AnalyzeDependencies] *)
Definition AnalyzeDependencies (a : ASTAnalyzer) (file : File) : gmap string (list string) :=
  fold_left
    (fun deps imp =>
       let path := importPath imp in
       if isImportUsed a file path then
         let pkg := Ident_Name (File_Name file) in
         <[pkg := default [] (deps !! pkg) ++ [path]]> deps
       else deps)
    (File_Imports file) ∅.

Section Analyzer.

Context `{AstLib}.

(** [doc.Text()], which is the empty string on a [nil] group. *)
Definition docText (doc : option CommentGroup) : string :=
  match doc with
  | Some g => CommentGroup_Text g
  | None => EmptyString
  end.

(** The [FunctionInfo] that [analyzeFunctions] appends for a declaration
    with these fields. *)
Definition functionInfo (a : ASTAnalyzer) (file : File) (Doc : option CommentGroup)
  (Recv : option Node) (Name : Ident) (Typ : Node) (StartPos EndPos : Pos)
  (complexity : Z) : FunctionInfo :=
  let pos := TokenLib.Position (ASTAnalyzer_fileSet a) StartPos in
  let end_ := TokenLib.Position (ASTAnalyzer_fileSet a) EndPos in
  let doc := docText Doc in
  {| FunctionInfo_Name := Ident_Name Name;
     FunctionInfo_Signature := getFunctionSignature Recv Name Typ;
     FunctionInfo_Doc := doc;
     FunctionInfo_Location := nodeLocation (Ident_Name (File_Name file)) pos end_;
     FunctionInfo_Complexity := complexity;
     FunctionInfo_IsMethod := false;
     FunctionInfo_Receiver := EmptyString;
     FunctionInfo_Parameters := [];
     FunctionInfo_Returns := [] |}.

(** [analyzeFunctions]: the callback appends to [functions] and writes the
    analyzer's [complexity] map. *)
Definition analyzeFunctions (a : ASTAnalyzer) (file : File)
  : list FunctionInfo * ASTAnalyzer :=
  let '(functions, complexityMap) :=
    Ast.InspectFile
      (fun n st =>
         match n with
         | FuncDecl Doc Recv Name Typ Body StartPos EndPos =>
             let complexity := calculateFunctionComplexity n in
             (true,
              (fst st ++ [functionInfo a file Doc Recv Name Typ StartPos EndPos complexity],
               <[Ident_Name Name := complexity]> (snd st)))
         | _ => (true, st)
         end)
      file ([], ASTAnalyzer_complexity a) in
  (functions,
   {| ASTAnalyzer_fileSet := ASTAnalyzer_fileSet a;
      ASTAnalyzer_typeInfo := ASTAnalyzer_typeInfo a;
      ASTAnalyzer_packages := ASTAnalyzer_packages a;
      ASTAnalyzer_complexity := complexityMap |}).

(** [analyzeStructFields] *)
Definition analyzeStructFields (Fields : Node) : list FieldInfo :=
  flat_map
    (fun field =>
       map
         (fun name =>
            let tags :=
              match Ast.Field_Tag field with
              | Some tag => BasicLit_Value tag
              | None => EmptyString
              end in
            {| FieldInfo_Name := Ident_Name name;
               FieldInfo_Type := getTypeString (Ast.Field_Type field);
               FieldInfo_Doc := docText (Ast.Field_Doc field);
               FieldInfo_Tags := tags;
               FieldInfo_IsEmbed := false |})
         (Ast.Field_Names field))
    (Ast.FieldList_List Fields).

(** [analyzeInterfaceMethods] *)
Definition analyzeInterfaceMethods (Methods : Node) : list MethodInfo :=
  flat_map
    (fun method =>
       match Ast.Field_Names method, Ast.Field_Type method with
       | name0 :: _, Some (FuncType tparams params results) =>
           [{| MethodInfo_Name := Ident_Name name0;
               MethodInfo_Signature :=
                 getFunctionTypeSignature (FuncType tparams params results);
               MethodInfo_Doc := docText (Ast.Field_Doc method);
               MethodInfo_Parameters := [];
               MethodInfo_Returns := [] |}]
       | _, _ => []
       end)
    (Ast.FieldList_List Methods).

(** The [TypeInfo] that [analyzeTypes] appends for a type spec with these
    fields. *)
Definition typeInfo (a : ASTAnalyzer) (file : File) (Name : Ident) (Typ : Node)
  (EndPos : Pos) : TypeInfo :=
  let pos := TokenLib.Position (ASTAnalyzer_fileSet a) (Ast.Ident_Pos Name) in
  let end_ := TokenLib.Position (ASTAnalyzer_fileSet a) EndPos in
  let location := nodeLocation (Ident_Name (File_Name file)) pos end_ in
  match Typ with
  | StructType fields =>
      {| TypeInfo_Name := Ident_Name Name;
         TypeInfo_Kind := "struct";
         TypeInfo_Doc := EmptyString;
         TypeInfo_Location := location;
         TypeInfo_Fields := analyzeStructFields fields;
         TypeInfo_Methods := [];
         TypeInfo_Implements := [] |}
  | InterfaceType methods =>
      {| TypeInfo_Name := Ident_Name Name;
         TypeInfo_Kind := "interface";
         TypeInfo_Doc := EmptyString;
         TypeInfo_Location := location;
         TypeInfo_Fields := [];
         TypeInfo_Methods := analyzeInterfaceMethods methods;
         TypeInfo_Implements := [] |}
  | _ =>
      {| TypeInfo_Name := Ident_Name Name;
         TypeInfo_Kind := Ast.TypeName Typ;
         TypeInfo_Doc := EmptyString;
         TypeInfo_Location := location;
         TypeInfo_Fields := [];
         TypeInfo_Methods := [];
         TypeInfo_Implements := [] |}
  end.

(** [analyzeTypes] *)
Definition analyzeTypes (a : ASTAnalyzer) (file : File) : list TypeInfo :=
  Ast.InspectFile
    (fun n types =>
       match n with
       | TypeSpec _ Name _ Typ _ EndPos => (true, types ++ [typeInfo a file Name Typ EndPos])
       | _ => (true, types)
       end)
    file [].

(** The [VariableInfo] that [analyzeVariables] appends for one name of a
    value spec with these fields; [node.Values != nil && len(node.Values) >
    0] is [len(node.Values) > 0]. *)
Definition variableInfo (a : ASTAnalyzer) (file : File) (Names : list Ident)
  (Typ : option Node) (Values : list Node) (EndPos : Pos) (name : Ident) : VariableInfo :=
  let pos := TokenLib.Position (ASTAnalyzer_fileSet a) (Ast.ValueSpec_Pos Names) in
  let end_ := TokenLib.Position (ASTAnalyzer_fileSet a) EndPos in
  {| VariableInfo_Name := Ident_Name name;
     VariableInfo_Type := getTypeString Typ;
     VariableInfo_Location := nodeLocation (Ident_Name (File_Name file)) pos end_;
     VariableInfo_Constant := 0 <? GoInt.len Values;
     VariableInfo_Value := EmptyString;
     VariableInfo_Doc := EmptyString;
     VariableInfo_Scope := EmptyString |}.

(** [analyzeVariables] *)
Definition analyzeVariables (a : ASTAnalyzer) (file : File) : list VariableInfo :=
  Ast.InspectFile
    (fun n variables =>
       match n with
       | ValueSpec _ Names Typ Values _ EndPos =>
           (true, variables ++ map (variableInfo a file Names Typ Values EndPos) Names)
       | _ => (true, variables)
       end)
    file [].

(** The first pass of [analyzeReferences]: the definitions. *)
Definition collectDefinitions (a : ASTAnalyzer) (file : File) : gmap string ReferenceInfo :=
  Ast.InspectFile
    (fun n refMap =>
       match n with
       | NIdent node =>
           match TypesInfo_Defs (ASTAnalyzer_typeInfo a) !! identKey node with
           | Some obj =>
               let pos := TokenLib.Position (ASTAnalyzer_fileSet a) (Ast.Ident_Pos node) in
               (true,
                <[Ident_Name node :=
                    {| ReferenceInfo_Name := Ident_Name node;
                       ReferenceInfo_Kind := getIdentKind obj;
                       ReferenceInfo_Location :=
                         nameLocation (Ident_Name (File_Name file)) pos
                           (GoInt.strlen (Ident_Name node));
                       ReferenceInfo_UsedAt := [];
                       ReferenceInfo_Scope := EmptyString |}]> refMap)
           | None => (true, refMap)
           end
       | _ => (true, refMap)
       end)
    file ∅.

(** The second pass: the uses, appended to the entry the map holds for the
    name of the object. *)
Definition collectUses (a : ASTAnalyzer) (file : File) (refMap : gmap string ReferenceInfo)
  : gmap string ReferenceInfo :=
  Ast.InspectFile
    (fun n refMap =>
       match n with
       | NIdent node =>
           match TypesInfo_Uses (ASTAnalyzer_typeInfo a) !! identKey node with
           | Some obj =>
               match refMap !! Object_Name obj with
               | Some ref =>
                   let pos := TokenLib.Position (ASTAnalyzer_fileSet a) (Ast.Ident_Pos node) in
                   (true,
                    <[Object_Name obj :=
                        {| ReferenceInfo_Name := ReferenceInfo_Name ref;
                           ReferenceInfo_Kind := ReferenceInfo_Kind ref;
                           ReferenceInfo_Location := ReferenceInfo_Location ref;
                           ReferenceInfo_UsedAt :=
                             ReferenceInfo_UsedAt ref ++
                               [nameLocation (Ident_Name (File_Name file)) pos
                                  (GoInt.strlen (Ident_Name node))];
                           ReferenceInfo_Scope := ReferenceInfo_Scope ref |}]> refMap)
               | None => (true, refMap)
               end
           | None => (true, refMap)
           end
       | _ => (true, refMap)
       end)
    file refMap.

(** [analyzeReferences]: both passes, then the entries of the map in the
    order [range] yields them. *)
Definition analyzeReferences (o : RangeOrder) (a : ASTAnalyzer) (file : File)
  : list ReferenceInfo :=
  let refMap := collectUses a file (collectDefinitions a file) in
  map snd (refOrder o (map_to_list refMap)).

(** [calculateMetrics] *)
Definition calculateMetrics (o : RangeOrder) (a : ASTAnalyzer) (file : File) : CodeMetrics :=
  let lineCount :=
    TokPosition_Line (TokenLib.Position (ASTAnalyzer_fileSet a) (File_End file)) in
  let metrics :=
    {| CodeMetrics_LinesOfCode := lineCount;
       CodeMetrics_CommentLines := 0;
       CodeMetrics_FunctionCount := 0;
       CodeMetrics_ComplexityScore := 0;
       CodeMetrics_InterfaceCount := 0;
       CodeMetrics_StructCount := 0;
       CodeMetrics_TestCount := 0 |} in
  let metrics :=
    Ast.InspectFile
      (fun n metrics =>
         match n with
         | FuncDecl _ _ Name _ _ _ _ =>
             (true,
              {| CodeMetrics_LinesOfCode := CodeMetrics_LinesOfCode metrics;
                 CodeMetrics_CommentLines := CodeMetrics_CommentLines metrics;
                 CodeMetrics_FunctionCount := GoInt.incr (CodeMetrics_FunctionCount metrics);
                 CodeMetrics_ComplexityScore := CodeMetrics_ComplexityScore metrics;
                 CodeMetrics_InterfaceCount := CodeMetrics_InterfaceCount metrics;
                 CodeMetrics_StructCount := CodeMetrics_StructCount metrics;
                 CodeMetrics_TestCount :=
                   if Strings.HasPrefix (Ident_Name Name) "Test"
                   then GoInt.incr (CodeMetrics_TestCount metrics)
                   else CodeMetrics_TestCount metrics |})
         | TypeSpec _ _ _ Typ _ _ =>
             (true,
              {| CodeMetrics_LinesOfCode := CodeMetrics_LinesOfCode metrics;
                 CodeMetrics_CommentLines := CodeMetrics_CommentLines metrics;
                 CodeMetrics_FunctionCount := CodeMetrics_FunctionCount metrics;
                 CodeMetrics_ComplexityScore := CodeMetrics_ComplexityScore metrics;
                 CodeMetrics_InterfaceCount :=
                   match Typ with
                   | InterfaceType _ => GoInt.incr (CodeMetrics_InterfaceCount metrics)
                   | _ => CodeMetrics_InterfaceCount metrics
                   end;
                 CodeMetrics_StructCount :=
                   match Typ with
                   | StructType _ => GoInt.incr (CodeMetrics_StructCount metrics)
                   | _ => CodeMetrics_StructCount metrics
                   end;
                 CodeMetrics_TestCount := CodeMetrics_TestCount metrics |})
         | NCommentGroup g =>
             (true,
              {| CodeMetrics_LinesOfCode := CodeMetrics_LinesOfCode metrics;
                 CodeMetrics_CommentLines :=
                   GoInt.add (CodeMetrics_CommentLines metrics)
                     (GoInt.len (CommentGroup_List g));
                 CodeMetrics_FunctionCount := CodeMetrics_FunctionCount metrics;
                 CodeMetrics_ComplexityScore := CodeMetrics_ComplexityScore metrics;
                 CodeMetrics_InterfaceCount := CodeMetrics_InterfaceCount metrics;
                 CodeMetrics_StructCount := CodeMetrics_StructCount metrics;
                 CodeMetrics_TestCount := CodeMetrics_TestCount metrics |})
         | _ => (true, metrics)
         end)
      file metrics in
  {| CodeMetrics_LinesOfCode := CodeMetrics_LinesOfCode metrics;
     CodeMetrics_CommentLines := CodeMetrics_CommentLines metrics;
     CodeMetrics_FunctionCount := CodeMetrics_FunctionCount metrics;
     CodeMetrics_ComplexityScore :=
       fold_left (fun score kv => GoInt.add score (snd kv))
         (complexityOrder o (map_to_list (ASTAnalyzer_complexity a)))
         (CodeMetrics_ComplexityScore metrics);
     CodeMetrics_InterfaceCount := CodeMetrics_InterfaceCount metrics;
     CodeMetrics_StructCount := CodeMetrics_StructCount metrics;
     CodeMetrics_TestCount := CodeMetrics_TestCount metrics |}.

(** The diagnostic of an unused import. *)
Definition unusedImport (a : ASTAnalyzer) (file : File) (imp : ImportSpec) : Diagnostic :=
  let path := importPath imp in
  let pos := TokenLib.Position (ASTAnalyzer_fileSet a) (Ast.ImportSpec_Pos imp) in
  {| Diagnostic_Severity := "warning";
     Diagnostic_Message := "Unused import: " +:+ path;
     Diagnostic_Location :=
       nameLocation (Ident_Name (File_Name file)) pos (GoInt.strlen path);
     Diagnostic_Code := "unused-import";
     Diagnostic_Source := "go-analyzer" |}.

(** The first loop of [runDiagnostics]: the imports. *)
Definition unusedImports (a : ASTAnalyzer) (file : File) : list Diagnostic :=
  flat_map
    (fun imp =>
       if negb (isImportUsed a file (importPath imp)) then [unusedImport a file imp] else [])
    (File_Imports file).

(** The diagnostic of an exported function without documentation. *)
Definition missingDoc (a : ASTAnalyzer) (file : File) (Name : Ident) : Diagnostic :=
  let pos := TokenLib.Position (ASTAnalyzer_fileSet a) (Ast.Ident_Pos Name) in
  {| Diagnostic_Severity := "info";
     Diagnostic_Message :=
       "Exported function " +:+ Ident_Name Name +:+ " lacks documentation";
     Diagnostic_Location :=
       nameLocation (Ident_Name (File_Name file)) pos (GoInt.strlen (Ident_Name Name));
     Diagnostic_Code := "missing-doc";
     Diagnostic_Source := "go-analyzer" |}.

(** [runDiagnostics] *)
Definition runDiagnostics (a : ASTAnalyzer) (file : File) : list Diagnostic :=
  Ast.InspectFile
    (fun n diagnostics =>
       match n with
       | FuncDecl Doc _ Name _ _ _ _ =>
           if IsExported (Ident_Name Name) && negb (bool_decide (is_Some Doc))
           then (true, diagnostics ++ [missingDoc a file Name])
           else (true, diagnostics)
       | _ => (true, diagnostics)
       end)
    file (unusedImports a file).

(** [AnalyzeFile]: the result and the analyzer as the call leaves it (the
    error it returns is always [nil]). *)
Definition AnalyzeFile (o : RangeOrder) (a : ASTAnalyzer) (file : File)
  : AnalysisResult * ASTAnalyzer :=
  let imports := analyzeImports a file in
  let '(functions, a) := analyzeFunctions a file in
  let types := analyzeTypes a file in
  let variables := analyzeVariables a file in
  let references := analyzeReferences o a file in
  let metrics := calculateMetrics o a file in
  let diagnostics := runDiagnostics a file in
  ({| AnalysisResult_Imports := imports;
      AnalysisResult_Functions := functions;
      AnalysisResult_Types := types;
      AnalysisResult_Variables := variables;
      AnalysisResult_References := references;
      AnalysisResult_Diagnostics := diagnostics;
      AnalysisResult_Metrics := metrics |}, a).

(** Field by field [+=] of the metrics of a file, in [AnalyzePackage]. *)
Definition addMetrics (m fm : CodeMetrics) : CodeMetrics :=
  {| CodeMetrics_LinesOfCode :=
       GoInt.add (CodeMetrics_LinesOfCode m) (CodeMetrics_LinesOfCode fm);
     CodeMetrics_CommentLines :=
       GoInt.add (CodeMetrics_CommentLines m) (CodeMetrics_CommentLines fm);
     CodeMetrics_FunctionCount :=
       GoInt.add (CodeMetrics_FunctionCount m) (CodeMetrics_FunctionCount fm);
     CodeMetrics_ComplexityScore :=
       GoInt.add (CodeMetrics_ComplexityScore m) (CodeMetrics_ComplexityScore fm);
     CodeMetrics_InterfaceCount :=
       GoInt.add (CodeMetrics_InterfaceCount m) (CodeMetrics_InterfaceCount fm);
     CodeMetrics_StructCount :=
       GoInt.add (CodeMetrics_StructCount m) (CodeMetrics_StructCount fm);
     CodeMetrics_TestCount :=
       GoInt.add (CodeMetrics_TestCount m) (CodeMetrics_TestCount fm) |}.

(** The loop of [AnalyzePackage] over the files; [os i] is the order the
    maps are ranged over during the analysis of file [i]. *)
Fixpoint analyzeFiles (os : nat -> RangeOrder) (i : nat) (files : list File)
  (result : AnalysisResult) (a : ASTAnalyzer) : AnalysisResult * ASTAnalyzer :=
  match files with
  | [] => (result, a)
  | file :: rest =>
      let '(fileResult, a) := AnalyzeFile (os i) a file in
      analyzeFiles os (Datatypes.S i) rest
        {| AnalysisResult_Imports :=
             AnalysisResult_Imports result ++ AnalysisResult_Imports fileResult;
           AnalysisResult_Functions :=
             AnalysisResult_Functions result ++ AnalysisResult_Functions fileResult;
           AnalysisResult_Types :=
             AnalysisResult_Types result ++ AnalysisResult_Types fileResult;
           AnalysisResult_Variables :=
             AnalysisResult_Variables result ++ AnalysisResult_Variables fileResult;
           AnalysisResult_References := AnalysisResult_References result;
           AnalysisResult_Diagnostics :=
             AnalysisResult_Diagnostics result ++ AnalysisResult_Diagnostics fileResult;
           AnalysisResult_Metrics :=
             addMetrics (AnalysisResult_Metrics result) (AnalysisResult_Metrics fileResult) |}
        a
  end.

(** [AnalyzePackage]; [None] is the panic of [files[0]] on no file. *)
Definition AnalyzePackage (os : nat -> RangeOrder) (a : ASTAnalyzer) (pkgPath : string)
  (files : list File) : option (AnalysisResult * ASTAnalyzer) :=
  match files with
  | [] => None
  | file0 :: _ =>
      let pkg :=
        {| Package_Name := Ident_Name (File_Name file0);
           Package_Files :=
             fold_left
               (fun m file =>
                  <[TokPosition_Filename
                      (TokenLib.Position (ASTAnalyzer_fileSet a) (File_Package file)) := file]> m)
               files ∅ |} in
      let a :=
        {| ASTAnalyzer_fileSet := ASTAnalyzer_fileSet a;
           ASTAnalyzer_typeInfo := ASTAnalyzer_typeInfo a;
           ASTAnalyzer_packages := <[pkgPath := pkg]> (ASTAnalyzer_packages a);
           ASTAnalyzer_complexity := ASTAnalyzer_complexity a |} in
      Some
        (analyzeFiles os 0%nat files
           {| AnalysisResult_Imports := [];
              AnalysisResult_Functions := [];
              AnalysisResult_Types := [];
              AnalysisResult_Variables := [];
              AnalysisResult_References := [];
              AnalysisResult_Diagnostics := [];
              AnalysisResult_Metrics :=
                {| CodeMetrics_LinesOfCode := 0;
                   CodeMetrics_CommentLines := 0;
                   CodeMetrics_FunctionCount := 0;
                   CodeMetrics_ComplexityScore := 0;
                   CodeMetrics_InterfaceCount := 0;
                   CodeMetrics_StructCount := 0;
                   CodeMetrics_TestCount := 0 |} |}
           a)
  end.

(** The analyzers a program can hold.  The fields of [ASTAnalyzer] are
    unexported and [NewASTAnalyzer] is the only place that builds one, so
    an analyzer is a new one on which the methods that write it,
    [AnalyzeFile] and [AnalyzePackage], were called some number of times. *)
Inductive reachable : ASTAnalyzer -> Prop :=
| reachable_new fset : reachable (NewASTAnalyzer fset)
| reachable_AnalyzeFile o a file :
    reachable a -> reachable (snd (AnalyzeFile o a file))
| reachable_AnalyzePackage os a pkgPath files result a' :
    reachable a ->
    AnalyzePackage os a pkgPath files = Some (result, a') ->
    reachable a'.

End Analyzer.

(* ===================================================================== *)
(** ** pkg/mcp/lsp.go                                                     *)
(* ===================================================================== *)

(** [parser.ParseFile(fset, filename, src, parser.ParseComments)]: the
    file set with the file added, and the tree, or the error when there
    is one. *)
Class Parser := {
  ParseFile : FileSet -> string -> string -> FileSet * (File + string) }.

(** What a call leaves behind: the server and the value returned, or the
    server and the message of a panic (which [net/http] recovers from,
    so that the server goes on with the next request). *)
Inductive Outcome (A : Type) : Type :=
| Returned (ls : LanguageServer) (a : A)
| Panicked (ls : LanguageServer) (msg : string).

Arguments Returned {A} ls a.
Arguments Panicked {A} ls msg.

(** The JSON value a handler writes. *)
Inductive Body : Type :=
| StatusBody (status uri : string)
| ErrorBody (error : string)
| SymbolsBody (symbols : list SymbolInfo)
| NotImplementedBody.

Record Response := { Response_status : Z; Response_body : Body }.

Module Http.
Definition StatusOK : Z := 200.
Definition StatusBadRequest : Z := 400.
Definition StatusNotFound : Z := 404.
Definition StatusInternalServerError : Z := 500.
Definition StatusNotImplemented : Z := 501.
End Http.

(** [writeError] and [writeJSON] of server.go. *)
Definition writeJSON (status : Z) (v : Body) : Response :=
  {| Response_status := status; Response_body := v |}.

Definition writeError (status : Z) (err : string) : Response :=
  writeJSON status (ErrorBody err).

(** [NewLanguageServer]; the file set is new. *)
Definition NewLanguageServer (workspaceRoot : string) : LanguageServer :=
  {| LanguageServer_workspaceRoot := workspaceRoot;
     LanguageServer_documents := ∅;
     LanguageServer_fileSet := NewFileSet |}.

(** [nodeToString] on a node that is not [nil]. *)
Fixpoint nodeString (node : Node) : string :=
  match node with
  | NIdent n => Ident_Name n
  | StarExpr x => "*" +:+ nodeString x
  | ArrayType _ elt => "[]" +:+ nodeString elt
  | SelectorExpr x sel => nodeString x +:+ "." +:+ Ident_Name sel
  | _ => Ast.TypeName node
  end.

(** [nodeToString]; [%T] prints a [nil] interface as [<nil>]. *)
Definition nodeToString (node : option Node) : string :=
  match node with
  | Some n => nodeString n
  | None => "<nil>"
  end.

(** [(ls *LanguageServer) getFunctionSignature], on the fields of the
    declaration. *)
Definition ls_getFunctionSignature (Name : Ident) (Typ : Node) : string :=
  let params :=
    match Ast.FuncType_Params Typ with
    | Some fl =>
        flat_map
          (fun param =>
             let paramType := nodeToString (Ast.Field_Type param) in
             map (fun name => Ident_Name name +:+ " " +:+ paramType) (Ast.Field_Names param))
          (Ast.FieldList_List fl)
    | None => []
    end in
  let returns :=
    match Ast.FuncType_Results Typ with
    | Some fl =>
        flat_map
          (fun result =>
             let resultType := nodeToString (Ast.Field_Type result) in
             match Ast.Field_Names result with
             | [] => [resultType]
             | names => map (fun name => Ident_Name name +:+ " " +:+ resultType) names
             end)
          (Ast.FieldList_List fl)
    | None => []
    end in
  let signature := "func " +:+ Ident_Name Name +:+ "(" +:+ Strings.Join params ", " +:+ ")" in
  match returns with
  | [] => signature
  | [r] => signature +:+ " " +:+ r
  | _ => signature +:+ " (" +:+ Strings.Join returns ", " +:+ ")"
  end.

(** The symbols [extractSymbols] appends for a function declaration and
    for a type spec. *)
Definition functionSymbol (ls : LanguageServer) (file : File) (Name : Ident) (Typ : Node)
  (StartPos EndPos : Pos) : SymbolInfo :=
  let pos := TokenLib.Position (LanguageServer_fileSet ls) StartPos in
  let end_ := TokenLib.Position (LanguageServer_fileSet ls) EndPos in
  {| SymbolInfo_Name := Ident_Name Name;
     SymbolInfo_Kind := "function";
     SymbolInfo_Location := nodeLocation (Ident_Name (File_Name file)) pos end_;
     SymbolInfo_Container := EmptyString;
     SymbolInfo_Signature := ls_getFunctionSignature Name Typ |}.

Definition typeSymbol (ls : LanguageServer) (file : File) (Name : Ident) (EndPos : Pos)
  : SymbolInfo :=
  let pos := TokenLib.Position (LanguageServer_fileSet ls) (Ast.Ident_Pos Name) in
  let end_ := TokenLib.Position (LanguageServer_fileSet ls) EndPos in
  {| SymbolInfo_Name := Ident_Name Name;
     SymbolInfo_Kind := "type";
     SymbolInfo_Location := nodeLocation (Ident_Name (File_Name file)) pos end_;
     SymbolInfo_Container := EmptyString;
     SymbolInfo_Signature := EmptyString |}.

(** [extractSymbols] *)
Definition extractSymbols (ls : LanguageServer) (file : File) : list SymbolInfo :=
  Ast.InspectFile
    (fun n symbols =>
       match n with
       | FuncDecl _ _ Name Typ _ StartPos EndPos =>
           (true, symbols ++ [functionSymbol ls file Name Typ StartPos EndPos])
       | TypeSpec _ Name _ _ _ EndPos => (true, symbols ++ [typeSymbol ls file Name EndPos])
       | _ => (true, symbols)
       end)
    file [].

Definition nilDereference : string :=
  "runtime error: invalid memory address or nil pointer dereference".

Section LanguageServer.

Context `{Parser}.

(** [parseDocument]; the value returned is the error, [None] for [nil].
    [ls.documents[uri]] is the [nil] pointer when the map has no entry for
    [uri], and reading its [Version] panics, before the map is written. *)
Definition parseDocument (ls : LanguageServer) (uri content : string)
  : Outcome (option string) :=
  let '(fset, parsed) := ParseFile (LanguageServer_fileSet ls) uri content in
  let ls :=
    {| LanguageServer_workspaceRoot := LanguageServer_workspaceRoot ls;
       LanguageServer_documents := LanguageServer_documents ls;
       LanguageServer_fileSet := fset |} in
  match parsed with
  | inr err => Returned ls (Some ("failed to parse document: " +:+ err))
  | inl file =>
      let symbols := extractSymbols ls file in
      match LanguageServer_documents ls !! uri with
      | None => Panicked ls nilDereference
      | Some old =>
          Returned
            {| LanguageServer_workspaceRoot := LanguageServer_workspaceRoot ls;
               LanguageServer_documents :=
                 <[uri :=
                     {| Document_URI := uri;
                        Document_Text := content;
                        Document_AST := file;
                        Document_Symbols := symbols;
                        Document_Version := GoInt.add (Document_Version old) 1 |}]>
                   (LanguageServer_documents ls);
               LanguageServer_fileSet := LanguageServer_fileSet ls |}
            None
      end
  end.

(** [handleOpenDocument], on the decoded request body. *)
Definition handleOpenDocument (ls : LanguageServer) (doc : TextDocumentItem)
  : Outcome Response :=
  match parseDocument ls (TextDocumentItem_URI doc) (TextDocumentItem_Text doc) with
  | Panicked ls msg => Panicked ls msg
  | Returned ls (Some err) => Returned ls (writeError Http.StatusInternalServerError err)
  | Returned ls None =>
      Returned ls (writeJSON Http.StatusOK (StatusBody "opened" (TextDocumentItem_URI doc)))
  end.

(** [handleCloseDocument] *)
Definition handleCloseDocument (ls : LanguageServer) (doc : TextDocumentItem)
  : Outcome Response :=
  Returned
    {| LanguageServer_workspaceRoot := LanguageServer_workspaceRoot ls;
       LanguageServer_documents :=
         delete (TextDocumentItem_URI doc) (LanguageServer_documents ls);
       LanguageServer_fileSet := LanguageServer_fileSet ls |}
    (writeJSON Http.StatusOK (StatusBody "closed" (TextDocumentItem_URI doc))).

(** [handleChangeDocument] *)
Definition handleChangeDocument (ls : LanguageServer) (doc : TextDocumentItem)
  : Outcome Response :=
  match parseDocument ls (TextDocumentItem_URI doc) (TextDocumentItem_Text doc) with
  | Panicked ls msg => Panicked ls msg
  | Returned ls (Some err) => Returned ls (writeError Http.StatusInternalServerError err)
  | Returned ls None =>
      Returned ls (writeJSON Http.StatusOK (StatusBody "changed" (TextDocumentItem_URI doc)))
  end.

End LanguageServer.

(** [handleDocumentSymbols], on the [uri] query parameter. *)
Definition handleDocumentSymbols (ls : LanguageServer) (uri : string) : Response :=
  if String.eqb uri EmptyString then
    writeError Http.StatusBadRequest "uri parameter is required"
  else
    match LanguageServer_documents ls !! uri with
    | None => writeError Http.StatusNotFound "document not found"
    | Some doc => writeJSON Http.StatusOK (SymbolsBody (Document_Symbols doc))
    end.

(** [handleCompletion], [handleDefinition], [handleHover] *)
Definition handleCompletion (ls : LanguageServer) : Response :=
  writeJSON Http.StatusNotImplemented NotImplementedBody.

(* ===================================================================== *)
(** ** Sample inputs                                                      *)
(* ===================================================================== *)

Module Sample.

Definition nl : string := String (ascii_of_nat 10) EmptyString.
Definition tab : string := String (ascii_of_nat 9) EmptyString.

(** [ast.IsExported] on a name that starts with an ASCII letter, and the
    text of a group of line comments without its markers. *)
Definition asciiIsExported (name : string) : bool :=
  match name with
  | String c _ => (65 <=? Z.of_nat (nat_of_ascii c)) && (Z.of_nat (nat_of_ascii c) <=? 90)
  | EmptyString => false
  end.

Definition lineCommentText (g : CommentGroup) : string :=
  String.concat EmptyString
    (map (fun c => String.substring 3 (String.length (Comment_Text c)) (Comment_Text c) +:+ nl)
       (CommentGroup_List g)).

Definition lib : AstLib :=
  {| CommentGroup_Text := lineCommentText; IsExported := asciiIsExported |}.

(** The line table the scanner builds: offset 0 and the offset after every
    newline that is not the last byte. *)
Fixpoint lineStartsFrom (src : string) (off : Z) : list Z :=
  match src with
  | EmptyString => []
  | String c rest =>
      if Ascii.eqb c (ascii_of_nat 10) then
        match rest with
        | EmptyString => []
        | _ => (off + 1) :: lineStartsFrom rest (off + 1)
        end
      else lineStartsFrom rest (off + 1)
  end.

Definition lineStarts (src : string) : list Z := 0 :: lineStartsFrom src 0.

(** [(s *FileSet) AddFile(name, -1, size)]: the new file starts where the
    last one ended, plus one. *)
Definition nextBase (fset : FileSet) : Z :=
  fold_left (fun _ f => TokFile_base f + TokFile_size f + 1) fset 1.

Definition addFile (fset : FileSet) (name src : string) : FileSet :=
  fset ++ [{| TokFile_name := name;
              TokFile_base := nextBase fset;
              TokFile_size := GoInt.strlen src;
              TokFile_lines := lineStarts src |}].

Definition ident (b off : Z) (name : string) : Ident :=
  {| Ident_NamePos := b + off; Ident_Name := name |}.

(** Two imports, one of them used in a qualified call; an exported
    function without a doc comment whose body is one [if] on a plain
    identifier; an unexported function. *)
Definition greetSource : string :=
  "package main" +:+ nl +:+
  nl +:+
  "import (" +:+ nl +:+
  tab +:+ Strings.quoted "fmt" +:+ nl +:+
  tab +:+ Strings.quoted "os" +:+ nl +:+
  ")" +:+ nl +:+
  nl +:+
  "func Greet(loud bool) {" +:+ nl +:+
  tab +:+ "if loud {" +:+ nl +:+
  tab +:+ tab +:+ "fmt.Println(loud)" +:+ nl +:+
  tab +:+ "}" +:+ nl +:+
  "}" +:+ nl +:+
  nl +:+
  "func helper() {}" +:+ nl.

Definition importFmt (b : Z) : ImportSpec :=
  {| ImportSpec_Doc := None;
     ImportSpec_Name := None;
     ImportSpec_Path :=
       {| BasicLit_ValuePos := b + 24; BasicLit_Kind := STRING;
          BasicLit_Value := Strings.quoted "fmt" |};
     ImportSpec_Comment := None |}.

Definition importOs (b : Z) : ImportSpec :=
  {| ImportSpec_Doc := None;
     ImportSpec_Name := None;
     ImportSpec_Path :=
       {| BasicLit_ValuePos := b + 31; BasicLit_Kind := STRING;
          BasicLit_Value := Strings.quoted "os" |};
     ImportSpec_Comment := None |}.

Definition greetDecl (b : Z) : Node :=
  FuncDecl None None (ident b 44 "Greet")
    (FuncType None
       (Some (FieldList
                [Field None [ident b 50 "loud"] (Some (NIdent (ident b 55 "bool"))) None None]))
       None)
    (Some (Ast.BlockStmt
             [IfStmt None (NIdent (ident b 67 "loud"))
                (Ast.BlockStmt
                   [Ast.ExprStmt
                      (Ast.CallExpr
                         (SelectorExpr (NIdent (ident b 76 "fmt")) (ident b 80 "Println"))
                         [NIdent (ident b 88 "loud")])])
                None]))
    (b + 39) (b + 98).

Definition helperDecl (b : Z) : Node :=
  FuncDecl None None (ident b 105 "helper")
    (FuncType None (Some (FieldList [])) None)
    (Some (Ast.BlockStmt []))
    (b + 100) (b + 116).

Definition greetFile (b : Z) : File :=
  {| File_Doc := None;
     File_Package := b;
     File_Name := ident b 8 "main";
     File_Decls :=
       [GenDecl None IMPORT [NImportSpec (importFmt b); NImportSpec (importOs b)];
        greetDecl b; helperDecl b];
     File_Imports := [importFmt b; importOs b];
     File_End := b + 116 |}.

(** A variable with an initializer, a function and a struct type. *)
Definition declsSource : string :=
  "package p" +:+ nl +:+
  nl +:+
  "var x = 1" +:+ nl +:+
  nl +:+
  "func F() {}" +:+ nl +:+
  nl +:+
  "type T struct{}" +:+ nl.

Definition declsFile (b : Z) : File :=
  {| File_Doc := None;
     File_Package := b;
     File_Name := ident b 8 "p";
     File_Decls :=
       [GenDecl None VAR
          [ValueSpec None [ident b 15 "x"] None
             [NBasicLit {| BasicLit_ValuePos := b + 19; BasicLit_Kind := INT;
                           BasicLit_Value := "1" |}]
             None (b + 20)];
        FuncDecl None None (ident b 27 "F")
          (FuncType None (Some (FieldList [])) None)
          (Some (Ast.BlockStmt []))
          (b + 22) (b + 33);
        GenDecl None TYPE
          [TypeSpec None (ident b 40 "T") None (StructType (FieldList [])) None (b + 50)]];
     File_Imports := [];
     File_End := b + 50 |}.

(** The error of [go/parser] on the empty text. *)
Definition noPackage (filename : string) : string :=
  filename +:+ ":1:1: expected 'package', found 'EOF'".

(** A parser that knows the two sources above and answers every other
    text as it answers the empty one, with a syntax error. *)
Definition parser : Parser :=
  {| ParseFile fset filename src :=
       let b := nextBase fset in
       (addFile fset filename src,
        if String.eqb src greetSource then inl (greetFile b)
        else if String.eqb src declsSource then inl (declsFile b)
        else inr (noPackage filename)) |}.

(** The file set and the tree after [greetSource] was parsed into a new
    set, and an analyzer on that set. *)
Definition greetSet : FileSet := addFile NewFileSet "greet.go" greetSource.

Definition greetAnalyzer : ASTAnalyzer := NewASTAnalyzer greetSet.

Definition greetResult : AnalysisResult :=
  fst (@AnalyzeFile lib inOrder greetAnalyzer (greetFile 1)).

(** The first function of that result. *)
Definition greetInfo : FunctionInfo :=
  @functionInfo lib greetAnalyzer (greetFile 1) None None (ident 1 44 "Greet")
    (FuncType None
       (Some (FieldList
                [Field None [ident 1 50 "loud"] (Some (NIdent (ident 1 55 "bool"))) None None]))
       None)
    40 99 2.

(** A server on which [a.go] is open with [declsSource], at version 3. *)
Definition openDoc : Document :=
  {| Document_URI := "a.go";
     Document_Text := declsSource;
     Document_AST := declsFile 1;
     Document_Symbols :=
       extractSymbols
         {| LanguageServer_workspaceRoot := ".";
            LanguageServer_documents := ∅;
            LanguageServer_fileSet := addFile NewFileSet "a.go" declsSource |}
         (declsFile 1);
     Document_Version := 3 |}.

Definition openServer : LanguageServer :=
  {| LanguageServer_workspaceRoot := ".";
     LanguageServer_documents := {[ "a.go" := openDoc ]};
     LanguageServer_fileSet := addFile NewFileSet "a.go" declsSource |}.

(** The requests of the examples: [a.go] opened with [declsSource], and
    changed to a text that does not parse. *)
Definition openItem : TextDocumentItem :=
  {| TextDocumentItem_URI := "a.go";
     TextDocumentItem_Text := declsSource;
     TextDocumentItem_Version := 9 |}.


(** The server after [openItem] was handled on [openServer]. *)
Definition reopened : LanguageServer :=
  match @handleOpenDocument parser openServer openItem with
  | Returned ls _ | Panicked ls _ => ls
  end.

(** The stateless analysis of the same text: parsed into a new file set
    and analyzed by a new analyzer on that set. *)
Definition declsResult : AnalysisResult :=
  fst (@AnalyzeFile lib inOrder
         (NewASTAnalyzer (addFile NewFileSet "a.go" declsSource)) (declsFile 1)).

(** [func add(a, b int) int { return a + b }], after a package clause. *)
Definition addSource : string :=
  "package p" +:+ nl +:+
  nl +:+
  "func add(a, b int) int { return a + b }" +:+ nl.

Definition addDecl (b : Z) : Node :=
  FuncDecl None None (ident b 16 "add")
    (FuncType None
       (Some (FieldList
                [Field None [ident b 20 "a"; ident b 23 "b"]
                   (Some (NIdent (ident b 25 "int"))) None None]))
       (Some (FieldList [Field None [] (Some (NIdent (ident b 30 "int"))) None None])))
    (Some (Ast.BlockStmt
             [Ast.ReturnStmt
                [BinaryExpr (NIdent (ident b 43 "a")) ADD (NIdent (ident b 47 "b"))]]))
    (b + 11) (b + 50).

Definition addFile_ (b : Z) : File :=
  {| File_Doc := None;
     File_Package := b;
     File_Name := ident b 8 "p";
     File_Decls := [addDecl b];
     File_Imports := [];
     File_End := b + 50 |}.

(** Two [init] functions in one file, which Go allows. *)
Definition initsSource : string :=
  "package p" +:+ nl +:+
  nl +:+
  "func init() {}" +:+ nl +:+
  nl +:+
  "func init() {}" +:+ nl.

Definition initsFile (b : Z) : File :=
  {| File_Doc := None;
     File_Package := b;
     File_Name := ident b 8 "p";
     File_Decls :=
       [FuncDecl None None (ident b 16 "init")
          (FuncType None (Some (FieldList [])) None)
          (Some (Ast.BlockStmt [])) (b + 11) (b + 25);
        FuncDecl None None (ident b 32 "init")
          (FuncType None (Some (FieldList [])) None)
          (Some (Ast.BlockStmt [])) (b + 27) (b + 41)];
     File_Imports := [];
     File_End := b + 41 |}.

(** The analysis of [initsFile] by a new analyzer, and that of
    [declsFile] by an analyzer that analyzed [greetFile] before. *)
Definition initsResult : AnalysisResult :=
  fst (@AnalyzeFile lib inOrder
         (NewASTAnalyzer (addFile NewFileSet "inits.go" initsSource)) (initsFile 1)).

Definition declsAfterGreet : AnalysisResult :=
  fst (@AnalyzeFile lib inOrder
         (snd (@AnalyzeFile lib inOrder greetAnalyzer (greetFile 1))) (declsFile 1)).

End Sample.

(* ===================================================================== *)
(** ** The words of the properties                                        *)
(* ===================================================================== *)

(** Diagnostics by rule code. *)
Definition withCode (code : string) (ds : list Diagnostic) : list Diagnostic :=
  List.filter (fun d => String.eqb (Diagnostic_Code d) code) ds.

(** The nodes of the subtree of [fn] that add one to its complexity. *)
Definition branchCount (fn : Node) : Z :=
  Z.of_nat (List.length (List.filter isBranchNode (Ast.subnodes fn))).






(** What each analysis makes of one node of the tree. *)
Definition functionsOf `{AstLib} (a : ASTAnalyzer) (file : File) (n : Node)
  : list FunctionInfo :=
  match n with
  | FuncDecl Doc Recv Name Typ _ StartPos EndPos =>
      [functionInfo a file Doc Recv Name Typ StartPos EndPos (calculateFunctionComplexity n)]
  | _ => []
  end.

Definition complexityOf (n : Node) : list (string * Z) :=
  match n with
  | FuncDecl _ _ Name _ _ _ _ => [(Ident_Name Name, calculateFunctionComplexity n)]
  | _ => []
  end.

Definition typesOf `{AstLib} (a : ASTAnalyzer) (file : File) (n : Node) : list TypeInfo :=
  match n with
  | TypeSpec _ Name _ Typ _ EndPos => [typeInfo a file Name Typ EndPos]
  | _ => []
  end.

Definition variablesOf (a : ASTAnalyzer) (file : File) (n : Node) : list VariableInfo :=
  match n with
  | ValueSpec _ Names Typ Values _ EndPos =>
      map (variableInfo a file Names Typ Values EndPos) Names
  | _ => []
  end.

Definition missingDocsOf `{AstLib} (a : ASTAnalyzer) (file : File) (n : Node)
  : list Diagnostic :=
  match n with
  | FuncDecl Doc _ Name _ _ _ _ =>
      if IsExported (Ident_Name Name) && negb (bool_decide (is_Some Doc))
      then [missingDoc a file Name] else []
  | _ => []
  end.

Definition symbolsOf (ls : LanguageServer) (file : File) (n : Node) : list SymbolInfo :=
  match n with
  | FuncDecl _ _ Name Typ _ StartPos EndPos => [functionSymbol ls file Name Typ StartPos EndPos]
  | TypeSpec _ Name _ _ _ EndPos => [typeSymbol ls file Name EndPos]
  | _ => []
  end.

(** Map writes, in order. *)
Definition inserts (l : list (string * Z)) (m : gmap string Z) : gmap string Z :=
  fold_left (fun m kv => <[fst kv := snd kv]> m) l m.

(** The analyzer after [analyzeFunctions] ran on a file. *)
Definition afterFunctions (a : ASTAnalyzer) (file : File) : ASTAnalyzer :=
  {| ASTAnalyzer_fileSet := ASTAnalyzer_fileSet a;
     ASTAnalyzer_typeInfo := ASTAnalyzer_typeInfo a;
     ASTAnalyzer_packages := ASTAnalyzer_packages a;
     ASTAnalyzer_complexity :=
       inserts (flat_map complexityOf (Ast.fileNodes file)) (ASTAnalyzer_complexity a) |}.

(** The state after the callback [f] ran on [n]. *)
Definition visited {S} (f : Node -> S -> bool * S) (s : S) (n : Node) : S := snd (f n s).

(** Every node of [L] comes with its whole subtree, as one run of [L]. *)
Definition segments (L : list Node) : Prop :=
  forall m, In m L -> exists pre post, L = pre ++ Ast.subnodes m ++ post.

(** An analyzer without type information. *)
Definition untyped (a : ASTAnalyzer) : Prop :=
  TypesInfo_Defs (ASTAnalyzer_typeInfo a) = ∅ /\ TypesInfo_Uses (ASTAnalyzer_typeInfo a) = ∅.

(** The names a list of symbols and an analysis result hold. *)
Definition symbolNames (symbols : list SymbolInfo) : list string :=
  map SymbolInfo_Name symbols.

Definition declaredNames (r : AnalysisResult) : list string :=
  map FunctionInfo_Name (AnalysisResult_Functions r)
  ++ map TypeInfo_Name (AnalysisResult_Types r)
  ++ map VariableInfo_Name (AnalysisResult_Variables r).

Definition symbolsOfKind (kind : string) (symbols : list SymbolInfo) : list SymbolInfo :=
  List.filter (fun s => String.eqb (SymbolInfo_Kind s) kind) symbols.

(** The sum of the complexities a result lists. *)
Definition sumOfComplexities (r : AnalysisResult) : Z :=
  fold_left (fun s f => s + FunctionInfo_Complexity f) (AnalysisResult_Functions r) 0.

(* ===================================================================== *)
(** ** pkg/mcp/lsp_server.go and the routes of the two servers            *)
(* ===================================================================== *)

Record AnalysisRequest := {
  AnalysisRequest_URI : string;
  AnalysisRequest_Content : string }.

(** The JSON value an analysis handler writes. *)
Inductive AnalysisBody : Type :=
| FileBody (result : AnalysisResult)
| DependenciesBody (deps : gmap string (list string))
| MetricsBody (metrics : CodeMetrics)
| AnalysisErrorBody (error : string).

Record AnalysisResponse := {
  AnalysisResponse_status : Z;
  AnalysisResponse_body : AnalysisBody }.

(** The analyzer [AddAnalysisHandler] makes and hands to the three
    handlers: it is on a file set of its own, which nothing adds a file
    to. *)
Definition handlerAnalyzer : ASTAnalyzer := NewASTAnalyzer NewFileSet.

Section AnalysisHandlers.

Context `{AstLib} `{Parser}.

(** [handleFileAnalysis], on the decoded request body: the text is parsed
    into a new file set, the tree is analyzed by the shared analyzer. *)
Definition handleFileAnalysis (o : RangeOrder) (analyzer : ASTAnalyzer)
  (req : AnalysisRequest) : AnalysisResponse * ASTAnalyzer :=
  match snd (ParseFile NewFileSet (AnalysisRequest_URI req) (AnalysisRequest_Content req)) with
  | inr err =>
      ({| AnalysisResponse_status := Http.StatusBadRequest;
          AnalysisResponse_body := AnalysisErrorBody err |}, analyzer)
  | inl file =>
      let '(result, analyzer) := AnalyzeFile o analyzer file in
      ({| AnalysisResponse_status := Http.StatusOK;
          AnalysisResponse_body := FileBody result |}, analyzer)
  end.

(** [handleDependencyAnalysis] *)
Definition handleDependencyAnalysis (analyzer : ASTAnalyzer) (req : AnalysisRequest)
  : AnalysisResponse * ASTAnalyzer :=
  match snd (ParseFile NewFileSet (AnalysisRequest_URI req) (AnalysisRequest_Content req)) with
  | inr err =>
      ({| AnalysisResponse_status := Http.StatusBadRequest;
          AnalysisResponse_body := AnalysisErrorBody err |}, analyzer)
  | inl file =>
      ({| AnalysisResponse_status := Http.StatusOK;
          AnalysisResponse_body := DependenciesBody (AnalyzeDependencies analyzer file) |},
       analyzer)
  end.

(** [handleMetricsAnalysis] *)
Definition handleMetricsAnalysis (o : RangeOrder) (analyzer : ASTAnalyzer)
  (req : AnalysisRequest) : AnalysisResponse * ASTAnalyzer :=
  match snd (ParseFile NewFileSet (AnalysisRequest_URI req) (AnalysisRequest_Content req)) with
  | inr err =>
      ({| AnalysisResponse_status := Http.StatusBadRequest;
          AnalysisResponse_body := AnalysisErrorBody err |}, analyzer)
  | inl file =>
      let '(result, analyzer) := AnalyzeFile o analyzer file in
      ({| AnalysisResponse_status := Http.StatusOK;
          AnalysisResponse_body := MetricsBody (AnalysisResult_Metrics result) |}, analyzer)
  end.

(** The routes [AddAnalysisHandler] registers. *)
Inductive AnalysisCall : Type :=
| FileCall (req : AnalysisRequest)
| DependenciesCall (req : AnalysisRequest)
| MetricsCall (req : AnalysisRequest).

Definition serveAnalysis (o : RangeOrder) (analyzer : ASTAnalyzer) (call : AnalysisCall)
  : AnalysisResponse * ASTAnalyzer :=
  match call with
  | FileCall req => handleFileAnalysis o analyzer req
  | DependenciesCall req => handleDependencyAnalysis analyzer req
  | MetricsCall req => handleMetricsAnalysis o analyzer req
  end.

(** The requests the server handles one after the other; [os i] is the
    order the maps are ranged over while request [i] is handled. *)
Fixpoint runAnalysis (os : nat -> RangeOrder) (i : nat) (analyzer : ASTAnalyzer)
  (calls : list AnalysisCall) : list AnalysisResponse * ASTAnalyzer :=
  match calls with
  | [] => ([], analyzer)
  | call :: rest =>
      let '(resp, analyzer) := serveAnalysis (os i) analyzer call in
      let '(resps, analyzer) := runAnalysis os (Datatypes.S i) analyzer rest in
      (resp :: resps, analyzer)
  end.

(** The routes [AddLanguageServerHandler] registers on one language
    server, without the three that are not implemented. *)
Inductive LspCall : Type :=
| OpenCall (doc : TextDocumentItem)
| CloseCall (doc : TextDocumentItem)
| ChangeCall (doc : TextDocumentItem)
| SymbolsCall (uri : string).

(** One request: the server after it and the response, if the handler did
    not panic. *)
Definition settle (out : Outcome Response) : LanguageServer * option Response :=
  match out with
  | Returned ls resp => (ls, Some resp)
  | Panicked ls _ => (ls, None)
  end.

Definition serveLsp (ls : LanguageServer) (call : LspCall) : LanguageServer * option Response :=
  match call with
  | OpenCall doc => settle (handleOpenDocument ls doc)
  | CloseCall doc => settle (handleCloseDocument ls doc)
  | ChangeCall doc => settle (handleChangeDocument ls doc)
  | SymbolsCall uri => (ls, Some (handleDocumentSymbols ls uri))
  end.

Definition runLsp (ls : LanguageServer) (calls : list LspCall) : LanguageServer :=
  fold_left (fun ls call => fst (serveLsp ls call)) calls ls.

End AnalysisHandlers.

(** ** More sample inputs *)

Module Fixture.

(** What a type checker records for [Sample.greetFile 1]: the identifiers
    that define an object and those that use one. *)
Definition greetInfo : TypesInfo :=
  {| TypesInfo_Defs :=
       {[ (45, "Greet") := ObjFunc "Greet";
          (51, "loud") := ObjVar "loud";
          (106, "helper") := ObjFunc "helper" ]};
     TypesInfo_Uses :=
       {[ (56, "bool") := ObjTypeName "bool";
          (68, "loud") := ObjVar "loud";
          (77, "fmt") := ObjPkgName "fmt" "fmt";
          (81, "Println") := ObjFunc "Println";
          (89, "loud") := ObjVar "loud" ]} |}.

(** An analyzer that holds this type information. *)
Definition typedAnalyzer : ASTAnalyzer :=
  {| ASTAnalyzer_fileSet := Sample.greetSet;
     ASTAnalyzer_typeInfo := greetInfo;
     ASTAnalyzer_packages := ∅;
     ASTAnalyzer_complexity := ∅ |}.

(** Requests to the analysis routes. *)
Definition greetRequest : AnalysisRequest :=
  {| AnalysisRequest_URI := "greet.go"; AnalysisRequest_Content := Sample.greetSource |}.

Definition declsRequest : AnalysisRequest :=
  {| AnalysisRequest_URI := "a.go"; AnalysisRequest_Content := Sample.declsSource |}.

Definition emptyRequest : AnalysisRequest :=
  {| AnalysisRequest_URI := "empty.go"; AnalysisRequest_Content := EmptyString |}.

Definition calls : list AnalysisCall :=
  [FileCall greetRequest; DependenciesCall greetRequest; MetricsCall emptyRequest;
   FileCall declsRequest].

Definition responses : list AnalysisResponse :=
  fst (@runAnalysis Sample.lib Sample.parser (fun _ => inOrder) 0%nat handlerAnalyzer calls).

(** The answers to the first two of these requests. *)
Definition greetResponse : AnalysisResponse :=
  {| AnalysisResponse_status := Http.StatusOK;
     AnalysisResponse_body :=
       FileBody (fst (@AnalyzeFile Sample.lib inOrder handlerAnalyzer (Sample.greetFile 1))) |}.

Definition greetDependencies : gmap string (list string) :=
  AnalyzeDependencies
    (snd (@AnalyzeFile Sample.lib inOrder handlerAnalyzer (Sample.greetFile 1)))
    (Sample.greetFile 1).

Definition dependenciesResponse : AnalysisResponse :=
  {| AnalysisResponse_status := Http.StatusOK;
     AnalysisResponse_body := DependenciesBody greetDependencies |}.

(** A plain signature:
    [func Join(dir string, names []string) (path string, err error)]. *)
Definition joinType : Node :=
  FuncType None
    (Some (FieldList
             [Field None [Sample.ident 1 10 "dir"] (Some (NIdent (Sample.ident 1 14 "string")))
                None None;
              Field None [Sample.ident 1 22 "names"]
                (Some (ArrayType None (NIdent (Sample.ident 1 30 "string")))) None None]))
    (Some (FieldList
             [Field None [Sample.ident 1 39 "path"] (Some (NIdent (Sample.ident 1 44 "string")))
                None None;
              Field None [Sample.ident 1 52 "err"] (Some (NIdent (Sample.ident 1 56 "error")))
                None None])).

End Fixture.

(** ** More words for the properties *)

(** A selector whose left side is an identifier that [Uses] binds to the
    package imported from [path]. *)
Definition isQualifiedUse (a : ASTAnalyzer) (path : string) (n : Node) : bool :=
  match n with
  | SelectorExpr (NIdent ident) _ =>
      match TypesInfo_Uses (ASTAnalyzer_typeInfo a) !! identKey ident with
      | Some (ObjPkgName _ imported) => String.eqb imported path
      | _ => false
      end
  | _ => false
  end.

(** The location of a position no file of the file set holds. *)
Definition unresolved : Range :=
  {| Range_Start := {| Position_Line := -1; Position_Character := -1 |};
     Range_End := {| Position_Line := -1; Position_Character := -1 |} |}.

(** Type expressions made of identifiers, pointers, slices, arrays and
    qualified names. *)
Inductive plainType : Node -> Prop :=
| plain_ident id : plainType (NIdent id)
| plain_star x : plainType x -> plainType (StarExpr x)
| plain_array len elt : plainType elt -> plainType (ArrayType len elt)
| plain_selector x sel : plainType x -> plainType (SelectorExpr x sel).

(** A parameter or result field with a plain type; a parameter has names. *)
Definition plainResult (p : Node) : Prop :=
  exists doc names t tag comment, p = Field doc names (Some t) tag comment /\ plainType t.

Definition plainParam (p : Node) : Prop :=
  exists doc name names t tag comment,
    p = Field doc (name :: names) (Some t) tag comment /\ plainType t.

(** Every entry of the reference map is named by its key, and the key is
    the name of an identifier of the tree that [Defs] binds. *)
Definition keyedByDefinition (a : ASTAnalyzer) (file : File)
  (refMap : gmap string ReferenceInfo) : Prop :=
  forall k r, refMap !! k = Some r ->
    ReferenceInfo_Name r = k
    /\ exists id obj,
         In (NIdent id) (Ast.fileNodes file)
         /\ TypesInfo_Defs (ASTAnalyzer_typeInfo a) !! identKey id = Some obj
         /\ k = Ident_Name id.

(** The fields of a parameter or result list, when there is one. *)
Definition plainFields (P : Node -> Prop) (fields : option Node) : Prop :=
  match fields with
  | None => True
  | Some (FieldList l) => Forall P l
  | Some _ => False
  end.

(** A string without the byte [c]. *)
Fixpoint without (c : ascii) (s : string) : Prop :=
  match s with
  | EmptyString => True
  | String x rest => x <> c /\ without c rest
  end.

(** The sum of the values of a list of entries, without wrap-around. *)
Definition total (l : list (string * Z)) : Z := fold_right (fun kv s => snd kv + s) 0 l.

(* ===================================================================== *)
(** * Proofs                                                              *)
(* ===================================================================== *)

(** ** Arithmetic on [int] *)

Lemma wrap_small (x : Z) :
  GoInt.min_int <= x <= GoInt.max_int -> GoInt.wrap x = x.
Proof.
  unfold GoInt.min_int, GoInt.max_int, GoInt.wrap. intros Hx.
  rewrite Z.mod_small; lia.
Qed.

Lemma wrap_add_wrap_l (x y : Z) : GoInt.wrap (GoInt.wrap x + y) = GoInt.wrap (x + y).
Proof.
  unfold GoInt.wrap.
  replace ((x + 2 ^ 63) mod 2 ^ 64 - 2 ^ 63 + y + 2 ^ 63)
    with ((x + 2 ^ 63) mod 2 ^ 64 + y) by lia.
  rewrite Zplus_mod_idemp_l. f_equal. f_equal. lia.
Qed.

Lemma add_assoc_comm (s x y : Z) :
  GoInt.add (GoInt.add s x) y = GoInt.add (GoInt.add s y) x.
Proof.
  unfold GoInt.add. rewrite !wrap_add_wrap_l. f_equal. lia.
Qed.

(** Counting up from [c] wraps once, at the end. *)
Lemma incr_iter (k : nat) (c : Z) :
  Nat.iter k GoInt.incr (GoInt.wrap c) = GoInt.wrap (c + Z.of_nat k).
Proof.
  induction k as [|k IH].
  - change (GoInt.wrap c = GoInt.wrap (c + 0)). f_equal. lia.
  - rewrite Nat.iter_succ, IH. unfold GoInt.incr, GoInt.add.
    rewrite wrap_add_wrap_l. f_equal. lia.
Qed.

(** The sum of a list of [int]s does not depend on the order. *)
Lemma sum_Permutation (l l' : list (string * Z)) (s : Z) :
  l ≡ₚ l' ->
  fold_left (fun score kv => GoInt.add score (snd kv)) l s
  = fold_left (fun score kv => GoInt.add score (snd kv)) l' s.
Proof.
  intros Hp. revert s. induction Hp; intros s; cbn [fold_left].
  - reflexivity.
  - apply IHHp.
  - f_equal. apply add_assoc_comm.
  - rewrite IHHp1. apply IHHp2.
Qed.

(** ** [ast.Inspect] with a callback that never prunes *)

Section InspectAll.

Context {S : Type} (f : Node -> S -> bool * S).

Hypothesis f_continues : forall n s, fst (f n s) = true.

Local Abbreviation step := (visited f).

Lemma step_cons n l s : fold_left step (n :: l) s = fold_left step l (snd (f n s)).
Proof. reflexivity. Qed.

Lemma visit_step n s : Ast.visit f n s = fold_left step [n] s.
Proof. reflexivity. Qed.

Lemma fold_comments (l : list Comment) s :
  fold_left (fun acc c => Ast.visit f (NComment c) acc) l s
  = fold_left step (map NComment l) s.
Proof. revert s. induction l as [|c l IH]; intros s; cbn; [reflexivity | apply IH]. Qed.

Lemma walkGroup_step g s :
  Ast.walkGroup f g s = fold_left step (Ast.groupNodes g) s.
Proof.
  unfold Ast.walkGroup, Ast.groupNodes. rewrite step_cons.
  pose proof (f_continues (NCommentGroup g) s) as Hgo.
  destruct (f (NCommentGroup g) s) as [go s1]. cbn in Hgo. subst go. cbn [snd].
  apply fold_comments.
Qed.

Lemma walkOpt_step {A} (w : A -> S -> S) (nodes : A -> list Node) o s :
  (forall x s, w x s = fold_left step (nodes x) s) ->
  Ast.walkOpt w o s = fold_left step (Ast.optNodes nodes o) s.
Proof. intros Hw. destruct o; cbn; [apply Hw | reflexivity]. Qed.

Lemma walkList_step {A} (w : A -> S -> S) (nodes : A -> list Node) l s :
  (forall x s, w x s = fold_left step (nodes x) s) ->
  Ast.walkList w l s = fold_left step (flat_map nodes l) s.
Proof.
  intros Hw. unfold Ast.walkList. revert s.
  induction l as [|x l IH]; intros s; cbn [fold_left flat_map]; [reflexivity|].
  rewrite fold_left_app, IH, Hw. reflexivity.
Qed.

Lemma walkImportSpec_step sp s :
  Ast.walkImportSpec f sp s = fold_left step (Ast.importSpecNodes sp) s.
Proof.
  unfold Ast.walkImportSpec, Ast.importSpecNodes. rewrite !fold_left_app.
  rewrite !(walkOpt_step _ Ast.groupNodes) by apply walkGroup_step.
  rewrite (walkOpt_step _ Ast.identNode) by reflexivity.
  reflexivity.
Qed.

Local Abbreviation inspected :=
  (fun n : Node => forall s, Ast.Inspect f n s = fold_left step (Ast.subnodes n) s).

Lemma walkOpt_all o s :
  option_all Node inspected o ->
  Ast.walkOpt (Ast.Inspect f) o s = fold_left step (Ast.optNodes Ast.subnodes o) s.
Proof. intros [x Hx|]; cbn; [apply Hx | reflexivity]. Qed.

Lemma walkList_all l s :
  list_all Node inspected l ->
  Ast.walkList (Ast.Inspect f) l s = fold_left step (flat_map Ast.subnodes l) s.
Proof.
  intros Hl. unfold Ast.walkList. revert s.
  induction Hl as [|x Hx l Hl IH]; intros s; cbn [fold_left flat_map]; [reflexivity|].
  rewrite fold_left_app, IH, Hx. reflexivity.
Qed.

Ltac inspect_children :=
  rewrite ?fold_left_app;
  repeat match goal with
    | H : forall s, Ast.Inspect f ?x s = _ |- context [Ast.Inspect f ?x _] => rewrite (H _)
    | H : option_all Node _ ?o |- context [Ast.walkOpt (Ast.Inspect f) ?o _] =>
        rewrite (walkOpt_all o _ H)
    | H : list_all Node _ ?l |- context [Ast.walkList (Ast.Inspect f) ?l _] =>
        rewrite (walkList_all l _ H)
    | |- context [Ast.walkOpt (Ast.walkGroup f) ?o ?s] =>
        rewrite (walkOpt_step (Ast.walkGroup f) Ast.groupNodes o s walkGroup_step)
    | |- context [Ast.walkOpt (Ast.visitLit f) ?o ?s] =>
        rewrite (walkOpt_step (Ast.visitLit f) Ast.litNode o s (fun _ _ => eq_refl))
    | |- context [Ast.walkList (Ast.visitIdent f) ?l ?s] =>
        rewrite (walkList_step (Ast.visitIdent f) Ast.identNode l s (fun _ _ => eq_refl))
    end.

(** The callback runs once on every node of the subtree, in pre-order. *)
Lemma Inspect_subnodes (n : Node) (s : S) :
  Ast.Inspect f n s = fold_left step (Ast.subnodes n) s.
Proof.
  revert s.
  induction n; intros s; cbn [Ast.Inspect Ast.subnodes]; rewrite step_cons;
    (match goal with
     | |- context [f ?m s] =>
         pose proof (f_continues m s) as Hgo; destruct (f m s) as [go s1]
     end;
     cbn in Hgo; subst go; cbn [negb snd]);
    first [ reflexivity
          | apply fold_comments
          | apply walkImportSpec_step
          | inspect_children; reflexivity ].
Qed.

Lemma InspectFile_fileNodes (file : File) (s : S) :
  Ast.InspectFile f file s = fold_left step (Ast.fileNodes file) s.
Proof.
  unfold Ast.InspectFile, Ast.fileNodes. rewrite !fold_left_app.
  rewrite (walkOpt_step _ Ast.groupNodes) by apply walkGroup_step.
  apply walkList_step. intros x s'. apply Inspect_subnodes.
Qed.

End InspectAll.

(** ** Callbacks that collect *)

Lemma InspectFile_collect {A} (f : Node -> list A -> bool * list A) (g : Node -> list A)
  (file : File) (s : list A) :
  (forall n s, f n s = (true, s ++ g n)) ->
  Ast.InspectFile f file s = s ++ flat_map g (Ast.fileNodes file).
Proof.
  intros Hf. rewrite InspectFile_fileNodes by (intros n s'; rewrite Hf; reflexivity).
  generalize (Ast.fileNodes file) as l. intros l. revert s.
  induction l as [|n l IH]; intros s; cbn [fold_left flat_map].
  - symmetry. apply app_nil_r.
  - unfold visited at 2. rewrite Hf, IH. cbn [snd]. symmetry. apply app_assoc.
Qed.

(** A callback that leaves the state alone. *)
Lemma InspectFile_idle {A} (f : Node -> A -> bool * A) (file : File) (s : A) :
  (forall n s, f n s = (true, s)) -> Ast.InspectFile f file s = s.
Proof.
  intros Hf. rewrite InspectFile_fileNodes by (intros n s'; rewrite Hf; reflexivity).
  induction (Ast.fileNodes file) as [|n l IH]; cbn [fold_left]; [reflexivity|].
  unfold visited at 2. rewrite Hf. exact IH.
Qed.

Section Collected.

Context `{AstLib}.

Lemma analyzeTypes_nodes a file :
  analyzeTypes a file = flat_map (typesOf a file) (Ast.fileNodes file).
Proof.
  unfold analyzeTypes. rewrite (InspectFile_collect _ (typesOf a file)); [reflexivity|].
  intros n s. destruct n; cbn; rewrite ?app_nil_r; reflexivity.
Qed.

Lemma analyzeVariables_nodes a file :
  analyzeVariables a file = flat_map (variablesOf a file) (Ast.fileNodes file).
Proof.
  unfold analyzeVariables. rewrite (InspectFile_collect _ (variablesOf a file)); [reflexivity|].
  intros n s. destruct n; cbn; rewrite ?app_nil_r; reflexivity.
Qed.

Lemma runDiagnostics_nodes a file :
  runDiagnostics a file
  = unusedImports a file ++ flat_map (missingDocsOf a file) (Ast.fileNodes file).
Proof.
  unfold runDiagnostics. apply InspectFile_collect.
  intros n s. destruct n; cbn; rewrite ?app_nil_r; try reflexivity.
  destruct (IsExported (Ident_Name Name) && negb (bool_decide (is_Some Doc)));
    rewrite ?app_nil_r; reflexivity.
Qed.

Lemma extractSymbols_nodes ls file :
  extractSymbols ls file = flat_map (symbolsOf ls file) (Ast.fileNodes file).
Proof.
  unfold extractSymbols. rewrite (InspectFile_collect _ (symbolsOf ls file)); [reflexivity|].
  intros n s. destruct n; cbn; rewrite ?app_nil_r; reflexivity.
Qed.

(** [analyzeFunctions] lists the function declarations of the tree in
    pre-order and writes their complexities into the map in that order. *)
Lemma analyzeFunctions_nodes a file :
  analyzeFunctions a file
  = (flat_map (functionsOf a file) (Ast.fileNodes file),
     {| ASTAnalyzer_fileSet := ASTAnalyzer_fileSet a;
        ASTAnalyzer_typeInfo := ASTAnalyzer_typeInfo a;
        ASTAnalyzer_packages := ASTAnalyzer_packages a;
        ASTAnalyzer_complexity :=
          inserts (flat_map complexityOf (Ast.fileNodes file)) (ASTAnalyzer_complexity a) |}).
Proof.
  unfold analyzeFunctions.
  rewrite InspectFile_fileNodes by (intros n s; destruct n; reflexivity).
  set (f := fun (n : Node) (st : list FunctionInfo * gmap string Z) => _).
  assert (Hfold : forall l fs m,
             fold_left (visited f) l (fs, m)
             = (fs ++ flat_map (functionsOf a file) l, inserts (flat_map complexityOf l) m)).
  { induction l as [|n l IH]; intros fs m; cbn [fold_left flat_map].
    - rewrite app_nil_r. reflexivity.
    - unfold inserts. rewrite fold_left_app. fold (inserts (flat_map complexityOf l)).
      destruct n; cbn -[calculateFunctionComplexity];
        rewrite IH, ?app_nil_r; try reflexivity.
      rewrite <- app_assoc. reflexivity. }
  rewrite Hfold. reflexivity.
Qed.

End Collected.

(** ** Subtrees are segments of the pre-order *)

Lemma segments_nil : segments [].
Proof. intros m []. Qed.

Lemma segments_app A B : segments A -> segments B -> segments (A ++ B).
Proof.
  intros HA HB m Hm. apply in_app_or in Hm as [Hm|Hm].
  - destruct (HA m Hm) as (pre & post & ->). exists pre, (post ++ B).
    rewrite <- !app_assoc. reflexivity.
  - destruct (HB m Hm) as (pre & post & ->). exists (A ++ pre), post.
    rewrite <- !app_assoc. reflexivity.
Qed.

Lemma segments_leaves L :
  (forall m, In m L -> Ast.subnodes m = [m]) -> segments L.
Proof.
  intros Hleaf m Hm. rewrite (Hleaf m Hm).
  apply in_split in Hm as (pre & post & ->). exists pre, post. reflexivity.
Qed.

Lemma segments_cons n L : Ast.subnodes n = n :: L -> segments L -> segments (n :: L).
Proof.
  intros Hn HL m [<-|Hm].
  - exists [], []. rewrite Hn, app_nil_r. reflexivity.
  - destruct (HL m Hm) as (pre & post & ->). exists (n :: pre), post. reflexivity.
Qed.

Lemma segments_ident id : segments (Ast.identNode id).
Proof. apply segments_leaves. intros m [<-|[]]. reflexivity. Qed.

Lemma segments_lit lit : segments (Ast.litNode lit).
Proof. apply segments_leaves. intros m [<-|[]]. reflexivity. Qed.

Lemma segments_idents names : segments (flat_map Ast.identNode names).
Proof.
  apply segments_leaves. intros m Hm. apply in_flat_map in Hm as (id & _ & [<-|[]]).
  reflexivity.
Qed.

Lemma segments_comments l : segments (map NComment l).
Proof.
  apply segments_leaves. intros m Hm. apply in_map_iff in Hm as (c & <- & _). reflexivity.
Qed.

Lemma segments_group g : segments (Ast.groupNodes g).
Proof. apply segments_cons; [reflexivity | apply segments_comments]. Qed.

Lemma segments_opt {A} (nodes : A -> list Node) o :
  (forall x, segments (nodes x)) -> segments (Ast.optNodes nodes o).
Proof. intros Hn. destruct o; cbn; [apply Hn | apply segments_nil]. Qed.

Lemma segments_importSpec sp : segments (Ast.importSpecNodes sp).
Proof.
  unfold Ast.importSpecNodes.
  repeat first [ apply segments_app | apply segments_opt; intros ?
               | apply segments_group | apply segments_ident | apply segments_lit ].
Qed.

Lemma segments_opt_all o :
  option_all Node (fun n => segments (Ast.subnodes n)) o ->
  segments (Ast.optNodes Ast.subnodes o).
Proof. intros [x Hx|]; cbn; [exact Hx | apply segments_nil]. Qed.

Lemma segments_list_all l :
  list_all Node (fun n => segments (Ast.subnodes n)) l ->
  segments (flat_map Ast.subnodes l).
Proof.
  induction 1 as [|x Hx l Hl IH]; cbn [flat_map];
    [apply segments_nil | apply segments_app; assumption].
Qed.

Lemma subnodes_segments n : segments (Ast.subnodes n).
Proof.
  induction n; cbn [Ast.subnodes]; (apply segments_cons; [reflexivity|]);
    repeat first
      [ apply segments_nil | assumption
      | apply segments_app
      | apply segments_opt_all; assumption
      | apply segments_list_all; assumption
      | apply segments_opt; intros ?
      | apply segments_group | apply segments_ident | apply segments_lit
      | apply segments_idents | apply segments_comments | apply segments_importSpec ].
Qed.

Lemma fileNodes_segments file : segments (Ast.fileNodes file).
Proof.
  unfold Ast.fileNodes.
  repeat first [ apply segments_app | apply segments_opt; intros ?
               | apply segments_group | apply segments_ident ].
  induction (File_Decls file) as [|d ds IH]; cbn [flat_map];
    [apply segments_nil | apply segments_app; [apply subnodes_segments | exact IH]].
Qed.

(** A subtree is no longer than a list of nodes that holds its root. *)
Lemma segments_length L m :
  segments L -> In m L -> (List.length (Ast.subnodes m) <= List.length L)%nat.
Proof.
  intros HL Hm. destruct (HL m Hm) as (pre & post & ->).
  rewrite !length_app. lia.
Qed.

Lemma segments_incl L m k :
  segments L -> In m L -> In k (Ast.subnodes m) -> In k L.
Proof.
  intros HL Hm Hk. destruct (HL m Hm) as (pre & post & ->).
  apply in_or_app. right. apply in_or_app. left. exact Hk.
Qed.

(** ** The complexity of a function *)

Lemma count_branches (l : list Node) (c : Z) :
  fold_left
    (visited (fun n complexity =>
             (true, if isBranchNode n then GoInt.incr complexity else complexity)))
    l c
  = Nat.iter (List.length (List.filter isBranchNode l)) GoInt.incr c.
Proof.
  revert c. induction l as [|n l IH]; intros c; cbn [fold_left List.filter].
  - reflexivity.
  - unfold visited at 2. cbn [snd]. rewrite IH.
    destruct (isBranchNode n); cbn [List.length]; [|reflexivity].
    rewrite Nat.iter_succ_r. reflexivity.
Qed.

(** The complexity is one plus the number of counted nodes, in [int]. *)
Lemma complexity_wrap (fn : Node) :
  calculateFunctionComplexity fn = GoInt.wrap (1 + branchCount fn).
Proof.
  unfold calculateFunctionComplexity, branchCount.
  rewrite Inspect_subnodes by reflexivity. rewrite count_branches.
  rewrite <- (wrap_small 1) at 1 by (unfold GoInt.min_int, GoInt.max_int; lia).
  apply incr_iter.
Qed.

Lemma filter_length_le {A} (p : A -> bool) (l : list A) :
  (List.length (List.filter p l) <= List.length l)%nat.
Proof.
  induction l as [|x l IH]; cbn; [lia|]. destruct (p x); cbn; lia.
Qed.


(** The root of a function declaration is not counted. *)
Lemma branchCount_FuncDecl Doc Recv Name Typ Body StartPos EndPos :
  let fn := FuncDecl Doc Recv Name Typ Body StartPos EndPos in
  0 <= branchCount fn < Z.of_nat (List.length (Ast.subnodes fn)).
Proof.
  cbn zeta. unfold branchCount. cbn [Ast.subnodes List.filter isBranchNode List.length].
  match goal with |- context [List.filter isBranchNode ?l] =>
    pose proof (filter_length_le isBranchNode l) end.
  lia.
Qed.

(** The nodes that count are those of six types. *)
Lemma isBranchNode_types (n : Node) :
  isBranchNode n = true <->
  (exists Init Cond Body Else, n = IfStmt Init Cond Body Else)
  \/ (exists Init Cond Post Body, n = ForStmt Init Cond Post Body)
  \/ (exists Key Value X Body, n = RangeStmt Key Value X Body)
  \/ (exists List Body, n = CaseClause List Body)
  \/ (exists Comm Body, n = CommClause Comm Body)
  \/ (exists X Op Y, n = BinaryExpr X Op Y).
Proof.
  split.
  - destruct n; cbn; try discriminate; intros _; eauto 10.
  - intros [(? & ? & ? & ? & ->)|[(? & ? & ? & ? & ->)|[(? & ? & ? & ? & ->)
      |[(? & ? & ->)|[(? & ? & ->)|(? & ? & ? & ->)]]]]]; reflexivity.
Qed.





(** ** The result of [AnalyzeFile], field by field *)

Section Results.

Context `{AstLib}.

Lemma AnalyzeFile_fields o a file :
  AnalyzeFile o a file
  = ({| AnalysisResult_Imports := analyzeImports a file;
        AnalysisResult_Functions := flat_map (functionsOf a file) (Ast.fileNodes file);
        AnalysisResult_Types := analyzeTypes (afterFunctions a file) file;
        AnalysisResult_Variables := analyzeVariables (afterFunctions a file) file;
        AnalysisResult_References := analyzeReferences o (afterFunctions a file) file;
        AnalysisResult_Diagnostics := runDiagnostics (afterFunctions a file) file;
        AnalysisResult_Metrics := calculateMetrics o (afterFunctions a file) file |},
     afterFunctions a file).
Proof. unfold AnalyzeFile. rewrite analyzeFunctions_nodes. reflexivity. Qed.

Lemma in_functionsOf a file f nodes :
  In f (flat_map (functionsOf a file) nodes) ->
  exists Doc Recv Name Typ Body StartPos EndPos,
    In (FuncDecl Doc Recv Name Typ Body StartPos EndPos) nodes
    /\ f = functionInfo a file Doc Recv Name Typ StartPos EndPos
             (calculateFunctionComplexity (FuncDecl Doc Recv Name Typ Body StartPos EndPos)).
Proof.
  intros Hf. apply in_flat_map in Hf as (n & Hn & Hf).
  destruct n; cbn in Hf; try contradiction. destruct Hf as [<-|[]].
  eauto 10.
Qed.

(** C6. In the result of the analysis of a file, the complexity of every
    function is at least 1 (for a tree of fewer than 2^63 nodes, as every
    tree in memory is). *)
Theorem complexity_at_least_one o a file f :
  Z.of_nat (List.length (Ast.fileNodes file)) <= GoInt.max_int ->
  In f (AnalysisResult_Functions (fst (AnalyzeFile o a file))) ->
  1 <= FunctionInfo_Complexity f.
Proof.
  intros Hsize Hf. rewrite AnalyzeFile_fields in Hf. cbn [fst AnalysisResult_Functions] in Hf.
  apply in_functionsOf in Hf
    as (Doc & Recv & Name & Typ & Body & StartPos & EndPos & Hn & ->).
  cbn [functionInfo FunctionInfo_Complexity].
  pose proof (segments_length _ _ (fileNodes_segments file) Hn) as Hlen.
  pose proof (branchCount_FuncDecl Doc Recv Name Typ Body StartPos EndPos) as Hcount.
  cbn zeta in Hcount.
  rewrite complexity_wrap, wrap_small; unfold GoInt.min_int, GoInt.max_int in *; lia.
Qed.

End Results.

Lemma complexity_at_least_one_witness :
  Z.of_nat (List.length (Ast.fileNodes (Sample.greetFile 1))) <= GoInt.max_int
  /\ In Sample.greetInfo (AnalysisResult_Functions Sample.greetResult)
  /\ 1 <= FunctionInfo_Complexity Sample.greetInfo.
Proof.
  split; [apply Z.leb_le; vm_compute; reflexivity|].
  split; [vm_compute; left; reflexivity|].
  apply (@complexity_at_least_one Sample.lib inOrder Sample.greetAnalyzer (Sample.greetFile 1)
           Sample.greetInfo).
  - apply Z.leb_le. vm_compute. reflexivity.
  - vm_compute. left. reflexivity.
Defined.

(** ** The type information of an analyzer stays empty *)

Lemma inOrder_ok : RangeOrder_ok inOrder.
Proof. split; intros l; reflexivity. Qed.

Lemma reversed_ok : RangeOrder_ok reversed.
Proof. split; intros l; cbn; symmetry; apply Permutation_rev. Qed.

Section Untyped.

Context `{AstLib}.

Lemma analyzeFiles_typeInfo os i files result a :
  ASTAnalyzer_typeInfo (snd (analyzeFiles os i files result a)) = ASTAnalyzer_typeInfo a.
Proof.
  revert i result a. induction files as [|file files IH]; intros i result a; cbn [analyzeFiles].
  - reflexivity.
  - rewrite AnalyzeFile_fields. cbv beta iota. rewrite IH. reflexivity.
Qed.

(** No method writes [typeInfo]: it is as [NewASTAnalyzer] made it. *)
Lemma reachable_untyped a : reachable a -> untyped a.
Proof.
  induction 1 as [fset | o a file Ha IH | os a pkgPath files result a' Ha IH Hpkg].
  - split; reflexivity.
  - rewrite AnalyzeFile_fields. exact IH.
  - assert (Ht : ASTAnalyzer_typeInfo a' = ASTAnalyzer_typeInfo a).
    { unfold AnalyzePackage in Hpkg. destruct files as [|file0 files]; [discriminate|].
      apply (f_equal (fun x => match x with
                               | Some p => ASTAnalyzer_typeInfo (snd p)
                               | None => ASTAnalyzer_typeInfo a
                               end)) in Hpkg.
      cbv beta iota in Hpkg. rewrite analyzeFiles_typeInfo in Hpkg.
      symmetry. exact Hpkg. }
    unfold untyped. rewrite Ht. exact IH.
Qed.

Lemma isImportUsed_untyped a file path : untyped a -> isImportUsed a file path = false.
Proof.
  intros [_ HU]. unfold isImportUsed. apply InspectFile_idle.
  intros n s. destruct n; try reflexivity.
  destruct n; try reflexivity. rewrite HU, lookup_empty. reflexivity.
Qed.

Lemma collectDefinitions_untyped a file : untyped a -> collectDefinitions a file = ∅.
Proof.
  intros [HD _]. unfold collectDefinitions. apply InspectFile_idle.
  intros n s. destruct n; try reflexivity. rewrite HD, lookup_empty. reflexivity.
Qed.

Lemma collectUses_untyped a file refMap : untyped a -> collectUses a file refMap = refMap.
Proof.
  intros [_ HU]. unfold collectUses. apply InspectFile_idle.
  intros n s. destruct n; try reflexivity. rewrite HU, lookup_empty. reflexivity.
Qed.

Lemma analyzeReferences_untyped o a file :
  RangeOrder_ok o -> untyped a -> analyzeReferences o a file = [].
Proof.
  intros [Href _] Ha. unfold analyzeReferences.
  rewrite collectDefinitions_untyped, collectUses_untyped by exact Ha.
  rewrite map_to_list_empty.
  pose proof (Href []) as Hp. apply Permutation_nil_r in Hp. rewrite Hp. reflexivity.
Qed.

Lemma analyzeImports_untyped a file :
  untyped a -> Forall (fun i => ImportInfo_Used i = false) (analyzeImports a file).
Proof.
  intros Ha. unfold analyzeImports. apply Forall_map, Forall_forall. intros imp _.
  cbn. apply isImportUsed_untyped, Ha.
Qed.

Lemma unusedImports_untyped a file :
  untyped a -> unusedImports a file = map (unusedImport a file) (File_Imports file).
Proof.
  intros Ha. unfold unusedImports.
  induction (File_Imports file) as [|imp imps IH]; cbn [flat_map map]; [reflexivity|].
  rewrite isImportUsed_untyped, IH by exact Ha. reflexivity.
Qed.

Lemma AnalyzeDependencies_untyped a file : untyped a -> AnalyzeDependencies a file = ∅.
Proof.
  intros Ha. unfold AnalyzeDependencies.
  induction (File_Imports file) as [|imp imps IH]; cbn [fold_left]; [reflexivity|].
  rewrite isImportUsed_untyped by exact Ha. exact IH.
Qed.

Lemma withCode_app code ds1 ds2 : withCode code (ds1 ++ ds2) = withCode code ds1 ++ withCode code ds2.
Proof. apply List.filter_app. Qed.

Lemma withCode_unusedImport a file imps :
  withCode "unused-import" (map (unusedImport a file) imps) = map (unusedImport a file) imps.
Proof. induction imps as [|imp imps IH]; cbn; [reflexivity | f_equal; exact IH]. Qed.

Lemma withCode_missingDocs a file nodes :
  withCode "unused-import" (flat_map (missingDocsOf a file) nodes) = [].
Proof.
  induction nodes as [|n nodes IH]; cbn [flat_map]; [reflexivity|].
  rewrite withCode_app, IH, app_nil_r.
  destruct n; try reflexivity. cbn.
  destruct (IsExported (Ident_Name Name) && negb (bool_decide (is_Some Doc))); reflexivity.
Qed.

(** C9. Defs and Uses are empty in every analyzer a program can hold, so
    for every file [AnalyzeFile] returns no reference, marks every
    import unused, reports every import with an [unused-import]
    diagnostic (one per import, in the order of the imports), and
    [AnalyzeDependencies] returns the empty map. *)
Theorem analysis_without_type_information o a file :
  reachable a ->
  RangeOrder_ok o ->
  let r := fst (AnalyzeFile o a file) in
  untyped a
  /\ AnalysisResult_References r = []
  /\ map ImportInfo_Path (AnalysisResult_Imports r) = map importPath (File_Imports file)
  /\ Forall (fun i => ImportInfo_Used i = false) (AnalysisResult_Imports r)
  /\ withCode "unused-import" (AnalysisResult_Diagnostics r)
     = map (unusedImport a file) (File_Imports file)
  /\ AnalyzeDependencies a file = ∅.
Proof.
  intros Hreach Ho r. pose proof (reachable_untyped a Hreach) as Ha.
  assert (Ha' : untyped (afterFunctions a file)) by exact Ha.
  subst r. rewrite AnalyzeFile_fields. cbn [fst AnalysisResult_References
    AnalysisResult_Imports AnalysisResult_Diagnostics].
  split; [exact Ha|].
  split; [apply analyzeReferences_untyped; assumption|].
  split; [unfold analyzeImports; rewrite map_map; reflexivity|].
  split; [apply analyzeImports_untyped, Ha|].
  split; [|apply AnalyzeDependencies_untyped, Ha].
  rewrite runDiagnostics_nodes, withCode_app, withCode_missingDocs, app_nil_r.
  rewrite unusedImports_untyped by exact Ha'.
  change (unusedImport (afterFunctions a file) file) with (unusedImport a file).
  apply withCode_unusedImport.
Qed.

End Untyped.

Lemma analysis_without_type_information_witness :
  reachable (H := Sample.lib) Sample.greetAnalyzer
  /\ RangeOrder_ok inOrder
  /\ AnalysisResult_References Sample.greetResult = []
  /\ Forall (fun i => ImportInfo_Used i = false) (AnalysisResult_Imports Sample.greetResult)
  /\ List.length (withCode "unused-import" (AnalysisResult_Diagnostics Sample.greetResult)) = 2%nat
  /\ AnalyzeDependencies Sample.greetAnalyzer (Sample.greetFile 1) = ∅.
Proof.
  pose proof (@analysis_without_type_information Sample.lib inOrder Sample.greetAnalyzer
                (Sample.greetFile 1) (reachable_new Sample.greetSet) inOrder_ok)
    as (_ & Hrefs & _ & Hused & Hdiag & Hdeps).
  split; [apply reachable_new|]. split; [apply inOrder_ok|].
  split; [exact Hrefs|]. split; [exact Hused|]. split; [|exact Hdeps].
  unfold Sample.greetResult. rewrite Hdiag. reflexivity.
Defined.

(** ** Analyzing the same file again *)

Lemma inserts_snoc l kv m : inserts (l ++ [kv]) m = <[fst kv := snd kv]> (inserts l m).
Proof. unfold inserts. rewrite fold_left_app. reflexivity. Qed.

(** A write that a later write to the same key hides. *)
Lemma insert_inserts_insert l (k : string) (v v' : Z) m :
  <[k := v]> (inserts l (<[k := v']> m)) = <[k := v]> (inserts l m).
Proof.
  revert m. induction l as [|[k1 v1] l IH]; intros m; cbn [inserts fold_left fst snd].
  - apply insert_insert_eq.
  - fold (inserts l). destruct (decide (k1 = k)) as [->|Hne].
    + rewrite insert_insert_eq. reflexivity.
    + rewrite (insert_insert_ne m k1 k) by exact Hne. apply IH.
Qed.

(** Writing the same entries a second time changes nothing. *)
Lemma inserts_twice l m : inserts l (inserts l m) = inserts l m.
Proof.
  induction l as [|kv l IH] using rev_ind; [reflexivity|].
  rewrite !inserts_snoc. rewrite insert_inserts_insert. rewrite IH. reflexivity.
Qed.

Section Again.

Context `{AstLib}.

Lemma afterFunctions_twice a file :
  afterFunctions (afterFunctions a file) file = afterFunctions a file.
Proof.
  unfold afterFunctions. cbn [ASTAnalyzer_fileSet ASTAnalyzer_typeInfo ASTAnalyzer_packages
    ASTAnalyzer_complexity]. rewrite inserts_twice. reflexivity.
Qed.

(** The metrics depend on the order of the [range] over the complexity map
    through a sum only. *)
Lemma calculateMetrics_order o1 o2 a file :
  RangeOrder_ok o1 -> RangeOrder_ok o2 ->
  calculateMetrics o1 a file = calculateMetrics o2 a file.
Proof.
  intros [_ H1] [_ H2]. unfold calculateMetrics. f_equal.
  apply sum_Permutation. rewrite H1, H2. reflexivity.
Qed.

(** C7. Running [AnalyzeFile] twice in a row on the same file, on an
    analyzer a program can hold, yields the same result field by field,
    whatever order the two runs range over their maps in: the list of
    references and the complexity score included. *)
Theorem AnalyzeFile_twice o1 o2 a file :
  reachable a ->
  RangeOrder_ok o1 ->
  RangeOrder_ok o2 ->
  fst (AnalyzeFile o2 (snd (AnalyzeFile o1 a file)) file) = fst (AnalyzeFile o1 a file).
Proof.
  intros Hreach Ho1 Ho2. pose proof (reachable_untyped a Hreach) as Ha.
  assert (Ha' : untyped (afterFunctions a file)) by exact Ha.
  rewrite !AnalyzeFile_fields. cbn [fst snd]. rewrite afterFunctions_twice.
  rewrite !analyzeReferences_untyped by assumption.
  rewrite (calculateMetrics_order o2 o1) by assumption.
  reflexivity.
Qed.

End Again.

Lemma AnalyzeFile_twice_witness :
  reachable (H := Sample.lib) Sample.greetAnalyzer
  /\ RangeOrder_ok inOrder
  /\ RangeOrder_ok reversed
  /\ fst (@AnalyzeFile Sample.lib reversed
            (snd (@AnalyzeFile Sample.lib inOrder Sample.greetAnalyzer (Sample.greetFile 1)))
            (Sample.greetFile 1))
     = Sample.greetResult.
Proof.
  split; [apply reachable_new|]. split; [apply inOrder_ok|]. split; [apply reversed_ok|].
  apply (@AnalyzeFile_twice Sample.lib inOrder reversed Sample.greetAnalyzer
           (Sample.greetFile 1) (reachable_new Sample.greetSet) inOrder_ok reversed_ok).
Defined.

(** ** Variables and constants *)

Lemma Constant_initializer a file Names Typ Values EndPos name :
  VariableInfo_Constant (variableInfo a file Names Typ Values EndPos name) = true
  <-> Values <> [].
Proof.
  cbn [variableInfo VariableInfo_Constant]. unfold GoInt.len.
  destruct Values as [|v vs]; cbn [List.length].
  - split; [discriminate | congruence].
  - split; [discriminate | intros _; apply Z.ltb_lt; lia].
Qed.

Lemma spec_in_GenDecl Doc Tok Specs spec :
  In spec Specs -> In spec (Ast.subnodes (GenDecl Doc Tok Specs)).
Proof.
  intros Hs. cbn [Ast.subnodes]. right. apply in_or_app. right.
  apply in_flat_map. exists spec. split; [exact Hs|].
  destruct spec; left; reflexivity.
Qed.

(** Every [VariableInfo] comes from a name of a value spec of the tree. *)
Lemma analyzeVariables_from_spec a file v :
  In v (analyzeVariables a file) ->
  exists Doc Names Typ Values Comment EndPos name,
    In (ValueSpec Doc Names Typ Values Comment EndPos) (Ast.fileNodes file)
    /\ In name Names
    /\ v = variableInfo a file Names Typ Values EndPos name.
Proof.
  rewrite analyzeVariables_nodes. intros Hv. apply in_flat_map in Hv as (n & Hn & Hv).
  destruct n; cbn in Hv; try contradiction.
  apply in_map_iff in Hv as (name & <- & Hname). eauto 12.
Qed.

(** C10. For every name of a value spec, in a [const] declaration as in a
    [var] one ([Tok] is arbitrary), [analyzeVariables] produces the
    [VariableInfo] of that name, and its [Constant] flag is true if and
    only if the spec has at least one initializer value. *)
Theorem Constant_iff_initializer a file Doc Tok Specs Doc' Names Typ Values Comment EndPos name :
  In (GenDecl Doc Tok Specs) (Ast.fileNodes file) ->
  In (ValueSpec Doc' Names Typ Values Comment EndPos) Specs ->
  In name Names ->
  let v := variableInfo a file Names Typ Values EndPos name in
  In v (analyzeVariables a file)
  /\ VariableInfo_Name v = Ident_Name name
  /\ (VariableInfo_Constant v = true <-> Values <> []).
Proof.
  intros Hdecl Hspec Hname v. split; [|split].
  - rewrite analyzeVariables_nodes. apply in_flat_map.
    exists (ValueSpec Doc' Names Typ Values Comment EndPos). split.
    + eapply segments_incl; [apply fileNodes_segments | exact Hdecl|].
      apply spec_in_GenDecl, Hspec.
    + cbn [variablesOf]. apply in_map, Hname.
  - reflexivity.
  - apply Constant_initializer.
Qed.

(** [var x = 1] makes a "constant"; the flag follows the initializer, not
    the keyword. *)
Lemma Constant_iff_initializer_witness :
  let a := NewASTAnalyzer (Sample.addFile NewFileSet "a.go" Sample.declsSource) in
  let x := Sample.ident 1 15 "x" in
  let one := NBasicLit {| BasicLit_ValuePos := 20; BasicLit_Kind := INT; BasicLit_Value := "1" |} in
  let spec := ValueSpec None [x] None [one] None 21 in
  In (GenDecl None VAR [spec]) (Ast.fileNodes (Sample.declsFile 1))
  /\ In spec [spec]
  /\ In x [x]
  /\ In (variableInfo a (Sample.declsFile 1) [x] None [one] 21 x)
        (analyzeVariables a (Sample.declsFile 1))
  /\ VariableInfo_Constant (variableInfo a (Sample.declsFile 1) [x] None [one] 21 x) = true.
Proof.
  intros a x one spec.
  assert (Hdecl : In (GenDecl None VAR [spec]) (Ast.fileNodes (Sample.declsFile 1)))
    by (right; left; reflexivity).
  assert (Hspec : In spec [spec]) by (left; reflexivity).
  assert (Hname : In x [x]) by (left; reflexivity).
  destruct (Constant_iff_initializer a (Sample.declsFile 1) None VAR [spec] None [x] None
              [one] None 21 x Hdecl Hspec Hname) as (Hin & _ & Hconst).
  split; [exact Hdecl|]. split; [exact Hspec|]. split; [exact Hname|].
  split; [exact Hin|]. apply Hconst. discriminate.
Defined.

(** ** The end-to-end case *)

(** C1 (the code at the failing input). On [Sample.greetSource] the
    analysis lists two functions, gives the exported one complexity 2 and
    reports it once for its missing documentation, but reports both
    imports as unused, [fmt] included, which the file uses in
    [fmt.Println]. *)
Theorem greet_analysis :
  nth_error (Ast.fileNodes (Sample.greetFile 1)) 19
  = Some (SelectorExpr (NIdent (Sample.ident 1 76 "fmt")) (Sample.ident 1 80 "Println"))
  /\ map (fun f => (FunctionInfo_Name f, FunctionInfo_Complexity f))
       (AnalysisResult_Functions Sample.greetResult)
     = [("Greet", 2); ("helper", 1)]
  /\ map Diagnostic_Message (withCode "missing-doc" (AnalysisResult_Diagnostics Sample.greetResult))
     = ["Exported function Greet lacks documentation"]
  /\ map Diagnostic_Message (withCode "unused-import" (AnalysisResult_Diagnostics Sample.greetResult))
     = ["Unused import: fmt"; "Unused import: os"]
  /\ map ImportInfo_Used (AnalysisResult_Imports Sample.greetResult) = [false; false].
Proof. vm_compute. repeat split. Qed.

(** ** The complexity score *)

Section Score.

Context `{AstLib}.

(** The score is the sum of the values of the analyzer's map, as the
    functions of the file and of every file before left it. *)
Lemma complexity_score_is_map_sum o a file :
  RangeOrder_ok o ->
  CodeMetrics_ComplexityScore (AnalysisResult_Metrics (fst (AnalyzeFile o a file)))
  = fold_left (fun score kv => GoInt.add score (snd kv))
      (map_to_list
         (inserts (flat_map complexityOf (Ast.fileNodes file)) (ASTAnalyzer_complexity a)))
      0.
Proof.
  intros [_ Ho]. rewrite AnalyzeFile_fields. cbn [fst AnalysisResult_Metrics].
  unfold calculateMetrics. cbn [CodeMetrics_ComplexityScore].
  rewrite InspectFile_fileNodes by (intros n s; destruct n; reflexivity).
  set (f := fun (n : Node) (metrics : CodeMetrics) => _).
  set (m0 := {| CodeMetrics_LinesOfCode := _ |}).
  assert (Hzero : forall l m,
             CodeMetrics_ComplexityScore (fold_left (visited f) l m)
             = CodeMetrics_ComplexityScore m).
  { induction l as [|n l IH]; intros m; [reflexivity|].
    rewrite step_cons, IH. unfold f. destruct n; reflexivity. }
  rewrite Hzero. apply sum_Permutation, Ho.
Qed.

End Score.

(** C8 (the code at the failing inputs). Two functions of one name share
    one entry of the complexity map, and the entries of the files analyzed
    before stay in it: the score of a file with two [init] functions is 1
    where the complexities it lists add up to 2, and the score of
    [Sample.declsSource] analyzed after [Sample.greetSource] is 4 where
    its one function has complexity 1. *)
Theorem complexity_score_by_name :
  CodeMetrics_ComplexityScore (AnalysisResult_Metrics Sample.initsResult) = 1
  /\ sumOfComplexities Sample.initsResult = 2
  /\ CodeMetrics_ComplexityScore (AnalysisResult_Metrics Sample.declsAfterGreet) = 4
  /\ sumOfComplexities Sample.declsAfterGreet = 1.
Proof. vm_compute. repeat split. Qed.

(** ** The document session manager *)

Section Sessions.

Context `{Parser}.

(** A text that parses makes [parseDocument] panic when the uri is not
    open: the document map is as before. *)
Lemma parseDocument_absent ls uri content fset file :
  ParseFile (LanguageServer_fileSet ls) uri content = (fset, inl file) ->
  LanguageServer_documents ls !! uri = None ->
  parseDocument ls uri content
  = Panicked
      {| LanguageServer_workspaceRoot := LanguageServer_workspaceRoot ls;
         LanguageServer_documents := LanguageServer_documents ls;
         LanguageServer_fileSet := fset |}
      nilDereference.
Proof.
  intros Hparse Habsent. unfold parseDocument. rewrite Hparse.
  cbn [LanguageServer_documents]. rewrite Habsent. reflexivity.
Qed.

Lemma parseDocument_present ls uri content fset file old :
  ParseFile (LanguageServer_fileSet ls) uri content = (fset, inl file) ->
  LanguageServer_documents ls !! uri = Some old ->
  let ls1 :=
    {| LanguageServer_workspaceRoot := LanguageServer_workspaceRoot ls;
       LanguageServer_documents := LanguageServer_documents ls;
       LanguageServer_fileSet := fset |} in
  parseDocument ls uri content
  = Returned
      {| LanguageServer_workspaceRoot := LanguageServer_workspaceRoot ls;
         LanguageServer_documents :=
           <[uri := {| Document_URI := uri;
                       Document_Text := content;
                       Document_AST := file;
                       Document_Symbols := extractSymbols ls1 file;
                       Document_Version := GoInt.add (Document_Version old) 1 |}]>
             (LanguageServer_documents ls);
         LanguageServer_fileSet := fset |}
      None.
Proof.
  intros Hparse Hold ls1. unfold parseDocument. rewrite Hparse.
  cbn [LanguageServer_documents]. rewrite Hold. reflexivity.
Qed.

Lemma parseDocument_error ls uri content fset err :
  ParseFile (LanguageServer_fileSet ls) uri content = (fset, inr err) ->
  parseDocument ls uri content
  = Returned
      {| LanguageServer_workspaceRoot := LanguageServer_workspaceRoot ls;
         LanguageServer_documents := LanguageServer_documents ls;
         LanguageServer_fileSet := fset |}
      (Some ("failed to parse document: " +:+ err)).
Proof. intros Hparse. unfold parseDocument. rewrite Hparse. reflexivity. Qed.

(** Opening a uri that is not open, with a text that parses, panics and
    stores nothing, whatever the version. *)
Lemma handleOpenDocument_absent ls doc fset file :
  ParseFile (LanguageServer_fileSet ls) (TextDocumentItem_URI doc) (TextDocumentItem_Text doc)
  = (fset, inl file) ->
  LanguageServer_documents ls !! TextDocumentItem_URI doc = None ->
  exists ls',
    handleOpenDocument ls doc = Panicked ls' nilDereference
    /\ LanguageServer_documents ls' = LanguageServer_documents ls.
Proof.
  intros Hparse Habsent. unfold handleOpenDocument.
  rewrite (parseDocument_absent _ _ _ _ _ Hparse Habsent). eauto.
Qed.

(** An empty document map stays empty, whatever the request. *)
Lemma parseDocument_empty ls uri content :
  LanguageServer_documents ls = ∅ ->
  match parseDocument ls uri content with
  | Returned ls' _ | Panicked ls' _ => LanguageServer_documents ls' = ∅
  end.
Proof.
  intros Hempty. unfold parseDocument.
  destruct (ParseFile (LanguageServer_fileSet ls) uri content) as [fset [file|err]].
  - cbn [LanguageServer_documents]. rewrite Hempty, lookup_empty. reflexivity.
  - exact Hempty.
Qed.

Lemma serveLsp_empty ls call :
  LanguageServer_documents ls = ∅ ->
  LanguageServer_documents (fst (serveLsp ls call)) = ∅.
Proof.
  intros Hempty. destruct call as [doc|doc|doc|uri]; cbn [serveLsp].
  - unfold handleOpenDocument.
    pose proof (parseDocument_empty ls (TextDocumentItem_URI doc) (TextDocumentItem_Text doc)
                  Hempty) as Hparse.
    destruct (parseDocument ls (TextDocumentItem_URI doc) (TextDocumentItem_Text doc))
      as [ls' [err|]|ls' msg]; exact Hparse.
  - cbn. rewrite Hempty. apply delete_empty.
  - unfold handleChangeDocument.
    pose proof (parseDocument_empty ls (TextDocumentItem_URI doc) (TextDocumentItem_Text doc)
                  Hempty) as Hparse.
    destruct (parseDocument ls (TextDocumentItem_URI doc) (TextDocumentItem_Text doc))
      as [ls' [err|]|ls' msg]; exact Hparse.
  - exact Hempty.
Qed.

(** The document map of a server made by [NewLanguageServer] is empty
    after any requests. *)
Lemma runLsp_empty workspaceRoot calls :
  LanguageServer_documents (runLsp (NewLanguageServer workspaceRoot) calls) = ∅.
Proof.
  unfold runLsp.
  assert (Hinv : forall ls, LanguageServer_documents ls = ∅ ->
             LanguageServer_documents
               (fold_left (fun ls call => fst (serveLsp ls call)) calls ls) = ∅).
  { induction calls as [|call calls IH]; intros ls Hls; cbn [fold_left]; [exact Hls|].
    apply IH, serveLsp_empty, Hls. }
  apply Hinv. reflexivity.
Qed.


End Sessions.


(** C2 (the code at the failing input). On a new server, opening [a.go]
    with a text that parses panics on the [nil] entry of the document map:
    no document is stored, at version 9 or at any other. *)
Theorem open_on_new_server_panics :
  @handleOpenDocument Sample.parser (NewLanguageServer ".") Sample.openItem
  = Panicked
      {| LanguageServer_workspaceRoot := ".";
         LanguageServer_documents := ∅;
         LanguageServer_fileSet := Sample.addFile NewFileSet "a.go" Sample.declsSource |}
      nilDereference
  /\ handleDocumentSymbols
       {| LanguageServer_workspaceRoot := ".";
          LanguageServer_documents := ∅;
          LanguageServer_fileSet := Sample.addFile NewFileSet "a.go" Sample.declsSource |}
       "a.go"
     = writeError Http.StatusNotFound "document not found".
Proof. split; vm_compute; reflexivity. Qed.

(** When the uri is open already, the version stored is the old one plus
    one, not the one of the request. *)
Lemma open_stores_old_version_plus_one :
  Document_Version <$> (LanguageServer_documents Sample.openServer !! "a.go") = Some 3
  /\ TextDocumentItem_Version Sample.openItem = 9
  /\ Document_Version <$> (LanguageServer_documents Sample.reopened !! "a.go") = Some 4.
Proof. vm_compute. repeat split. Qed.

(** ** The symbols of an open document *)

Lemma filter_flat_map {A B} (p : B -> bool) (g : A -> list B) (l : list A) :
  List.filter p (flat_map g l) = flat_map (fun x => List.filter p (g x)) l.
Proof.
  induction l as [|x l IH]; cbn [flat_map]; [reflexivity|].
  rewrite List.filter_app, IH. reflexivity.
Qed.

Lemma map_flat_map {A B C} (h : B -> C) (g : A -> list B) (l : list A) :
  map h (flat_map g l) = flat_map (fun x => map h (g x)) l.
Proof.
  induction l as [|x l IH]; cbn [flat_map]; [reflexivity|].
  rewrite map_app, IH. reflexivity.
Qed.

Section Symbols.

Context `{AstLib}.

(** The function symbols of a file are the functions of its analysis, by
    name and in order; so are the type symbols and the types; and there is
    no third kind of symbol. *)
Lemma extractSymbols_AnalyzeFile ls o a file :
  let symbols := extractSymbols ls file in
  let r := fst (AnalyzeFile o a file) in
  symbolNames (symbolsOfKind "function" symbols)
  = map FunctionInfo_Name (AnalysisResult_Functions r)
  /\ symbolNames (symbolsOfKind "type" symbols) = map TypeInfo_Name (AnalysisResult_Types r)
  /\ Forall (fun s => SymbolInfo_Kind s = "function" \/ SymbolInfo_Kind s = "type") symbols.
Proof.
  intros symbols r. subst symbols r. rewrite AnalyzeFile_fields.
  cbn [fst AnalysisResult_Functions AnalysisResult_Types].
  rewrite extractSymbols_nodes, analyzeTypes_nodes.
  unfold symbolNames, symbolsOfKind. rewrite !filter_flat_map, !map_flat_map.
  split; [|split].
  - apply flat_map_ext. intros n. destruct n; reflexivity.
  - apply flat_map_ext. intros n. destruct n; try reflexivity.
    cbn. match goal with |- context [typeInfo _ _ _ ?t _] => destruct t end; reflexivity.
  - apply List.Forall_forall. intros s Hs. apply in_flat_map in Hs as (n & _ & Hs).
    destruct n; cbn in Hs; try contradiction; destruct Hs as [<-|[]]; auto.
Qed.

(** With the positions resolved against the same file set, the locations
    agree as well. *)
Lemma extractSymbols_locations ls o a file :
  ASTAnalyzer_fileSet a = LanguageServer_fileSet ls ->
  let symbols := extractSymbols ls file in
  let r := fst (AnalyzeFile o a file) in
  map SymbolInfo_Location (symbolsOfKind "function" symbols)
  = map FunctionInfo_Location (AnalysisResult_Functions r)
  /\ map SymbolInfo_Location (symbolsOfKind "type" symbols)
     = map TypeInfo_Location (AnalysisResult_Types r).
Proof.
  intros Hset symbols r. subst symbols r. rewrite AnalyzeFile_fields.
  cbn [fst AnalysisResult_Functions AnalysisResult_Types].
  rewrite extractSymbols_nodes, analyzeTypes_nodes.
  unfold symbolsOfKind. rewrite !filter_flat_map, !map_flat_map.
  destruct a as [fset info pkgs cplx]. cbn [ASTAnalyzer_fileSet] in Hset. subst fset.
  split.
  - apply flat_map_ext. intros n. destruct n; reflexivity.
  - apply flat_map_ext. intros n. destruct n; try reflexivity.
    cbn. match goal with |- context [typeInfo _ _ _ ?t _] => destruct t end; reflexivity.
Qed.

Context `{Parser}.

(** C4 (the code on every server a program can hold). On a server made
    by [NewLanguageServer], whatever requests it has handled before,
    [openDocument] with a text that parses panics on the [nil] entry of
    the document map and stores nothing: [getSymbols] for the uri right
    after answers 400 or 404 and no symbol, whatever [AnalyzeFile] lists
    for the same text. *)
Theorem symbols_after_open_on_served workspaceRoot calls doc fset file :
  let ls := runLsp (NewLanguageServer workspaceRoot) calls in
  ParseFile (LanguageServer_fileSet ls) (TextDocumentItem_URI doc) (TextDocumentItem_Text doc)
  = (fset, inl file) ->
  exists ls',
    handleOpenDocument ls doc = Panicked ls' nilDereference
    /\ LanguageServer_documents ls' = ∅
    /\ (Response_status (handleDocumentSymbols ls' (TextDocumentItem_URI doc))
        = Http.StatusBadRequest
        \/ Response_status (handleDocumentSymbols ls' (TextDocumentItem_URI doc))
           = Http.StatusNotFound)
    /\ forall symbols,
         Response_body (handleDocumentSymbols ls' (TextDocumentItem_URI doc))
         <> SymbolsBody symbols.
Proof.
  cbn zeta. intros Hparse.
  pose proof (runLsp_empty workspaceRoot calls) as Hempty.
  assert (Habsent : LanguageServer_documents (runLsp (NewLanguageServer workspaceRoot) calls)
                      !! TextDocumentItem_URI doc = None)
    by (rewrite Hempty; apply lookup_empty).
  destruct (handleOpenDocument_absent _ doc fset file Hparse Habsent) as (ls' & Hopen & Hdocs).
  rewrite Hempty in Hdocs.
  exists ls'. split; [exact Hopen|]. split; [exact Hdocs|].
  unfold handleDocumentSymbols.
  destruct (String.eqb (TextDocumentItem_URI doc) EmptyString).
  - split; [left; reflexivity | discriminate].
  - rewrite Hdocs, lookup_empty. split; [right; reflexivity | discriminate].
Qed.

End Symbols.

Lemma symbols_after_open_on_served_witness :
  @ParseFile Sample.parser
    (LanguageServer_fileSet (@runLsp Sample.parser (NewLanguageServer ".") []))
    "a.go" Sample.declsSource
  = (Sample.addFile NewFileSet "a.go" Sample.declsSource, inl (Sample.declsFile 1))
  /\ (exists ls',
        @handleOpenDocument Sample.parser (NewLanguageServer ".") Sample.openItem
        = Panicked ls' nilDereference
        /\ handleDocumentSymbols ls' "a.go"
           = writeError Http.StatusNotFound "document not found")
  /\ declaredNames Sample.declsResult = ["F"; "T"; "x"].
Proof.
  assert (Hparse : @ParseFile Sample.parser
                     (LanguageServer_fileSet (@runLsp Sample.parser (NewLanguageServer ".") []))
                     (TextDocumentItem_URI Sample.openItem)
                     (TextDocumentItem_Text Sample.openItem)
                   = (Sample.addFile NewFileSet "a.go" Sample.declsSource,
                      inl (Sample.declsFile 1)))
    by (vm_compute; reflexivity).
  split; [exact Hparse|]. split; [|vm_compute; reflexivity].
  destruct (@symbols_after_open_on_served Sample.parser "." [] Sample.openItem _ _ Hparse)
    as (ls' & Hopen & Hdocs & _).
  exists ls'. split; [exact Hopen|].
  unfold handleDocumentSymbols. rewrite Hdocs. reflexivity.
Defined.

(* ===================================================================== *)
(** * Further properties                                                  *)
(* ===================================================================== *)

(** ** The document map of the language server *)

Section Documents.

Context `{Parser}.

(** X1. Whatever requests a new language server handles -- open, change,
    close, symbols, in any number and order, with any parser -- its
    document map stays empty: an open or a change either fails to parse
    or panics on the missing entry.  So it never answers a symbols request
    with symbols: the answer is 400 or 404. *)
Theorem no_document_is_ever_stored (workspaceRoot : string) (calls : list LspCall) :
  let ls := runLsp (NewLanguageServer workspaceRoot) calls in
  LanguageServer_documents ls = ∅
  /\ forall uri,
       Response_status (handleDocumentSymbols ls uri) = Http.StatusBadRequest
       \/ Response_status (handleDocumentSymbols ls uri) = Http.StatusNotFound.
Proof.
  cbn zeta.
  assert (Hempty : LanguageServer_documents (runLsp (NewLanguageServer workspaceRoot) calls) = ∅).
  { unfold runLsp.
    assert (Hinv : forall ls, LanguageServer_documents ls = ∅ ->
               LanguageServer_documents
                 (fold_left (fun ls call => fst (serveLsp ls call)) calls ls) = ∅).
    { induction calls as [|call calls IH]; intros ls Hls; cbn [fold_left]; [exact Hls|].
      apply IH, serveLsp_empty, Hls. }
    apply Hinv. reflexivity. }
  split; [exact Hempty|].
  intros uri. unfold handleDocumentSymbols.
  destruct (String.eqb uri EmptyString); [left; reflexivity|].
  rewrite Hempty, lookup_empty. right. reflexivity.
Qed.

(** X3. On a server made by [NewLanguageServer], whatever requests it has
    handled before, a change never succeeds: with a text that parses it
    panics on the [nil] entry of the document map, with any other text it
    answers 500 with the error of the parser.  Either way the document
    map stays empty and only the file set grows. *)
Theorem change_on_served_never_succeeds workspaceRoot calls doc :
  let ls := runLsp (NewLanguageServer workspaceRoot) calls in
  let parsed :=
    ParseFile (LanguageServer_fileSet ls) (TextDocumentItem_URI doc)
      (TextDocumentItem_Text doc) in
  let ls' :=
    {| LanguageServer_workspaceRoot := LanguageServer_workspaceRoot ls;
       LanguageServer_documents := ∅;
       LanguageServer_fileSet := fst parsed |} in
  handleChangeDocument ls doc
  = match snd parsed with
    | inl _ => Panicked ls' nilDereference
    | inr err =>
        Returned ls'
          (writeError Http.StatusInternalServerError ("failed to parse document: " +:+ err))
    end.
Proof.
  cbn zeta. pose proof (runLsp_empty workspaceRoot calls) as Hempty.
  set (ls := runLsp (NewLanguageServer workspaceRoot) calls) in *.
  destruct (ParseFile (LanguageServer_fileSet ls) (TextDocumentItem_URI doc)
              (TextDocumentItem_Text doc)) as [fset [file|err]] eqn:Hparse;
    cbn [fst snd]; unfold handleChangeDocument.
  - rewrite (parseDocument_absent _ _ _ _ _ Hparse)
      by (rewrite Hempty; apply lookup_empty).
    rewrite Hempty. reflexivity.
  - rewrite (parseDocument_error _ _ _ _ _ Hparse), Hempty. reflexivity.
Qed.

End Documents.

(** X2. Closing a document always answers "closed", also for a uri that is
    not open; afterwards the uri has no entry, so that a symbols request
    for it is not answered with symbols, and every other uri gets the
    answer to a symbols request that it got before. *)
Theorem close_forgets_document (ls : LanguageServer) (doc : TextDocumentItem) :
  exists ls',
    handleCloseDocument ls doc
    = Returned ls' (writeJSON Http.StatusOK (StatusBody "closed" (TextDocumentItem_URI doc)))
    /\ LanguageServer_documents ls' !! TextDocumentItem_URI doc = None
    /\ Response_status (handleDocumentSymbols ls' (TextDocumentItem_URI doc)) <> Http.StatusOK
    /\ forall other, other <> TextDocumentItem_URI doc ->
         handleDocumentSymbols ls' other = handleDocumentSymbols ls other.
Proof.
  eexists. split; [reflexivity|]. cbn [LanguageServer_documents].
  split; [apply lookup_delete_eq|]. split.
  - unfold handleDocumentSymbols. cbn [LanguageServer_documents].
    destruct (String.eqb (TextDocumentItem_URI doc) EmptyString); [discriminate|].
    rewrite lookup_delete_eq. discriminate.
  - intros other Hother. unfold handleDocumentSymbols. cbn [LanguageServer_documents].
    rewrite lookup_delete_ne by congruence. reflexivity.
Qed.

(** ** [ast.Inspect] with a callback that prunes only when it is done *)

Section InspectDone.

Context {S : Type} (f : Node -> S -> bool * S).

(** When the callback returns false, the state it leaves is one that no
    further call changes. *)
Hypothesis f_done :
  forall n s, fst (f n s) = true \/ forall m, snd (f m (snd (f n s))) = snd (f n s).

Lemma done_fold (l : list Node) (s : S) :
  (forall m, snd (f m s) = s) -> fold_left (visited f) l s = s.
Proof.
  intros Hs. induction l as [|n l IH]; cbn [fold_left]; [reflexivity|].
  unfold visited at 2. rewrite Hs. exact IH.
Qed.

Lemma walkGroup_done g s :
  Ast.walkGroup f g s = fold_left (visited f) (Ast.groupNodes g) s.
Proof.
  unfold Ast.walkGroup, Ast.groupNodes. rewrite step_cons.
  destruct (f_done (NCommentGroup g) s) as [Hgo|Hdone];
    destruct (f (NCommentGroup g) s) as [go s1]; cbn [fst snd] in *.
  - subst go. apply fold_comments.
  - destruct go; [apply fold_comments | symmetry; apply done_fold, Hdone].
Qed.

Lemma walkImportSpec_done sp s :
  Ast.walkImportSpec f sp s = fold_left (visited f) (Ast.importSpecNodes sp) s.
Proof.
  unfold Ast.walkImportSpec, Ast.importSpecNodes. rewrite !fold_left_app.
  rewrite !(walkOpt_step _ _ Ast.groupNodes) by apply walkGroup_done.
  rewrite (walkOpt_step _ _ Ast.identNode) by reflexivity.
  reflexivity.
Qed.

Ltac inspect_children_done :=
  rewrite ?fold_left_app;
  repeat match goal with
    | H : forall s, Ast.Inspect f ?x s = _ |- context [Ast.Inspect f ?x _] => rewrite (H _)
    | H : option_all Node _ ?o |- context [Ast.walkOpt (Ast.Inspect f) ?o _] =>
        rewrite (walkOpt_all f o _ H)
    | H : list_all Node _ ?l |- context [Ast.walkList (Ast.Inspect f) ?l _] =>
        rewrite (walkList_all f l _ H)
    | |- context [Ast.walkOpt (Ast.walkGroup f) ?o ?s] =>
        rewrite (walkOpt_step f (Ast.walkGroup f) Ast.groupNodes o s walkGroup_done)
    | |- context [Ast.walkOpt (Ast.visitLit f) ?o ?s] =>
        rewrite (walkOpt_step f (Ast.visitLit f) Ast.litNode o s (fun _ _ => eq_refl))
    | |- context [Ast.walkList (Ast.visitIdent f) ?l ?s] =>
        rewrite (walkList_step f (Ast.visitIdent f) Ast.identNode l s (fun _ _ => eq_refl))
    end.

(** Pruning then skips nothing that matters: the walk ends in the state
    that running the callback on every node of the subtree ends in. *)
Lemma Inspect_done (n : Node) (s : S) :
  Ast.Inspect f n s = fold_left (visited f) (Ast.subnodes n) s.
Proof.
  revert s.
  induction n; intros s; cbn [Ast.Inspect Ast.subnodes]; rewrite step_cons;
    (match goal with
     | |- context [f ?m s] =>
         destruct (f_done m s) as [Hgo|Hdone]; destruct (f m s) as [go s1]
     end;
     cbn [fst snd] in *;
     [subst go | destruct go; [|symmetry; apply done_fold, Hdone]];
     cbn [negb];
     first [ reflexivity
           | apply fold_comments
           | apply walkImportSpec_done
           | inspect_children_done; reflexivity ]).
Qed.

Lemma InspectFile_done (file : File) (s : S) :
  Ast.InspectFile f file s = fold_left (visited f) (Ast.fileNodes file) s.
Proof.
  unfold Ast.InspectFile, Ast.fileNodes. rewrite !fold_left_app.
  rewrite (walkOpt_step _ _ Ast.groupNodes) by apply walkGroup_done.
  apply walkList_step. intros x s'. apply Inspect_done.
Qed.

End InspectDone.

(** ** Imports: used, reported, depended on *)

Lemma isImportUsed_nodes (a : ASTAnalyzer) (file : File) (path : string) :
  isImportUsed a file path = existsb (isQualifiedUse a path) (Ast.fileNodes file).
Proof.
  unfold isImportUsed.
  set (f := fun (n : Node) (used : bool) => _).
  assert (Hf : forall n used, f n used = (negb (isQualifiedUse a path n),
                                          used || isQualifiedUse a path n)).
  { intros n used. unfold f.
    destruct n; cbn [isQualifiedUse negb]; rewrite ?orb_false_r; try reflexivity.
    destruct n; rewrite ?orb_false_r; try reflexivity.
    destruct (TypesInfo_Uses (ASTAnalyzer_typeInfo a) !! identKey id) as [[]|];
      rewrite ?orb_false_r; try reflexivity.
    destruct (String.eqb importedPath path); cbn [negb];
      rewrite ?orb_false_r, ?orb_true_r; reflexivity. }
  rewrite InspectFile_done.
  - assert (Hfold : forall l used,
               fold_left (visited f) l used = used || existsb (isQualifiedUse a path) l).
    { induction l as [|n l IH]; intros used.
      - cbn. rewrite orb_false_r. reflexivity.
      - cbn [fold_left existsb]. unfold visited at 2. rewrite Hf. cbn [snd].
        rewrite IH, orb_assoc. reflexivity. }
    apply Hfold.
  - intros n s. rewrite !Hf. cbn [fst snd].
    destruct (isQualifiedUse a path n); [right | left; reflexivity].
    intros m. rewrite Hf. cbn [snd]. rewrite orb_true_r. reflexivity.
Qed.

(** X4. [isImportUsed] answers true exactly when the tree has a selector
    expression whose left side is an identifier that the type information
    binds, in [Uses], to a package name imported from the path: the early
    return of the callback hides no use. *)
Theorem isImportUsed_iff (a : ASTAnalyzer) (file : File) (path : string) :
  isImportUsed a file path = true
  <-> exists ident sel name,
        In (SelectorExpr (NIdent ident) sel) (Ast.fileNodes file)
        /\ TypesInfo_Uses (ASTAnalyzer_typeInfo a) !! identKey ident
           = Some (ObjPkgName name path).
Proof.
  rewrite isImportUsed_nodes, existsb_exists. split.
  - intros (n & Hn & Hq). destruct n; try discriminate. destruct n; try discriminate.
    cbn in Hq.
    destruct (TypesInfo_Uses (ASTAnalyzer_typeInfo a) !! identKey id) as [[]|] eqn:Huse;
      try discriminate.
    apply String.eqb_eq in Hq. subst importedPath. eauto.
  - intros (ident & sel & name & Hn & Huse). eexists. split; [exact Hn|].
    cbn. rewrite Huse. apply String.eqb_refl.
Qed.

Section Imports.

Context `{AstLib}.

(** X5. In every result of [AnalyzeFile] the [unused-import] diagnostics
    are those of the imports the result marks as not used: one per such
    import, in the order of the imports, with the path in the message. *)
Theorem unused_imports_are_reported (o : RangeOrder) (a : ASTAnalyzer) (file : File) :
  let r := fst (AnalyzeFile o a file) in
  map Diagnostic_Message (withCode "unused-import" (AnalysisResult_Diagnostics r))
  = map (fun i => "Unused import: " +:+ ImportInfo_Path i)
      (List.filter (fun i => negb (ImportInfo_Used i)) (AnalysisResult_Imports r)).
Proof.
  cbn zeta. rewrite AnalyzeFile_fields.
  cbn [fst AnalysisResult_Diagnostics AnalysisResult_Imports].
  rewrite runDiagnostics_nodes, withCode_app, withCode_missingDocs, app_nil_r.
  change (unusedImports (afterFunctions a file) file) with (unusedImports a file).
  unfold unusedImports, analyzeImports.
  induction (File_Imports file) as [|imp imps IH]; [reflexivity|].
  cbn [flat_map map List.filter ImportInfo_Used ImportInfo_Path].
  rewrite withCode_app, map_app, IH.
  destruct (isImportUsed a file (importPath imp)); reflexivity.
Qed.

End Imports.

Lemma dependencies_fold (a : ASTAnalyzer) (file : File) (imps : list ImportSpec)
  (acc : list string) :
  let pkg := Ident_Name (File_Name file) in
  let enc (l : list string) : gmap string (list string) :=
    match l with [] => ∅ | _ => {[ pkg := l ]} end in
  fold_left
    (fun deps imp =>
       let path := importPath imp in
       if isImportUsed a file path
       then <[pkg := default [] (deps !! pkg) ++ [path]]> deps
       else deps)
    imps (enc acc)
  = enc (acc ++ map importPath
                  (List.filter (fun imp => isImportUsed a file (importPath imp)) imps)).
Proof.
  cbn zeta. revert acc.
  induction imps as [|imp imps IH]; intros acc; cbn [fold_left List.filter map].
  - rewrite app_nil_r. reflexivity.
  - destruct (isImportUsed a file (importPath imp)); [|apply IH].
    cbn [map]. replace (acc ++ importPath imp :: _) with ((acc ++ [importPath imp]) ++
      map importPath (List.filter (fun imp => isImportUsed a file (importPath imp)) imps))
      by (rewrite <- app_assoc; reflexivity).
    rewrite <- IH. f_equal.
    destruct acc as [|x acc].
    + rewrite lookup_empty, insert_empty. reflexivity.
    + rewrite lookup_singleton_eq, insert_singleton_eq. reflexivity.
Qed.

(** X6. [AnalyzeDependencies] returns the empty map when the analysis
    marks no import of the file as used; otherwise a map with one key, the
    package name of the file, whose value lists the paths of the imports
    marked as used, in the order of the imports. *)
Theorem dependencies_are_used_imports (a : ASTAnalyzer) (file : File) :
  let used :=
    map ImportInfo_Path (List.filter ImportInfo_Used (analyzeImports a file)) in
  AnalyzeDependencies a file
  = match used with
    | [] => ∅
    | _ => {[ Ident_Name (File_Name file) := used ]}
    end.
Proof.
  cbn zeta.
  replace (map ImportInfo_Path (List.filter ImportInfo_Used (analyzeImports a file)))
    with (map importPath
            (List.filter (fun imp => isImportUsed a file (importPath imp)) (File_Imports file))).
  - exact (dependencies_fold a file (File_Imports file) []).
  - unfold analyzeImports.
    induction (File_Imports file) as [|imp imps IH]; [reflexivity|].
    cbn [map List.filter ImportInfo_Used].
    destruct (isImportUsed a file (importPath imp)); cbn [map ImportInfo_Path];
      rewrite IH; reflexivity.
Qed.

(** ** Diagnostics *)

Section Diagnostics.

Context `{AstLib}.

Lemma unusedImports_shape a file :
  Forall (fun d => Diagnostic_Code d = "unused-import"
                   /\ Diagnostic_Severity d = "warning"
                   /\ Diagnostic_Source d = "go-analyzer")
    (unusedImports a file).
Proof.
  unfold unusedImports. apply List.Forall_forall. intros d Hd.
  apply in_flat_map in Hd as (imp & _ & Hd).
  destruct (negb (isImportUsed a file (importPath imp))); [|contradiction].
  destruct Hd as [<-|[]]. repeat split.
Qed.

Lemma missingDocs_shape a file nodes :
  Forall (fun d => Diagnostic_Code d = "missing-doc"
                   /\ Diagnostic_Severity d = "info"
                   /\ Diagnostic_Source d = "go-analyzer")
    (flat_map (missingDocsOf a file) nodes).
Proof.
  apply List.Forall_forall. intros d Hd. apply in_flat_map in Hd as (n & _ & Hd).
  destruct n; try contradiction. cbn in Hd.
  destruct (IsExported (Ident_Name Name) && negb (bool_decide (is_Some Doc)));
    [|contradiction].
  destruct Hd as [<-|[]]. repeat split.
Qed.

(** X7. The diagnostics of a result are the [unused-import] warnings
    followed by the [missing-doc] infos, never interleaved and of no third
    kind, all with source [go-analyzer]. *)
Theorem diagnostics_by_rule (o : RangeOrder) (a : ASTAnalyzer) (file : File) :
  exists warnings infos,
    AnalysisResult_Diagnostics (fst (AnalyzeFile o a file)) = warnings ++ infos
    /\ Forall (fun d => Diagnostic_Code d = "unused-import"
                        /\ Diagnostic_Severity d = "warning"
                        /\ Diagnostic_Source d = "go-analyzer") warnings
    /\ Forall (fun d => Diagnostic_Code d = "missing-doc"
                        /\ Diagnostic_Severity d = "info"
                        /\ Diagnostic_Source d = "go-analyzer") infos.
Proof.
  rewrite AnalyzeFile_fields. cbn [fst AnalysisResult_Diagnostics].
  rewrite runDiagnostics_nodes. eexists _, _. split; [reflexivity|].
  split; [apply unusedImports_shape | apply missingDocs_shape].
Qed.

(** X8. A [missing-doc] diagnostic is reported for a function exactly when
    a function declaration of the tree has an exported name and no doc
    comment: a documented or an unexported function never gets one. *)
Theorem missing_doc_iff (o : RangeOrder) (a : ASTAnalyzer) (file : File) (d : Diagnostic) :
  In d (withCode "missing-doc" (AnalysisResult_Diagnostics (fst (AnalyzeFile o a file))))
  <-> exists Recv Name Typ Body StartPos EndPos,
        In (FuncDecl None Recv Name Typ Body StartPos EndPos) (Ast.fileNodes file)
        /\ IsExported (Ident_Name Name) = true
        /\ d = missingDoc a file Name.
Proof.
  rewrite AnalyzeFile_fields. cbn [fst AnalysisResult_Diagnostics].
  rewrite runDiagnostics_nodes. unfold withCode. rewrite filter_In, in_app_iff.
  change (missingDocsOf (afterFunctions a file) file) with (missingDocsOf a file).
  split.
  - intros [[Hd|Hd] Hcode].
    + pose proof (unusedImports_shape (afterFunctions a file) file) as Hshape.
      rewrite List.Forall_forall in Hshape. destruct (Hshape d Hd) as (Hc & _).
      rewrite Hc in Hcode. discriminate.
    + apply in_flat_map in Hd as (n & Hn & Hd).
      destruct n; try contradiction. cbn in Hd.
      destruct (IsExported (Ident_Name Name)) eqn:Hexp; [|contradiction].
      destruct Doc as [g|]; [contradiction|]. destruct Hd as [<-|[]]. eauto 10.
  - intros (Recv & Name & Typ & Body & StartPos & EndPos & Hn & Hexp & ->).
    split; [|reflexivity]. right. apply in_flat_map. eexists. split; [exact Hn|].
    cbn. rewrite Hexp. left. reflexivity.
Qed.

(** ** Metrics *)

Lemma functionsOf_length a file nodes :
  (List.length (flat_map (functionsOf a file) nodes) <= List.length nodes)%nat.
Proof.
  induction nodes as [|n l IH]; cbn [flat_map]; [reflexivity|].
  rewrite length_app. destruct n; cbn [functionsOf List.length]; lia.
Qed.

Lemma wrap_zero_plus (k : nat) :
  Z.of_nat k <= GoInt.max_int -> Nat.iter k GoInt.incr 0 = Z.of_nat k.
Proof.
  intros Hk. change 0 with (GoInt.wrap 0) at 1. rewrite incr_iter. apply wrap_small.
  unfold GoInt.min_int, GoInt.max_int in *. lia.
Qed.

(** X9. In a result, the function count of the metrics is the number of
    functions the result lists, and the test count is the number of those
    whose name starts with [Test] (for a tree of fewer than 2^63 nodes). *)
Theorem metrics_count_functions (o : RangeOrder) (a : ASTAnalyzer) (file : File) :
  Z.of_nat (List.length (Ast.fileNodes file)) <= GoInt.max_int ->
  let r := fst (AnalyzeFile o a file) in
  CodeMetrics_FunctionCount (AnalysisResult_Metrics r)
  = Z.of_nat (List.length (AnalysisResult_Functions r))
  /\ CodeMetrics_TestCount (AnalysisResult_Metrics r)
     = Z.of_nat (List.length
                   (List.filter (fun f => Strings.HasPrefix (FunctionInfo_Name f) "Test")
                      (AnalysisResult_Functions r))).
Proof.
  intros Hsize. cbn zeta. rewrite AnalyzeFile_fields.
  cbn [fst AnalysisResult_Metrics AnalysisResult_Functions].
  unfold calculateMetrics. cbn [CodeMetrics_FunctionCount CodeMetrics_TestCount].
  rewrite InspectFile_fileNodes by (intros n s; destruct n; reflexivity).
  set (f := fun (n : Node) (metrics : CodeMetrics) => _).
  set (m0 := {| CodeMetrics_LinesOfCode := _ |}).
  set (isTest := fun f : FunctionInfo => Strings.HasPrefix (FunctionInfo_Name f) "Test").
  assert (Hfold : forall l m,
             CodeMetrics_FunctionCount (fold_left (visited f) l m)
             = Nat.iter (List.length (flat_map (functionsOf a file) l)) GoInt.incr
                 (CodeMetrics_FunctionCount m)
             /\ CodeMetrics_TestCount (fold_left (visited f) l m)
                = Nat.iter (List.length (List.filter isTest (flat_map (functionsOf a file) l)))
                    GoInt.incr (CodeMetrics_TestCount m)).
  { induction l as [|n l IH]; intros m; [split; reflexivity|].
    rewrite step_cons. destruct (IH (snd (f n m))) as [-> ->].
    cbn [flat_map]. rewrite List.filter_app, !length_app.
    destruct n; cbn [functionsOf List.length List.filter Nat.add];
      try (split; reflexivity).
    unfold f. cbn [snd CodeMetrics_FunctionCount CodeMetrics_TestCount].
    rewrite <- Nat.iter_succ_r. split; [reflexivity|].
    unfold isTest at 2. cbn [functionInfo FunctionInfo_Name].
    destruct (Strings.HasPrefix (Ident_Name Name) "Test"); cbn [List.length Nat.add].
    - rewrite <- Nat.iter_succ_r. reflexivity.
    - reflexivity. }
  destruct (Hfold (Ast.fileNodes file) m0) as [-> ->].
  pose proof (functionsOf_length a file (Ast.fileNodes file)) as Hlen.
  pose proof (filter_length_le isTest (flat_map (functionsOf a file) (Ast.fileNodes file)))
    as Hlen'.
  split; apply wrap_zero_plus; lia.
Qed.

End Diagnostics.

Lemma metrics_count_functions_witness :
  Z.of_nat (List.length (Ast.fileNodes (Sample.greetFile 1))) <= GoInt.max_int
  /\ CodeMetrics_FunctionCount (AnalysisResult_Metrics Sample.greetResult)
     = Z.of_nat (List.length (AnalysisResult_Functions Sample.greetResult))
  /\ CodeMetrics_TestCount (AnalysisResult_Metrics Sample.greetResult)
     = Z.of_nat (List.length
                   (List.filter (fun f => Strings.HasPrefix (FunctionInfo_Name f) "Test")
                      (AnalysisResult_Functions Sample.greetResult))).
Proof.
  split; [apply Z.leb_le; vm_compute; reflexivity|].
  apply (@metrics_count_functions Sample.lib inOrder Sample.greetAnalyzer (Sample.greetFile 1)).
  apply Z.leb_le. vm_compute. reflexivity.
Defined.

(** ** References *)

Lemma fold_left_invariant {A B} (P : A -> Prop) (g : A -> B -> A) (l : list B) (s : A) :
  (forall s x, In x l -> P s -> P (g s x)) -> P s -> P (fold_left g l s).
Proof.
  revert s. induction l as [|x l IH]; intros s Hg Hs; cbn [fold_left]; [exact Hs|].
  apply IH.
  - intros s' y Hy. apply Hg. right. exact Hy.
  - apply Hg; [left; reflexivity | exact Hs].
Qed.

Lemma collectDefinitions_keyed a file : keyedByDefinition a file (collectDefinitions a file).
Proof.
  unfold collectDefinitions.
  rewrite InspectFile_fileNodes
    by (intros n s; destruct n; try reflexivity;
        destruct (TypesInfo_Defs (ASTAnalyzer_typeInfo a) !! identKey id); reflexivity).
  apply fold_left_invariant.
  - intros m n Hn Hm. unfold visited. destruct n; try exact Hm.
    destruct (TypesInfo_Defs (ASTAnalyzer_typeInfo a) !! identKey id) as [obj|] eqn:Hdef;
      [|exact Hm].
    cbn [snd]. intros k r Hk. destruct (decide (k = Ident_Name id)) as [->|Hne].
    + rewrite lookup_insert_eq in Hk. injection Hk as <-. split; [reflexivity|]. eauto.
    + rewrite lookup_insert_ne in Hk by congruence. apply Hm, Hk.
  - intros k r Hk. rewrite lookup_empty in Hk. discriminate.
Qed.

Lemma collectUses_keyed a file refMap :
  keyedByDefinition a file refMap -> keyedByDefinition a file (collectUses a file refMap).
Proof.
  intros Hkeyed. unfold collectUses.
  rewrite InspectFile_fileNodes.
  - apply fold_left_invariant; [|exact Hkeyed].
    intros m n _ Hm. unfold visited. destruct n; try exact Hm.
    destruct (TypesInfo_Uses (ASTAnalyzer_typeInfo a) !! identKey id) as [obj|]; [|exact Hm].
    destruct (m !! Object_Name obj) as [ref|] eqn:Href; [|exact Hm].
    cbn [snd]. intros k r Hk. destruct (decide (k = Object_Name obj)) as [->|Hne].
    + rewrite lookup_insert_eq in Hk. injection Hk as <-.
      destruct (Hm _ _ Href) as [Hname Hdef]. split; [exact Hname | exact Hdef].
    + rewrite lookup_insert_ne in Hk by congruence. apply Hm, Hk.
  - intros n s. destruct n; try reflexivity.
    destruct (TypesInfo_Uses (ASTAnalyzer_typeInfo a) !! identKey id) as [obj|];
      [|reflexivity].
    destruct (s !! Object_Name obj); reflexivity.
Qed.

(** X10. Whatever type information the analyzer holds, the references of
    a file never list a name twice, and every reference carries the name
    of an identifier of the tree that [Defs] binds: definitions of the
    same name, in whatever scopes, end up as one reference. *)
Theorem references_are_keyed_by_name (o : RangeOrder) (a : ASTAnalyzer) (file : File) :
  RangeOrder_ok o ->
  NoDup (map ReferenceInfo_Name (analyzeReferences o a file))
  /\ forall r, In r (analyzeReferences o a file) ->
       exists id obj,
         In (NIdent id) (Ast.fileNodes file)
         /\ TypesInfo_Defs (ASTAnalyzer_typeInfo a) !! identKey id = Some obj
         /\ ReferenceInfo_Name r = Ident_Name id.
Proof.
  intros [Hperm _]. unfold analyzeReferences.
  set (m := collectUses a file (collectDefinitions a file)).
  assert (Hm : keyedByDefinition a file m)
    by apply collectUses_keyed, collectDefinitions_keyed.
  assert (Hin : forall kr, In kr (refOrder o (map_to_list m)) -> m !! fst kr = Some (snd kr)).
  { intros [k r] Hkr. apply elem_of_map_to_list. rewrite <- (Hperm (map_to_list m)).
    apply list_elem_of_In, Hkr. }
  split.
  - rewrite map_map.
    rewrite (map_ext_in _ fst).
    + assert (Hfst : forall l : list (string * ReferenceInfo), map fst l = l.*1)
        by (induction l as [|x l IH]; cbn; congruence).
      rewrite Hfst, (Hperm (map_to_list m)). apply NoDup_fst_map_to_list.
    + intros kr Hkr. apply Hm, Hin, Hkr.
  - intros r Hr. apply in_map_iff in Hr as (kr & <- & Hkr).
    destruct (Hm _ _ (Hin kr Hkr)) as (Hname & id & obj & Hid & Hdef & Hk).
    exists id, obj. split; [exact Hid|]. split; [exact Hdef|]. congruence.
Qed.

Lemma references_are_keyed_by_name_witness :
  RangeOrder_ok reversed
  /\ map ReferenceInfo_Name
       (analyzeReferences reversed Fixture.typedAnalyzer (Sample.greetFile 1))
     = ["helper"; "loud"; "Greet"]
  /\ NoDup (map ReferenceInfo_Name
              (analyzeReferences reversed Fixture.typedAnalyzer (Sample.greetFile 1))).
Proof.
  split; [apply reversed_ok|]. split; [vm_compute; reflexivity|].
  apply (references_are_keyed_by_name reversed Fixture.typedAnalyzer (Sample.greetFile 1)
           reversed_ok).
Defined.

(** ** The complexity map of the analyzer *)

Lemma lookup_inserts_notin (l : list (string * Z)) (m : gmap string Z) (k : string) :
  ~ In k (map fst l) -> inserts l m !! k = m !! k.
Proof.
  induction l as [|kv l IH] using rev_ind; intros Hk; [reflexivity|].
  rewrite inserts_snoc. rewrite map_app, in_app_iff in Hk. cbn in Hk.
  rewrite lookup_insert_ne by tauto. apply IH. tauto.
Qed.

Lemma lookup_inserts_in (l : list (string * Z)) (m : gmap string Z) (k : string) :
  In k (map fst l) -> exists v, In (k, v) l /\ inserts l m !! k = Some v.
Proof.
  induction l as [|[k' v'] l IH] using rev_ind; intros Hk; [contradiction|].
  rewrite inserts_snoc. cbn [fst snd]. destruct (decide (k' = k)) as [->|Hne].
  - exists v'. split; [apply in_or_app; right; left; reflexivity | apply lookup_insert_eq].
  - rewrite map_app, in_app_iff in Hk. cbn in Hk.
    destruct IH as (v & Hv & Hlook); [tauto|].
    exists v. split; [apply in_or_app; left; exact Hv|].
    rewrite lookup_insert_ne by exact Hne. exact Hlook.
Qed.

Section ComplexityMap.

Context `{AstLib}.

Lemma complexityOf_functionsOf a file nodes :
  flat_map complexityOf nodes
  = map (fun f => (FunctionInfo_Name f, FunctionInfo_Complexity f))
      (flat_map (functionsOf a file) nodes).
Proof.
  induction nodes as [|n l IH]; cbn [flat_map]; [reflexivity|].
  rewrite map_app, IH. destruct n; reflexivity.
Qed.

(** X11. [AnalyzeFile] writes nothing of the analyzer but the complexity
    map, and of the map only the entries of the names its result lists:
    each holds the complexity of a listed function of that name, every
    other entry is as before, and no entry is ever removed. *)
Theorem AnalyzeFile_writes_complexities (o : RangeOrder) (a : ASTAnalyzer) (file : File) :
  let r := fst (AnalyzeFile o a file) in
  let a' := snd (AnalyzeFile o a file) in
  ASTAnalyzer_fileSet a' = ASTAnalyzer_fileSet a
  /\ ASTAnalyzer_typeInfo a' = ASTAnalyzer_typeInfo a
  /\ ASTAnalyzer_packages a' = ASTAnalyzer_packages a
  /\ (forall name, ~ In name (map FunctionInfo_Name (AnalysisResult_Functions r)) ->
        ASTAnalyzer_complexity a' !! name = ASTAnalyzer_complexity a !! name)
  /\ (forall name, In name (map FunctionInfo_Name (AnalysisResult_Functions r)) ->
        exists f, In f (AnalysisResult_Functions r)
                  /\ FunctionInfo_Name f = name
                  /\ ASTAnalyzer_complexity a' !! name = Some (FunctionInfo_Complexity f))
  /\ (forall name, is_Some (ASTAnalyzer_complexity a !! name) ->
        is_Some (ASTAnalyzer_complexity a' !! name)).
Proof.
  cbn zeta. rewrite AnalyzeFile_fields.
  cbn [fst snd afterFunctions ASTAnalyzer_fileSet ASTAnalyzer_typeInfo ASTAnalyzer_packages
       ASTAnalyzer_complexity AnalysisResult_Functions].
  rewrite (complexityOf_functionsOf a file).
  set (fs := flat_map (functionsOf a file) (Ast.fileNodes file)).
  assert (Hkeys : map fst (map (fun f => (FunctionInfo_Name f, FunctionInfo_Complexity f)) fs)
                  = map FunctionInfo_Name fs) by (rewrite map_map; reflexivity).
  assert (Hnot : forall name, ~ In name (map FunctionInfo_Name fs) ->
            inserts (map (fun f => (FunctionInfo_Name f, FunctionInfo_Complexity f)) fs)
              (ASTAnalyzer_complexity a) !! name = ASTAnalyzer_complexity a !! name).
  { intros name Hname. apply lookup_inserts_notin. rewrite Hkeys. exact Hname. }
  assert (Hin : forall name, In name (map FunctionInfo_Name fs) ->
            exists f, In f fs /\ FunctionInfo_Name f = name
              /\ inserts (map (fun f => (FunctionInfo_Name f, FunctionInfo_Complexity f)) fs)
                   (ASTAnalyzer_complexity a) !! name = Some (FunctionInfo_Complexity f)).
  { intros name Hname. rewrite <- Hkeys in Hname.
    destruct (lookup_inserts_in _ (ASTAnalyzer_complexity a) _ Hname) as (v & Hv & Hlook).
    apply in_map_iff in Hv as (f & Hf & Hfs). injection Hf as Hn Hc. subst v.
    exists f. auto. }
  repeat split; try assumption.
  intros name Hsome.
  destruct (in_dec string_dec name (map FunctionInfo_Name fs)) as [Hname|Hname].
  - destruct (Hin name Hname) as (f & _ & _ & ->). eauto.
  - rewrite Hnot by exact Hname. exact Hsome.
Qed.

(** The sum of a list of [int]s is the sum of the numbers, wrapped once. *)
Lemma fold_add_total (l : list (string * Z)) (s : Z) :
  fold_left (fun score kv => GoInt.add score (snd kv)) l (GoInt.wrap s)
  = GoInt.wrap (s + total l).
Proof.
  revert s. induction l as [|kv l IH]; intros s; cbn [fold_left total fold_right].
  - f_equal. lia.
  - unfold GoInt.add at 2. rewrite wrap_add_wrap_l, IH. f_equal. fold (total l). lia.
Qed.

Lemma map_to_list_inserts (l : list (string * Z)) :
  NoDup (map fst l) -> map_to_list (inserts l ∅) ≡ₚ l.
Proof.
  induction l as [|[k v] l IH] using rev_ind; intros Hnodup.
  - cbn. rewrite map_to_list_empty. reflexivity.
  - rewrite map_app in Hnodup. apply NoDup_app in Hnodup as (Hl & Hk & _).
    rewrite inserts_snoc. cbn [fst snd].
    rewrite map_to_list_insert.
    + rewrite IH by exact Hl. apply Permutation_cons_append.
    + rewrite lookup_inserts_notin; [apply lookup_empty|].
      intros Hin. apply (Hk k); [apply list_elem_of_In, Hin | cbn; left].
Qed.

Lemma sumOfComplexities_total (r : AnalysisResult) :
  sumOfComplexities r
  = total (map (fun f => (FunctionInfo_Name f, FunctionInfo_Complexity f))
             (AnalysisResult_Functions r)).
Proof.
  unfold sumOfComplexities.
  assert (Hs : forall fs s,
             fold_left (fun s f => s + FunctionInfo_Complexity f) fs s
             = s + total (map (fun f => (FunctionInfo_Name f, FunctionInfo_Complexity f)) fs)).
  { induction fs as [|f fs IH]; intros s; cbn [fold_left map total fold_right]; [lia|].
    rewrite IH. unfold total. cbn [snd]. lia. }
  rewrite Hs. lia.
Qed.

(** X17. On an analyzer whose complexity map is empty, as that of a new
    analyzer is, and for a file whose functions have pairwise different
    names, the complexity score is the sum of the complexities the result
    lists, in [int] arithmetic. *)
Theorem score_of_first_file (o : RangeOrder) (a : ASTAnalyzer) (file : File) :
  RangeOrder_ok o ->
  ASTAnalyzer_complexity a = ∅ ->
  NoDup (map FunctionInfo_Name (AnalysisResult_Functions (fst (AnalyzeFile o a file)))) ->
  CodeMetrics_ComplexityScore (AnalysisResult_Metrics (fst (AnalyzeFile o a file)))
  = GoInt.wrap (sumOfComplexities (fst (AnalyzeFile o a file))).
Proof.
  intros Ho Hempty Hnodup.
  rewrite complexity_score_is_map_sum by exact Ho.
  rewrite sumOfComplexities_total.
  rewrite AnalyzeFile_fields in *. cbn [fst AnalysisResult_Functions] in *.
  rewrite Hempty, (complexityOf_functionsOf a file).
  set (l := map _ (flat_map (functionsOf a file) (Ast.fileNodes file))).
  rewrite (sum_Permutation _ l).
  - change 0 with (GoInt.wrap 0) at 1. apply fold_add_total.
  - apply map_to_list_inserts. subst l. rewrite map_map. exact Hnodup.
Qed.

(** X18. Two analyzers a program can hold, on the same file set, give the
    same result for a file but for the complexity score: imports,
    functions, types, variables, references, diagnostics and the other
    metrics do not depend on what was analyzed before. *)
Theorem history_reaches_the_score_only (o1 o2 : RangeOrder) (a1 a2 : ASTAnalyzer)
  (file : File) :
  reachable a1 -> reachable a2 ->
  ASTAnalyzer_fileSet a1 = ASTAnalyzer_fileSet a2 ->
  RangeOrder_ok o1 -> RangeOrder_ok o2 ->
  let r1 := fst (AnalyzeFile o1 a1 file) in
  let r2 := fst (AnalyzeFile o2 a2 file) in
  AnalysisResult_Imports r1 = AnalysisResult_Imports r2
  /\ AnalysisResult_Functions r1 = AnalysisResult_Functions r2
  /\ AnalysisResult_Types r1 = AnalysisResult_Types r2
  /\ AnalysisResult_Variables r1 = AnalysisResult_Variables r2
  /\ AnalysisResult_References r1 = AnalysisResult_References r2
  /\ AnalysisResult_Diagnostics r1 = AnalysisResult_Diagnostics r2
  /\ CodeMetrics_LinesOfCode (AnalysisResult_Metrics r1)
     = CodeMetrics_LinesOfCode (AnalysisResult_Metrics r2)
  /\ CodeMetrics_CommentLines (AnalysisResult_Metrics r1)
     = CodeMetrics_CommentLines (AnalysisResult_Metrics r2)
  /\ CodeMetrics_FunctionCount (AnalysisResult_Metrics r1)
     = CodeMetrics_FunctionCount (AnalysisResult_Metrics r2)
  /\ CodeMetrics_InterfaceCount (AnalysisResult_Metrics r1)
     = CodeMetrics_InterfaceCount (AnalysisResult_Metrics r2)
  /\ CodeMetrics_StructCount (AnalysisResult_Metrics r1)
     = CodeMetrics_StructCount (AnalysisResult_Metrics r2)
  /\ CodeMetrics_TestCount (AnalysisResult_Metrics r1)
     = CodeMetrics_TestCount (AnalysisResult_Metrics r2).
Proof.
  intros Hr1 Hr2 Hset Ho1 Ho2. cbn zeta.
  pose proof (reachable_untyped a1 Hr1) as [Hd1 Hu1].
  pose proof (reachable_untyped a2 Hr2) as [Hd2 Hu2].
  assert (Hrefs : analyzeReferences o1 (afterFunctions a1 file) file
                  = analyzeReferences o2 (afterFunctions a2 file) file).
  { rewrite !analyzeReferences_untyped; try assumption; try reflexivity; split; assumption. }
  rewrite !AnalyzeFile_fields. cbn [fst AnalysisResult_References]. 
  destruct a1 as [fset1 [defs1 uses1] pkgs1 cplx1], a2 as [fset2 [defs2 uses2] pkgs2 cplx2].
  cbn in Hset, Hd1, Hu1, Hd2, Hu2. subst.
  repeat split; try reflexivity. exact Hrefs.
Qed.

End ComplexityMap.

Lemma score_of_first_file_witness :
  RangeOrder_ok inOrder
  /\ ASTAnalyzer_complexity Sample.greetAnalyzer = ∅
  /\ NoDup (map FunctionInfo_Name (AnalysisResult_Functions Sample.greetResult))
  /\ CodeMetrics_ComplexityScore (AnalysisResult_Metrics Sample.greetResult)
     = GoInt.wrap (sumOfComplexities Sample.greetResult).
Proof.
  assert (Hnodup : NoDup (map FunctionInfo_Name (AnalysisResult_Functions Sample.greetResult)))
    by (apply NoDup_ListNoDup; vm_compute; repeat constructor; vm_compute;
        intuition discriminate).
  split; [apply inOrder_ok|]. split; [reflexivity|]. split; [exact Hnodup|].
  exact (@score_of_first_file Sample.lib inOrder Sample.greetAnalyzer (Sample.greetFile 1)
           inOrder_ok eq_refl Hnodup).
Defined.

Lemma history_reaches_the_score_only_witness :
  let used := snd (@AnalyzeFile Sample.lib inOrder Sample.greetAnalyzer (Sample.greetFile 1)) in
  reachable (H := Sample.lib) Sample.greetAnalyzer
  /\ reachable (H := Sample.lib) used
  /\ ASTAnalyzer_fileSet Sample.greetAnalyzer = ASTAnalyzer_fileSet used
  /\ AnalysisResult_Functions (fst (@AnalyzeFile Sample.lib inOrder Sample.greetAnalyzer
                                      (Sample.initsFile 1)))
     = AnalysisResult_Functions (fst (@AnalyzeFile Sample.lib reversed used (Sample.initsFile 1)))
  /\ CodeMetrics_ComplexityScore
       (AnalysisResult_Metrics (fst (@AnalyzeFile Sample.lib inOrder Sample.greetAnalyzer
                                       (Sample.initsFile 1)))) = 1
  /\ CodeMetrics_ComplexityScore
       (AnalysisResult_Metrics (fst (@AnalyzeFile Sample.lib reversed used
                                       (Sample.initsFile 1)))) = 4.
Proof.
  intros used.
  assert (Hnew : reachable (H := Sample.lib) Sample.greetAnalyzer) by apply reachable_new.
  assert (Hused : reachable (H := Sample.lib) used)
    by (apply reachable_AnalyzeFile, Hnew).
  assert (Hset : ASTAnalyzer_fileSet Sample.greetAnalyzer = ASTAnalyzer_fileSet used)
    by (vm_compute; reflexivity).
  split; [exact Hnew|]. split; [exact Hused|]. split; [exact Hset|].
  split; [|split; vm_compute; reflexivity].
  apply (@history_reaches_the_score_only Sample.lib inOrder reversed Sample.greetAnalyzer used
           (Sample.initsFile 1) Hnew Hused Hset inOrder_ok reversed_ok).
Defined.

(** ** Packages *)

Section Packages.

Context `{AstLib}.

Lemma analyzeFiles_lists os i files result a :
  let out := fst (analyzeFiles os i files result a) in
  AnalysisResult_Imports out
  = AnalysisResult_Imports result
    ++ flat_map (fun file => AnalysisResult_Imports (fst (AnalyzeFile inOrder a file))) files
  /\ AnalysisResult_Functions out
     = AnalysisResult_Functions result
       ++ flat_map (fun file => AnalysisResult_Functions (fst (AnalyzeFile inOrder a file))) files
  /\ AnalysisResult_Types out
     = AnalysisResult_Types result
       ++ flat_map (fun file => AnalysisResult_Types (fst (AnalyzeFile inOrder a file))) files
  /\ AnalysisResult_Variables out
     = AnalysisResult_Variables result
       ++ flat_map (fun file => AnalysisResult_Variables (fst (AnalyzeFile inOrder a file)))
            files
  /\ AnalysisResult_Diagnostics out
     = AnalysisResult_Diagnostics result
       ++ flat_map (fun file => AnalysisResult_Diagnostics (fst (AnalyzeFile inOrder a file)))
            files
  /\ AnalysisResult_References out = AnalysisResult_References result.
Proof.
  cbn zeta. revert i result a.
  induction files as [|file files IH]; intros i result a; cbn [analyzeFiles flat_map].
  - rewrite !app_nil_r. repeat split.
  - rewrite !AnalyzeFile_fields. cbv beta iota.
    match goal with
    | |- context [analyzeFiles os (Datatypes.S i) files ?r ?a1] =>
        destruct (IH (Datatypes.S i) r a1)
          as (Himports & Hfunctions & Htypes & Hvariables & Hdiagnostics & Hreferences)
    end.
    rewrite Himports, Hfunctions, Htypes, Hvariables, Hdiagnostics, Hreferences.
    cbn [fst snd AnalysisResult_Imports AnalysisResult_Functions AnalysisResult_Types
         AnalysisResult_Variables AnalysisResult_Diagnostics AnalysisResult_References].
    rewrite <- !app_assoc.
    repeat split; f_equal; f_equal; apply flat_map_ext; intros file';
      rewrite !AnalyzeFile_fields; reflexivity.
Qed.

(** X12. [AnalyzePackage] needs a file: with none it panics.  With some,
    it registers the package under the path, named after the package of
    the first file, and returns the imports, functions, types, variables
    and diagnostics that [AnalyzeFile] returns for each file, one file
    after the other -- but no reference at all, whatever the type
    information: the references of the files are dropped. *)
Theorem AnalyzePackage_concatenates os a pkgPath files result a' :
  AnalyzePackage os a pkgPath files = Some (result, a') ->
  (exists file0 rest pkg,
     files = file0 :: rest
     /\ ASTAnalyzer_packages a' !! pkgPath = Some pkg
     /\ Package_Name pkg = Ident_Name (File_Name file0))
  /\ AnalysisResult_Imports result
     = flat_map (fun file => AnalysisResult_Imports (fst (AnalyzeFile inOrder a file))) files
  /\ AnalysisResult_Functions result
     = flat_map (fun file => AnalysisResult_Functions (fst (AnalyzeFile inOrder a file))) files
  /\ AnalysisResult_Types result
     = flat_map (fun file => AnalysisResult_Types (fst (AnalyzeFile inOrder a file))) files
  /\ AnalysisResult_Variables result
     = flat_map (fun file => AnalysisResult_Variables (fst (AnalyzeFile inOrder a file))) files
  /\ AnalysisResult_Diagnostics result
     = flat_map (fun file => AnalysisResult_Diagnostics (fst (AnalyzeFile inOrder a file)))
         files
  /\ AnalysisResult_References result = [].
Proof.
  intros Hpkg. unfold AnalyzePackage in Hpkg.
  destruct files as [|file0 rest]; [discriminate|].
  set (files := file0 :: rest) in *.
  set (a0 := {| ASTAnalyzer_fileSet := ASTAnalyzer_fileSet a |}) in Hpkg.
  set (r0 := {| AnalysisResult_Imports := [] |}) in Hpkg.
  destruct (analyzeFiles_lists os 0%nat files r0 a0)
    as (Himports & Hfunctions & Htypes & Hvariables & Hdiagnostics & Hreferences).
  assert (Hpackages : ASTAnalyzer_packages (snd (analyzeFiles os 0%nat files r0 a0))
                      = ASTAnalyzer_packages a0).
  { generalize 0%nat, r0, a0. clear. induction files as [|file files IH]; intros i r a0.
    - reflexivity.
    - cbn [analyzeFiles]. rewrite AnalyzeFile_fields. cbv beta iota. rewrite IH. reflexivity. }
  assert (Hout : analyzeFiles os 0%nat files r0 a0 = (result, a')) by congruence.
  rewrite Hout in Himports, Hfunctions, Htypes, Hvariables, Hdiagnostics, Hreferences,
    Hpackages.
  cbn [fst snd] in *. split.
  - exists file0, rest. eexists. split; [reflexivity|]. rewrite Hpackages.
    subst a0. cbn [ASTAnalyzer_packages]. rewrite lookup_insert_eq. split; reflexivity.
  - rewrite Himports, Hfunctions, Htypes, Hvariables, Hdiagnostics, Hreferences.
    subst r0. cbn [AnalysisResult_Imports AnalysisResult_Functions AnalysisResult_Types
      AnalysisResult_Variables AnalysisResult_Diagnostics AnalysisResult_References app].
    repeat split; apply flat_map_ext; intros file'; rewrite !AnalyzeFile_fields; reflexivity.
Qed.

End Packages.

Lemma AnalyzePackage_concatenates_witness :
  exists result a',
    @AnalyzePackage Sample.lib (fun _ => inOrder) Fixture.typedAnalyzer "example/greet"
      [Sample.greetFile 1; Sample.addFile_ 1]
    = Some (result, a')
    /\ map FunctionInfo_Name (AnalysisResult_Functions result) = ["Greet"; "helper"; "add"]
    /\ AnalysisResult_References result = []
    /\ List.length (AnalysisResult_References
                      (fst (@AnalyzeFile Sample.lib inOrder Fixture.typedAnalyzer
                              (Sample.greetFile 1)))) = 3%nat.
Proof.
  destruct (@AnalyzePackage Sample.lib (fun _ => inOrder) Fixture.typedAnalyzer "example/greet"
              [Sample.greetFile 1; Sample.addFile_ 1]) as [[result a']|] eqn:Hpkg;
    [|vm_compute in Hpkg; discriminate].
  exists result, a'. split; [reflexivity|].
  destruct (@AnalyzePackage_concatenates Sample.lib _ _ _ _ _ _ Hpkg)
    as (_ & _ & Hfunctions & _ & _ & _ & Hreferences).
  split; [rewrite Hfunctions; vm_compute; reflexivity|].
  split; [exact Hreferences | vm_compute; reflexivity].
Defined.

(** ** The analysis routes *)

Lemma Position_NewFileSet (p : Pos) : TokenLib.Position NewFileSet p = noPosition.
Proof. unfold TokenLib.Position. destruct (p =? NoPos); reflexivity. Qed.

Section Routes.

Context `{AstLib} `{Parser}.

Lemma serveAnalysis_analyzer o a call :
  reachable a ->
  reachable (snd (serveAnalysis o a call))
  /\ ASTAnalyzer_fileSet (snd (serveAnalysis o a call)) = ASTAnalyzer_fileSet a.
Proof.
  intros Ha.
  destruct call as [req|req|req]; cbn [serveAnalysis];
    unfold handleFileAnalysis, handleDependencyAnalysis, handleMetricsAnalysis;
    destruct (snd (ParseFile NewFileSet (AnalysisRequest_URI req)
                     (AnalysisRequest_Content req))) as [file|err];
    cbn [snd]; auto.
  - pose proof (reachable_AnalyzeFile o a file Ha) as Ha'.
    rewrite AnalyzeFile_fields in *. cbn [snd] in *. auto.
  - pose proof (reachable_AnalyzeFile o a file Ha) as Ha'.
    rewrite AnalyzeFile_fields in *. cbn [snd] in *. auto.
Qed.

Lemma runAnalysis_responses os i a calls resp :
  reachable a ->
  In resp (fst (runAnalysis os i a calls)) ->
  exists o a0 call,
    reachable a0
    /\ ASTAnalyzer_fileSet a0 = ASTAnalyzer_fileSet a
    /\ resp = fst (serveAnalysis o a0 call).
Proof.
  revert i a. induction calls as [|call calls IH]; intros i a Ha Hresp; [contradiction|].
  cbn [runAnalysis] in Hresp.
  destruct (serveAnalysis_analyzer (os i) a call Ha) as [Ha' Hset].
  destruct (serveAnalysis (os i) a call) as [resp0 a1] eqn:Hcall. cbn [snd] in *.
  destruct (runAnalysis os (Datatypes.S i) a1 calls) as [resps a2] eqn:Hrest.
  cbn [fst] in Hresp. destruct Hresp as [<-|Hresp].
  - exists (os i), a, call. rewrite Hcall. auto.
  - destruct (IH (Datatypes.S i) a1 Ha') as (o & a0 & call0 & Ha0 & Hset0 & ->).
    + rewrite Hrest. exact Hresp.
    + exists o, a0, call0. split; [exact Ha0|]. split; [congruence | reflexivity].
Qed.

Lemma unresolved_locations o a file :
  ASTAnalyzer_fileSet a = NewFileSet ->
  let r := fst (AnalyzeFile o a file) in
  Forall (fun f => Location_Range (FunctionInfo_Location f) = unresolved)
    (AnalysisResult_Functions r)
  /\ Forall (fun t => Location_Range (TypeInfo_Location t) = unresolved)
       (AnalysisResult_Types r)
  /\ Forall (fun v => Location_Range (VariableInfo_Location v) = unresolved)
       (AnalysisResult_Variables r)
  /\ CodeMetrics_LinesOfCode (AnalysisResult_Metrics r) = 0.
Proof.
  intros Hset. cbn zeta. rewrite AnalyzeFile_fields.
  cbn [fst AnalysisResult_Functions AnalysisResult_Types AnalysisResult_Variables
       AnalysisResult_Metrics].
  rewrite analyzeTypes_nodes, analyzeVariables_nodes.
  split; [|split; [|split]].
  - apply List.Forall_forall. intros f Hf.
    apply in_functionsOf in Hf as (? & ? & ? & ? & ? & ? & ? & _ & ->).
    cbn [functionInfo FunctionInfo_Location nodeLocation Location_Range].
    rewrite Hset, !Position_NewFileSet. reflexivity.
  - apply List.Forall_forall. intros t Ht. apply in_flat_map in Ht as (n & _ & Ht).
    destruct n; try contradiction. destruct Ht as [<-|[]].
    unfold typeInfo. cbn [afterFunctions ASTAnalyzer_fileSet].
    rewrite Hset, !Position_NewFileSet. destruct n; reflexivity.
  - apply List.Forall_forall. intros v Hv. apply in_flat_map in Hv as (n & _ & Hv).
    destruct n; try contradiction. apply in_map_iff in Hv as (name & <- & _).
    cbn [variableInfo VariableInfo_Location nodeLocation Location_Range afterFunctions
         ASTAnalyzer_fileSet].
    rewrite Hset, !Position_NewFileSet. reflexivity.
  - unfold calculateMetrics. cbn [CodeMetrics_LinesOfCode afterFunctions ASTAnalyzer_fileSet].
    rewrite InspectFile_fileNodes by (intros n s; destruct n; reflexivity).
    rewrite Hset, Position_NewFileSet.
    set (f := fun (n : Node) (metrics : CodeMetrics) => _).
    set (m0 := {| CodeMetrics_LinesOfCode := _ |}).
    assert (Hlines : forall l m,
               CodeMetrics_LinesOfCode (fold_left (visited f) l m)
               = CodeMetrics_LinesOfCode m).
    { induction l as [|n l IH]; intros m; [reflexivity|].
      rewrite step_cons, IH. unfold f. destruct n; reflexivity. }
    rewrite Hlines. reflexivity.
Qed.

(** X13. The analysis routes parse every request into a new file set and
    analyze the tree with the one analyzer of the server, whose own file
    set stays empty.  So in every answer of the file route, whatever was
    requested before, no position is resolved: every function, type and
    variable is located at line -1, character -1, and the metrics count 0
    lines of code. *)
Theorem analysis_routes_resolve_no_position os calls resp result :
  In resp (fst (runAnalysis os 0%nat handlerAnalyzer calls)) ->
  AnalysisResponse_body resp = FileBody result ->
  Forall (fun f => Location_Range (FunctionInfo_Location f) = unresolved)
    (AnalysisResult_Functions result)
  /\ Forall (fun t => Location_Range (TypeInfo_Location t) = unresolved)
       (AnalysisResult_Types result)
  /\ Forall (fun v => Location_Range (VariableInfo_Location v) = unresolved)
       (AnalysisResult_Variables result)
  /\ CodeMetrics_LinesOfCode (AnalysisResult_Metrics result) = 0.
Proof.
  intros Hresp Hbody.
  destruct (runAnalysis_responses os 0%nat handlerAnalyzer calls resp
              (reachable_new NewFileSet) Hresp) as (o & a & call & _ & Hset & ->).
  destruct call as [req|req|req]; cbn [serveAnalysis] in Hbody;
    unfold handleFileAnalysis, handleDependencyAnalysis, handleMetricsAnalysis in Hbody;
    destruct (snd (ParseFile NewFileSet (AnalysisRequest_URI req)
                     (AnalysisRequest_Content req))) as [file|err];
    try discriminate.
  - pose proof (unresolved_locations o a file Hset) as Hloc.
    destruct (AnalyzeFile o a file) as [r a1]. cbn in Hbody, Hloc.
    injection Hbody as <-. exact Hloc.
  - destruct (AnalyzeFile o a file) as [r a1]. discriminate.
Qed.

(** X14. The dependencies route never reports a dependency: whatever was
    requested before and whatever the file imports and uses, its answer
    to a text that parses is the empty map. *)
Theorem dependencies_route_is_empty os calls resp deps :
  In resp (fst (runAnalysis os 0%nat handlerAnalyzer calls)) ->
  AnalysisResponse_body resp = DependenciesBody deps ->
  deps = ∅.
Proof.
  intros Hresp Hbody.
  destruct (runAnalysis_responses os 0%nat handlerAnalyzer calls resp
              (reachable_new NewFileSet) Hresp) as (o & a & call & Ha & _ & ->).
  destruct call as [req|req|req]; cbn [serveAnalysis] in Hbody;
    unfold handleFileAnalysis, handleDependencyAnalysis, handleMetricsAnalysis in Hbody;
    destruct (snd (ParseFile NewFileSet (AnalysisRequest_URI req)
                     (AnalysisRequest_Content req))) as [file|err];
    try discriminate.
  - destruct (AnalyzeFile o a file) as [r a1]. discriminate.
  - cbn in Hbody. injection Hbody as <-.
    apply AnalyzeDependencies_untyped, reachable_untyped, Ha.
  - destruct (AnalyzeFile o a file) as [r a1]. discriminate.
Qed.

End Routes.

Lemma analysis_routes_resolve_no_position_witness :
  In Fixture.greetResponse Fixture.responses
  /\ AnalysisResponse_body Fixture.greetResponse
     = FileBody (fst (@AnalyzeFile Sample.lib inOrder handlerAnalyzer (Sample.greetFile 1)))
  /\ Forall (fun f => Location_Range (FunctionInfo_Location f) = unresolved)
       (AnalysisResult_Functions
          (fst (@AnalyzeFile Sample.lib inOrder handlerAnalyzer (Sample.greetFile 1))))
  /\ CodeMetrics_LinesOfCode
       (AnalysisResult_Metrics
          (fst (@AnalyzeFile Sample.lib inOrder handlerAnalyzer (Sample.greetFile 1)))) = 0.
Proof.
  assert (Hin : In Fixture.greetResponse
                  (fst (@runAnalysis Sample.lib Sample.parser (fun _ => inOrder) 0%nat
                          handlerAnalyzer Fixture.calls)))
    by (vm_compute; left; reflexivity).
  split; [exact Hin|]. split; [reflexivity|].
  destruct (@analysis_routes_resolve_no_position Sample.lib Sample.parser (fun _ => inOrder)
              Fixture.calls Fixture.greetResponse _ Hin eq_refl) as (Hf & _ & _ & Hl).
  split; [exact Hf | exact Hl].
Defined.

Lemma dependencies_route_is_empty_witness :
  In Fixture.dependenciesResponse Fixture.responses
  /\ AnalysisResponse_body Fixture.dependenciesResponse
     = DependenciesBody Fixture.greetDependencies
  /\ Fixture.greetDependencies = ∅.
Proof.
  assert (Hin : In Fixture.dependenciesResponse
                  (fst (@runAnalysis Sample.lib Sample.parser (fun _ => inOrder) 0%nat
                          handlerAnalyzer Fixture.calls)))
    by (vm_compute; right; left; reflexivity).
  split; [exact Hin|]. split; [reflexivity|].
  exact (@dependencies_route_is_empty Sample.lib Sample.parser (fun _ => inOrder)
           Fixture.calls Fixture.dependenciesResponse _ Hin eq_refl).
Defined.

(** ** Signatures *)

Lemma append_assoc (a b c : string) : (a +:+ b) +:+ c = a +:+ (b +:+ c).
Proof.
  induction a as [|x a IH]; [reflexivity|].
  change (String x ((a +:+ b) +:+ c) = String x (a +:+ (b +:+ c))).
  rewrite IH. reflexivity.
Qed.

Lemma nodeString_typeString (t : Node) : plainType t -> nodeString t = typeString t.
Proof. induction 1; cbn [nodeString typeString]; congruence. Qed.

Lemma plain_params (l : list Node) :
  Forall plainParam l ->
  flat_map
    (fun param =>
       map (fun name => Ident_Name name +:+ " " +:+ nodeToString (Ast.Field_Type param))
         (Ast.Field_Names param)) l
  = fieldStrings typeString (Some (FieldList l)).
Proof.
  intros Hl. cbn [fieldStrings]. induction Hl as [|p l Hp Hl IH]; cbn [flat_map]; [reflexivity|].
  rewrite IH. f_equal.
  destruct Hp as (doc & name & names & t & tag & comment & -> & Ht).
  cbn [Ast.Field_Names Ast.Field_Type nodeToString fieldTypeString].
  rewrite (nodeString_typeString t Ht). reflexivity.
Qed.

Lemma plain_results (l : list Node) :
  Forall plainResult l ->
  flat_map
    (fun result =>
       match Ast.Field_Names result with
       | [] => [nodeToString (Ast.Field_Type result)]
       | names =>
           map (fun name => Ident_Name name +:+ " " +:+ nodeToString (Ast.Field_Type result))
             names
       end) l
  = fieldStrings typeString (Some (FieldList l)).
Proof.
  intros Hl. cbn [fieldStrings]. induction Hl as [|p l Hp Hl IH]; cbn [flat_map]; [reflexivity|].
  rewrite IH. f_equal.
  destruct Hp as (doc & names & t & tag & comment & -> & Ht).
  cbn [Ast.Field_Names Ast.Field_Type nodeToString fieldTypeString].
  rewrite (nodeString_typeString t Ht). reflexivity.
Qed.

(** X15. For a function without receiver whose parameters all have names
    and whose parameter and result types are made of identifiers,
    pointers, slices and qualified names, the language server and the
    analyzer print the same signature. *)
Theorem signatures_agree (Name : Ident) (TypeParams Params Results : option Node) :
  plainFields plainParam Params ->
  plainFields plainResult Results ->
  ls_getFunctionSignature Name (FuncType TypeParams Params Results)
  = getFunctionSignature None Name (FuncType TypeParams Params Results).
Proof.
  intros Hparams Hresults.
  unfold ls_getFunctionSignature, getFunctionSignature, getFunctionTypeSignature,
    functionTypeSignature.
  cbn [Ast.FuncType_Params Ast.FuncType_Results].
  assert (Hp : match Params with
               | Some fl =>
                   flat_map
                     (fun param =>
                        map (fun name =>
                               Ident_Name name +:+ " " +:+ nodeToString (Ast.Field_Type param))
                          (Ast.Field_Names param)) (Ast.FieldList_List fl)
               | None => []
               end = fieldStrings typeString Params).
  { destruct Params as [[]|]; cbn in Hparams; try contradiction; [|reflexivity].
    apply plain_params, Hparams. }
  assert (Hr : match Results with
               | Some fl =>
                   flat_map
                     (fun result =>
                        match Ast.Field_Names result with
                        | [] => [nodeToString (Ast.Field_Type result)]
                        | names =>
                            map (fun name =>
                                   Ident_Name name +:+ " "
                                   +:+ nodeToString (Ast.Field_Type result)) names
                        end) (Ast.FieldList_List fl)
               | None => []
               end = fieldStrings typeString Results).
  { destruct Results as [[]|]; cbn in Hresults; try contradiction; [|reflexivity].
    apply plain_results, Hresults. }
  rewrite Hp, Hr.
  generalize (Strings.Join (fieldStrings typeString Params) ", ") as P.
  generalize (fieldStrings typeString Results) as R. intros R P.
  change (EmptyString +:+ ?x) with x.
  destruct R as [|r [|r' R]]; rewrite ?append_assoc; cbn [String.append]; repeat f_equal;
    rewrite ?append_assoc; reflexivity.
Qed.

Lemma signatures_agree_witness :
  plainFields plainParam (Ast.FuncType_Params Fixture.joinType)
  /\ plainFields plainResult (Ast.FuncType_Results Fixture.joinType)
  /\ ls_getFunctionSignature (Sample.ident 1 5 "Join") Fixture.joinType
     = "func Join(dir string, names []string) (path string, err error)"
  /\ ls_getFunctionSignature (Sample.ident 1 5 "Join") Fixture.joinType
     = getFunctionSignature None (Sample.ident 1 5 "Join") Fixture.joinType.
Proof.
  assert (Hparams : plainFields plainParam (Ast.FuncType_Params Fixture.joinType)).
  { cbn. repeat constructor; unfold plainParam; eexists _, _, _, _, _, _;
      (split; [reflexivity | repeat constructor]). }
  assert (Hresults : plainFields plainResult (Ast.FuncType_Results Fixture.joinType)).
  { cbn. repeat constructor; unfold plainResult; eexists _, _, _, _, _;
      (split; [reflexivity | repeat constructor]). }
  split; [exact Hparams|]. split; [exact Hresults|]. split; [vm_compute; reflexivity|].
  exact (signatures_agree (Sample.ident 1 5 "Join") None _ _ Hparams Hresults).
Defined.

(** ** Import paths *)

Lemma TrimRight_quote (p : string) :
  without Strings.dquote p ->
  Strings.TrimRight (p +:+ String Strings.dquote EmptyString) Strings.dquote = p.
Proof.
  induction p as [|c p IH]; intros Hp; [reflexivity|].
  destruct Hp as [Hc Hp].
  change (String c p +:+ String Strings.dquote EmptyString)
    with (String c (p +:+ String Strings.dquote EmptyString)).
  cbn [Strings.TrimRight]. rewrite (IH Hp).
  destruct p; [|reflexivity].
  apply Ascii.eqb_neq in Hc. rewrite Hc. reflexivity.
Qed.

(** X16. The path of an import written as an interpreted string literal is
    the text between the quotes: trimming the quotes off the literal that
    quotes [p] gives [p] back, when [p] holds no quote. *)
Theorem importPath_of_literal (imp : ImportSpec) (p : string) :
  BasicLit_Value (ImportSpec_Path imp) = Strings.quoted p ->
  without Strings.dquote p ->
  importPath imp = p.
Proof.
  intros Hvalue Hp. unfold importPath, Strings.Trim. rewrite Hvalue. unfold Strings.quoted.
  change (Strings.TrimLeft (String Strings.dquote ?x) Strings.dquote)
    with (Strings.TrimLeft x Strings.dquote).
  destruct p as [|c p]; [reflexivity|].
  change (String c p +:+ String Strings.dquote EmptyString)
    with (String c (p +:+ String Strings.dquote EmptyString)).
  cbn [Strings.TrimLeft]. pose proof Hp as [Hc _].
  apply Ascii.eqb_neq in Hc. rewrite Hc.
  exact (TrimRight_quote (String c p) Hp).
Qed.

Lemma importPath_of_literal_witness :
  BasicLit_Value (ImportSpec_Path (Sample.importFmt 1)) = Strings.quoted "fmt"
  /\ without Strings.dquote "fmt"
  /\ importPath (Sample.importFmt 1) = "fmt".
Proof.
  assert (Hp : without Strings.dquote "fmt") by (cbn; repeat split; discriminate).
  split; [reflexivity|]. split; [exact Hp|].
  exact (importPath_of_literal (Sample.importFmt 1) "fmt" eq_refl Hp).
Defined.
